(** * Smart-Expense-Analyzer: categorisation and profile analysis

    A shallow embedding of [config.py], [transaction_categorizer.py] and
    [user_profile.py], with the properties of the categoriser and of the
    transaction analysis proved over it, followed by the suggestion
    engine of [suggestions_engine.py], the topics and questions of
    [chatbot.py], the column detection of [app.py] and the fallback chain
    of [ai_categorizer.py].

    Modelling conventions
    - A Python [str] is a [string] whose characters are the code points
      0..255 (Latin-1); all keywords of the table are ASCII.
    - A number (Python [int]/[float], a pandas numeric cell) is an exact
      rational [Q]; rounding of binary floating point is not modelled.
    - A pandas [DataFrame] is the list of its rows, in index order.
    - A Python exception is the [Raise] branch of the [exc] monad.
    - The draws of [random.sample] are read from a list of numbers given
      as an argument; the wording of the suggestions is not modelled. *)

From Stdlib Require Import Bool List Ascii String ZArith QArith Lia Lqa.
From Stdlib Require Import Permutation Sorted OrdersEx.
Import ListNotations.

Local Open Scope string_scope.
Local Open Scope Z_scope.
Local Open Scope Q_scope.

(** ** Python built-ins used by the sources *)

Module Py.

(** Exceptions the modelled code can raise. *)
Inductive error : Type :=
| ZeroDivisionError
| TypeError
| ValueError.

Inductive exc (A : Type) : Type :=
| Ok (a : A)
| Raise (e : error).
Arguments Ok {A} a.
Arguments Raise {A} e.

Definition bind {A B : Type} (m : exc A) (k : A -> exc B) : exc B :=
  match m with
  | Ok a => k a
  | Raise e => Raise e
  end.

(** [str.lower()] on code points below 256: A-Z, and the Latin-1 capitals
    U+00C0..U+00DE except the multiplication sign U+00D7, gain 32. *)
Definition lower_char (c : ascii) : ascii :=
  let n := N_of_ascii c in
  if ((65 <=? n) && (n <=? 90))%N
     || ((192 <=? n) && (n <=? 222) && negb (n =? 215))%N
  then ascii_of_N (n + 32)
  else c.

Fixpoint lower (s : string) : string :=
  match s with
  | EmptyString => EmptyString
  | String c s' => String (lower_char c) (lower s')
  end.

(** [kw in s] for two strings: [kw] occurs in [s] as a contiguous run. *)
Fixpoint str_in (kw s : string) : bool :=
  if String.prefix kw s then true
  else match s with
       | EmptyString => false
       | String _ s' => str_in kw s'
       end.

(** [x > y] on numbers. *)
Definition gt (x y : Q) : bool := negb (Qle_bool x y).

(** [x < y] on numbers. *)
Definition lt (x y : Q) : bool := negb (Qle_bool y x).

(** [x >= y] on numbers. *)
Definition ge (x y : Q) : bool := Qle_bool y x.

(** [x / y] on Python floats: a zero divisor raises. *)
Definition truediv (x y : Q) : exc Q :=
  if Qeq_bool y 0 then Raise ZeroDivisionError else Ok (x / y).

End Py.

Import Py.

Notation "x <- m ;; k" := (bind m (fun x => k))
  (at level 61, m at next level, right associativity).

(** ** config.py *)

Module Config.

(** [CATEGORY_KEYWORDS]: a dict literal; iteration follows insertion order,
    so it is an association list. *)
Definition CATEGORY_KEYWORDS : list (string * list string) :=
  [ ("Food & Dining",
     ["food"; "restaurant"; "swiggy"; "zomato"; "dominos"; "mcdonalds";
      "starbucks"; "grocery"; "supermarket"; "cafe"; "dining"; "meal";
      "pizza"; "burger"; "coffee"; "tea"; "snack"; "lunch"; "dinner"]);
    ("Transportation",
     ["uber"; "ola"; "taxi"; "cab"; "petrol"; "diesel"; "fuel"; "gas";
      "bus"; "train"; "metro"; "parking"; "toll"; "transport"; "ride"]);
    ("Shopping",
     ["amazon"; "flipkart"; "myntra"; "shopping"; "mall"; "store"; "shop";
      "clothes"; "fashion"; "electronics"; "book"; "purchase"; "order"]);
    ("Bills & Utilities",
     ["electricity"; "water"; "internet"; "phone"; "bill"; "utility";
      "gas"; "rent"; "insurance"; "credit card"; "premium"; "subscription"]);
    ("Entertainment",
     ["netflix"; "spotify"; "movie"; "cinema"; "game"; "gaming";
      "entertainment"; "concert"; "theater"; "streaming"; "music"; "video";
      "show"]);
    ("Healthcare",
     ["hospital"; "doctor"; "medicine"; "pharmacy"; "health"; "medical";
      "clinic"; "dental"; "eye"; "prescription"; "treatment"]);
    ("Education",
     ["school"; "college"; "university"; "course"; "book"; "education";
      "tuition"; "fee"; "student"; "learning"; "training"]);
    ("Travel",
     ["hotel"; "flight"; "travel"; "vacation"; "trip"; "booking";
      "airline"; "resort"; "tourism"; "journey"]);
    ("Investments",
     ["investment"; "mutual fund"; "stock"; "savings"; "sip"; "equity";
      "portfolio"; "fund"; "trading"; "brokerage"]);
    ("Income",
     ["salary"; "bonus"; "income"; "credit"; "deposit"; "refund";
      "cashback"; "interest"; "dividend"; "freelance"; "payment"]) ].

(** [CATEGORIES] *)
Definition CATEGORIES : list string :=
  [ "Food & Dining"; "Transportation"; "Shopping"; "Bills & Utilities";
    "Entertainment"; "Healthcare"; "Education"; "Travel"; "Investments";
    "Income"; "Other" ].

End Config.

(** ** transaction_categorizer.py *)

Module TransactionCategorizer.

(** The inner loop
    [for keyword in keywords: if keyword in description_lower]. *)
Fixpoint any_keyword (keywords : list string) (description_lower : string)
  : bool :=
  match keywords with
  | [] => false
  | keyword :: rest =>
      if str_in keyword description_lower then true
      else any_keyword rest description_lower
  end.

(** The outer loop over [CATEGORY_KEYWORDS.items()]; [Some category] is the
    early [return category], [None] is falling out of the loop. *)
Fixpoint scan_table (table : list (string * list string))
         (description_lower : string) : option string :=
  match table with
  | [] => None
  | (category, keywords) :: rest =>
      if any_keyword keywords description_lower then Some category
      else scan_table rest description_lower
  end.

Definition categorize_transaction
           (description : string) (amount : Q) (transaction_type : string)
  : string :=
  let description_lower := lower description in
  match scan_table Config.CATEGORY_KEYWORDS description_lower with
  | Some category => category
  | None =>
      if String.eqb transaction_type "Credit" then "Income"
      else if gt amount 10000 then "Shopping"
      else if gt amount 1000 then "Bills & Utilities"
      else "Other"
  end.

End TransactionCategorizer.

Import TransactionCategorizer.

(** ** The fragment of pandas and numpy the analysis relies on *)

Module Pandas.

(** A [Timestamp] at midnight: only the calendar date matters here. *)
Record Timestamp : Type :=
  { year : Z; month : Z; day : Z }.

(** A cell of the [date] column: text as read from a CSV or a statement,
    or an already parsed timestamp. *)
Inductive date_cell : Type :=
| DateStr (s : string)
| DateTs (t : Timestamp).

Record row : Type :=
  { date : date_cell;
    description : string;
    amount : Q;
    type : string;
    category : string }.

Definition DataFrame : Type := list row.

(** [df.empty], [series.empty] *)
Definition empty {A : Type} (df : list A) : bool :=
  match df with [] => true | _ :: _ => false end.

(** A monthly [Period], by its ordinal: months since January 1970. *)
Definition Period : Type := Z.

Fixpoint mapM {A B : Type} (f : A -> exc B) (l : list A) : exc (list B) :=
  match l with
  | [] => Ok []
  | a :: l' => b <- f a ;; bs <- mapM f l' ;; Ok (b :: bs)
  end.

Definition digit (c : ascii) : option Z :=
  let n := Z.of_N (N_of_ascii c) in
  if ((48 <=? n) && (n <=? 57))%Z then Some (n - 48)%Z else None.

Definition is_leap (y : Z) : bool :=
  ((y mod 4 =? 0) && (negb (y mod 100 =? 0) || (y mod 400 =? 0)))%Z.

Definition days_in_month (y m : Z) : Z :=
  (if m =? 2 then (if is_leap y then 29 else 28)
   else if (m =? 4) || (m =? 6) || (m =? 9) || (m =? 11) then 30
   else 31)%Z.

(** [pd.to_datetime] on one text cell.  The modelled fragment is the ISO
    form [YYYY-MM-DD]; any other text raises, as unparseable text does. *)
Definition parse_datetime (s : string) : exc Timestamp :=
  match s with
  | String y1 (String y2 (String y3 (String y4 (String sep1
      (String m1 (String m2 (String sep2
        (String d1 (String d2 EmptyString))))))))) =>
      match digit y1, digit y2, digit y3, digit y4,
            digit m1, digit m2, digit d1, digit d2 with
      | Some a, Some b, Some c, Some d, Some e, Some f, Some g, Some h =>
          let y := (1000 * a + 100 * b + 10 * c + d)%Z in
          let m := (10 * e + f)%Z in
          let dd := (10 * g + h)%Z in
          if Ascii.eqb sep1 "-" && Ascii.eqb sep2 "-"
             && ((1 <=? m) && (m <=? 12) && (1 <=? dd)
                 && (dd <=? days_in_month y m))%Z
          then Ok {| year := y; month := m; day := dd |}
          else Raise ValueError
      | _, _, _, _, _, _, _, _ => Raise ValueError
      end
  | _ => Raise ValueError
  end.

Definition to_datetime_cell (c : date_cell) : exc Timestamp :=
  match c with
  | DateStr s => parse_datetime s
  | DateTs t => Ok t
  end.

(** [df['date'] = pd.to_datetime(df['date'])]: the column is replaced by
    its parsed form in the caller's frame. *)
Definition set_date (r : row) (t : Timestamp) : row :=
  {| date := DateTs t; description := description r; amount := amount r;
     type := type r; category := category r |}.

Fixpoint assign_to_datetime (df : DataFrame) : exc DataFrame :=
  match df with
  | [] => Ok []
  | r :: df' =>
      t <- to_datetime_cell (date r) ;;
      rest <- assign_to_datetime df' ;;
      Ok (set_date r t :: rest)
  end.

(** [series.dt.to_period('M')] on one cell; the [.dt] accessor exists on
    datetime values only. *)
Definition to_period_M (c : date_cell) : exc Period :=
  match c with
  | DateStr _ => Raise TypeError
  | DateTs t => Ok ((year t - 1970) * 12 + (month t - 1))%Z
  end.

Definition Timestamp_leb (a b : Timestamp) : bool :=
  ((year a <? year b)
   || ((year a =? year b)
       && ((month a <? month b)
           || ((month a =? month b) && (day a <=? day b)))))%Z.

(** [series.min()] and [series.max()] of a datetime column; [None] stands
    for the [NaT] of an empty column. *)
Fixpoint ts_min (l : list Timestamp) : option Timestamp :=
  match l with
  | [] => None
  | t :: l' =>
      match ts_min l' with
      | None => Some t
      | Some m => Some (if Timestamp_leb t m then t else m)
      end
  end.

Fixpoint ts_max (l : list Timestamp) : option Timestamp :=
  match l with
  | [] => None
  | t :: l' =>
      match ts_max l' with
      | None => Some t
      | Some m => Some (if Timestamp_leb m t then t else m)
      end
  end.

(** [series.sum()] *)
Definition sum (l : list Q) : Q := fold_right Qplus 0 l.

(** [series.mean()].  pandas answers NaN on an empty series; the model has
    no NaN and raises there instead. *)
Definition mean (l : list Q) : exc Q :=
  truediv (sum l) (inject_Z (Z.of_nat (List.length l))).

Section GroupBy.
Context {K : Type} (cmp : K -> K -> comparison).

(** One row added to the running groups, kept in ascending key order. *)
Fixpoint group_add (k : K) (v : Q) (g : list (K * Q)) : list (K * Q) :=
  match g with
  | [] => [(k, v)]
  | (k', s) :: g' =>
      match cmp k k' with
      | Lt => (k, v) :: g
      | Eq => (k', s + v) :: g'
      | Gt => (k', s) :: group_add k v g'
      end
  end.

(** [df.groupby(key)['amount'].sum()]: one entry per distinct key, keys
    ascending (the default [sort=True]). *)
Definition groupby_sum (kvs : list (K * Q)) : list (K * Q) :=
  fold_left (fun g kv => group_add (fst kv) (snd kv) g) kvs [].
End GroupBy.

Section SortValues.
Context {K V : Type} (gtb : V -> V -> bool).

Fixpoint insert_desc (x : K * V) (l : list (K * V)) : list (K * V) :=
  match l with
  | [] => [x]
  | y :: l' =>
      if gtb (snd y) (snd x) then y :: insert_desc x l' else x :: l
  end.

(** [series.sort_values(ascending=False)], modelled as the stable
    descending sort: equal values keep their order in the input. *)
Definition sort_values_desc (l : list (K * V)) : list (K * V) :=
  fold_right insert_desc [] l.
End SortValues.

(** [series.head(n)] *)
Definition head {A : Type} (n : nat) (l : list A) : list A := firstn n l.

(** The tally behind [series.value_counts()]: distinct values in order of
    first appearance, each with its number of occurrences. *)
Fixpoint count_add (s : string) (c : list (string * nat))
  : list (string * nat) :=
  match c with
  | [] => [(s, 1%nat)]
  | (s', n) :: c' =>
      if String.eqb s s' then (s', S n) :: c' else (s', n) :: count_add s c'
  end.

(** [series.value_counts()]: the tally, most frequent first. *)
Definition value_counts (l : list string) : list (string * nat) :=
  sort_values_desc (fun a b => Nat.ltb b a)
                   (fold_left (fun c s => count_add s c) l []).

(** [series.idxmax()]: the key of the first largest value. *)
Fixpoint idxmax {K : Type} (l : list (K * Q)) : exc K :=
  match l with
  | [] => Raise ValueError
  | (k, v) :: l' =>
      match l' with
      | [] => Ok k
      | _ :: _ =>
          k' <- idxmax l' ;;
          Ok (if forallb (fun kv => Qle_bool (snd kv) v) l' then k else k')
      end
  end.

(** [series.idxmin()]: the key of the first smallest value. *)
Fixpoint idxmin {K : Type} (l : list (K * Q)) : exc K :=
  match l with
  | [] => Raise ValueError
  | (k, v) :: l' =>
      match l' with
      | [] => Ok k
      | _ :: _ =>
          k' <- idxmin l' ;;
          Ok (if forallb (fun kv => Qle_bool v (snd kv)) l' then k else k')
      end
  end.

(** The abscissae [range(n)] of the fit. *)
Definition xrange (n : nat) : list Q :=
  map (fun i => inject_Z (Z.of_nat i)) (seq 0 n).

Definition dot (xs ys : list Q) : Q :=
  sum (map (fun xy => fst xy * snd xy) (combine xs ys)).

(** [np.polyfit(range(n), ys, 1)]: the least-squares line through the
    points [(i, ys[i])], as [(slope, intercept)], computed exactly from
    the normal equations.  An empty vector is refused. *)
Definition polyfit1 (ys : list Q) : exc (Q * Q) :=
  match ys with
  | [] => Raise TypeError
  | _ :: _ =>
      let n := inject_Z (Z.of_nat (List.length ys)) in
      let xs := xrange (List.length ys) in
      let Sx := sum xs in
      let Sxx := dot xs xs in
      let Sy := sum ys in
      let Sxy := dot xs ys in
      let slope := (n * Sxy - Sx * Sy) / (n * Sxx - Sx * Sx) in
      Ok (slope, (Sy - slope * Sx) / n)
  end.

End Pandas.

Import Pandas.

(** ** user_profile.py *)

Module UserProfile.

(** The analysis dict.  Its keys are known, so it is a record with one
    optional field per key: [None] is an absent key.  The month keys are
    kept as periods (their text form [%Y-%m] is not modelled), and
    [date_range] keeps the two timestamps rather than their ISO text. *)
Record AnalysisDict : Type :=
  { total_transactions : option nat;
    date_range : option (option Timestamp * option Timestamp);
    total_income : option Q;
    monthly_income_avg : option Q;
    income_sources : option (list (string * nat));
    total_expenses : option Q;
    monthly_expenses_avg : option Q;
    expense_breakdown : option (list (string * Q));
    top_spending_categories : option (list (string * Q));
    spending_trend : option string;
    highest_spending_month : option (option Period);
    lowest_spending_month : option (option Period);
    monthly_spending : option (list (Period * Q));
    financial_health_score : option Z }.

(** [d.get(key, default)] *)
Definition get {A : Type} (field : option A) (default : A) : A :=
  match field with Some v => v | None => default end.

Definition upd {A : Type} (new old : option A) : option A :=
  match new with Some _ => new | None => old end.

(** [d.update(e)]: every key of [e] is written into [d]. *)
Definition update (d e : AnalysisDict) : AnalysisDict :=
  {| total_transactions := upd (total_transactions e) (total_transactions d);
     date_range := upd (date_range e) (date_range d);
     total_income := upd (total_income e) (total_income d);
     monthly_income_avg := upd (monthly_income_avg e) (monthly_income_avg d);
     income_sources := upd (income_sources e) (income_sources d);
     total_expenses := upd (total_expenses e) (total_expenses d);
     monthly_expenses_avg :=
       upd (monthly_expenses_avg e) (monthly_expenses_avg d);
     expense_breakdown := upd (expense_breakdown e) (expense_breakdown d);
     top_spending_categories :=
       upd (top_spending_categories e) (top_spending_categories d);
     spending_trend := upd (spending_trend e) (spending_trend d);
     highest_spending_month :=
       upd (highest_spending_month e) (highest_spending_month d);
     lowest_spending_month :=
       upd (lowest_spending_month e) (lowest_spending_month d);
     monthly_spending := upd (monthly_spending e) (monthly_spending d);
     financial_health_score :=
       upd (financial_health_score e) (financial_health_score d) |}.

(** The dict literal [{'total_transactions': .., 'date_range': ..}]. *)
Definition basic_dict (n : nat) (range : option Timestamp * option Timestamp)
  : AnalysisDict :=
  {| total_transactions := Some n; date_range := Some range;
     total_income := None; monthly_income_avg := None;
     income_sources := None; total_expenses := None;
     monthly_expenses_avg := None; expense_breakdown := None;
     top_spending_categories := None; spending_trend := None;
     highest_spending_month := None; lowest_spending_month := None;
     monthly_spending := None; financial_health_score := None |}.

(** The dict literal returned by [_analyze_income]. *)
Definition income_dict (total avg : Q) (sources : list (string * nat))
  : AnalysisDict :=
  {| total_transactions := None; date_range := None;
     total_income := Some total; monthly_income_avg := Some avg;
     income_sources := Some sources; total_expenses := None;
     monthly_expenses_avg := None; expense_breakdown := None;
     top_spending_categories := None; spending_trend := None;
     highest_spending_month := None; lowest_spending_month := None;
     monthly_spending := None; financial_health_score := None |}.

(** The dict literal returned by [_analyze_expenses]. *)
Definition expense_dict (total avg : Q) (breakdown top : list (string * Q))
  : AnalysisDict :=
  {| total_transactions := None; date_range := None;
     total_income := None; monthly_income_avg := None;
     income_sources := None; total_expenses := Some total;
     monthly_expenses_avg := Some avg; expense_breakdown := Some breakdown;
     top_spending_categories := Some top; spending_trend := None;
     highest_spending_month := None; lowest_spending_month := None;
     monthly_spending := None; financial_health_score := None |}.

(** The dict literals returned by [_analyze_spending_patterns]; the early
    return carries no [monthly_spending] key. *)
Definition pattern_dict (trend : string) (highest lowest : option Period)
           (monthly : option (list (Period * Q))) : AnalysisDict :=
  {| total_transactions := None; date_range := None;
     total_income := None; monthly_income_avg := None;
     income_sources := None; total_expenses := None;
     monthly_expenses_avg := None; expense_breakdown := None;
     top_spending_categories := None; spending_trend := Some trend;
     highest_spending_month := Some highest;
     lowest_spending_month := Some lowest;
     monthly_spending := monthly; financial_health_score := None |}.

(** [analysis['financial_health_score'] = score] *)
Definition set_financial_health_score (d : AnalysisDict) (score : Z)
  : AnalysisDict :=
  {| total_transactions := total_transactions d;
     date_range := date_range d;
     total_income := total_income d;
     monthly_income_avg := monthly_income_avg d;
     income_sources := income_sources d;
     total_expenses := total_expenses d;
     monthly_expenses_avg := monthly_expenses_avg d;
     expense_breakdown := expense_breakdown d;
     top_spending_categories := top_spending_categories d;
     spending_trend := spending_trend d;
     highest_spending_month := highest_spending_month d;
     lowest_spending_month := lowest_spending_month d;
     monthly_spending := monthly_spending d;
     financial_health_score := Some score |}.

Record FinancialGoals : Type :=
  { monthly_savings_target : option Q;
    priority_categories : option (list string);
    cut_cost_areas : option (list string) }.

(** [{}] as the default of [user_profile.get('financial_goals', {})]. *)
Definition no_goals : FinancialGoals :=
  {| monthly_savings_target := None; priority_categories := None;
     cut_cost_areas := None |}.

(** The profile dict; [user_info] is the questionnaire, kept as text. *)
Record Profile : Type :=
  { created_date : option string;
    user_info : option (list (string * string));
    financial_goals : option FinancialGoals;
    transaction_analysis : option AnalysisDict }.

(** [user_profile['transaction_analysis'] = analysis] *)
Definition set_transaction_analysis (p : Profile) (a : AnalysisDict)
  : Profile :=
  {| created_date := created_date p; user_info := user_info p;
     financial_goals := financial_goals p;
     transaction_analysis := Some a |}.

(** [df.groupby(df['date'].dt.to_period('M'))['amount'].sum()] *)
Definition monthly_sums (df : DataFrame) : exc (list (Period * Q)) :=
  periods <- mapM to_period_M (map date df) ;;
  Ok (groupby_sum Z.compare (combine periods (map amount df))).

Definition _analyze_income (df : DataFrame) : exc AnalysisDict :=
  let income_df :=
    filter (fun r => String.eqb (category r) "Income") df in
  if empty income_df then Ok (income_dict 0 0 [])
  else
    let total_income := sum (map amount income_df) in
    monthly_income <- monthly_sums income_df ;;
    avg_monthly_income <- mean (map snd monthly_income) ;;
    let income_sources :=
      head 5 (value_counts (map description income_df)) in
    Ok (income_dict total_income avg_monthly_income income_sources).

Definition _analyze_expenses (df : DataFrame) : exc AnalysisDict :=
  let expense_df :=
    filter (fun r => negb (String.eqb (category r) "Income")) df in
  if empty expense_df then Ok (expense_dict 0 0 [] [])
  else
    let total_expenses := sum (map amount expense_df) in
    monthly_expenses <- monthly_sums expense_df ;;
    avg_monthly_expenses <- mean (map snd monthly_expenses) ;;
    let category_breakdown :=
      sort_values_desc Py.gt
        (groupby_sum String_as_OT.compare
           (combine (map category expense_df) (map amount expense_df))) in
    let expense_breakdown := category_breakdown in
    let top_categories := head 5 category_breakdown in
    Ok (expense_dict total_expenses avg_monthly_expenses
                     expense_breakdown top_categories).

Definition _analyze_spending_patterns (df : DataFrame) : exc AnalysisDict :=
  let expense_df :=
    filter (fun r => negb (String.eqb (category r) "Income")) df in
  if empty expense_df then Ok (pattern_dict "stable" None None None)
  else
    monthly_spending <- monthly_sums expense_df ;;
    spending_trend <-
      (if (1 <? List.length monthly_spending)%nat then
         let spending_values := map snd monthly_spending in
         fit <- polyfit1 spending_values ;;
         let trend_slope := fst fit in
         Ok (if Py.gt trend_slope 0 then "increasing"
             else if Py.lt trend_slope 0 then "decreasing"
             else "stable")
       else Ok "insufficient_data") ;;
    highest_month <-
      (if negb (empty monthly_spending)
       then k <- idxmax monthly_spending ;; Ok (Some k)
       else Ok None) ;;
    lowest_month <-
      (if negb (empty monthly_spending)
       then k <- idxmin monthly_spending ;; Ok (Some k)
       else Ok None) ;;
    Ok (pattern_dict spending_trend highest_month lowest_month
                     (Some monthly_spending)).

Definition _calculate_financial_health_score
           (analysis : AnalysisDict) (user_profile : Profile) : exc Z :=
  let score := 50%Z in
  let monthly_income := get (monthly_income_avg analysis) 0 in
  let monthly_expenses := get (monthly_expenses_avg analysis) 0 in
  let savings_target :=
    get (monthly_savings_target
           (get (financial_goals user_profile) no_goals)) 0 in
  score <-
    (if Py.gt monthly_income 0 then
       savings_ratio <-
         truediv (monthly_income - monthly_expenses) monthly_income ;;
       let score :=
         if Py.gt savings_ratio (2 # 10) then (score + 20)%Z
         else if Py.gt savings_ratio (1 # 10) then (score + 10)%Z
         else if Py.gt savings_ratio 0 then (score + 5)%Z
         else (score - 20)%Z in
       let score :=
         if Py.gt savings_target 0 then
           let actual_savings := monthly_income - monthly_expenses in
           if Py.ge actual_savings savings_target then (score + 15)%Z
           else if Py.ge actual_savings (savings_target * (8 # 10))
                then (score + 10)%Z
           else if Py.ge actual_savings (savings_target * (5 # 10))
                then (score + 5)%Z
           else score
         else score in
       Ok score
     else Ok score) ;;
  let spending_trend := get (spending_trend analysis) "stable" in
  let score :=
    (if String.eqb spending_trend "decreasing" then score + 10
     else if String.eqb spending_trend "increasing" then score - 10
     else score)%Z in
  Ok (Z.max 0 (Z.min 100 score)).

(** The timestamps of a parsed [date] column. *)
Definition datetime_column (df : DataFrame) : exc (list Timestamp) :=
  mapM (fun r => match date r with
                 | DateTs t => Ok t
                 | DateStr _ => Raise TypeError
                 end) df.

(** [analyze_transactions] writes into both of its arguments, so the
    result is the caller's frame as the call leaves it together with the
    returned profile. *)
Definition analyze_transactions
           (transactions_df : DataFrame) (user_profile : Profile)
  : exc (DataFrame * Profile) :=
  if empty transactions_df then Ok (transactions_df, user_profile)
  else
    transactions_df <- assign_to_datetime transactions_df ;;
    dates <- datetime_column transactions_df ;;
    let analysis :=
      basic_dict (List.length transactions_df)
                 (ts_min dates, ts_max dates) in
    income_data <- _analyze_income transactions_df ;;
    let analysis := update analysis income_data in
    expense_data <- _analyze_expenses transactions_df ;;
    let analysis := update analysis expense_data in
    spending_patterns <- _analyze_spending_patterns transactions_df ;;
    let analysis := update analysis spending_patterns in
    score <- _calculate_financial_health_score analysis user_profile ;;
    let analysis := set_financial_health_score analysis score in
    Ok (transactions_df, set_transaction_analysis user_profile analysis).

End UserProfile.

Import UserProfile.

(** ** transaction_categorizer.py, the batch *)

Module BatchCategorizer.



End BatchCategorizer.

Import BatchCategorizer.

(** ** suggestions_engine.py *)

Module SuggestionsEngine.

(** [d.get(key, default)] on a dict from names to numbers, kept in
    insertion order. *)
Definition dict_get (d : list (string * Q)) (key : string) (default : Q)
  : Q :=
  match find (fun e => String.eqb (fst e) key) d with
  | Some e => snd e
  | None => default
  end.

(** [key in d] *)
Definition dict_has (d : list (string * Q)) (key : string) : bool :=
  existsb (fun e => String.eqb (fst e) key) d.





(** A suggestion: one of the two messages built from the savings figures,
    or the entry [index] of the template list [key].  The wording of the
    messages is not modelled. *)
Inductive suggestion : Type :=
| SavingsGap (current_savings savings_target gap : Q)
| TargetMet (savings_target : Q)
| Template (key : string) (index : nat).

(** [_load_suggestion_templates]: the nine lists, by their lengths. *)
Definition suggestion_templates : list (string * list suggestion) :=
  map (fun kn => (fst kn, map (Template (fst kn)) (seq 0 (snd kn))))
      [ ("high_food_spending", 4%nat); ("high_transport_spending", 4%nat);
        ("high_shopping_spending", 4%nat);
        ("high_entertainment_spending", 4%nat); ("low_savings", 4%nat);
        ("no_investments", 4%nat); ("budget_optimization", 4%nat);
        ("debt_management", 4%nat); ("general_tips", 5%nat) ].

(** [self.suggestion_templates[key]], for the keys the code uses. *)
Definition templates (key : string) : list suggestion :=
  match find (fun e => String.eqb (fst e) key) suggestion_templates with
  | Some e => snd e
  | None => []
  end.

(** The list without its element at position [i]. *)
Fixpoint remove_at {A : Type} (i : nat) (l : list A) : list A :=
  match l, i with
  | [], _ => []
  | _ :: l', O => l'
  | x :: l', S i' => x :: remove_at i' l'
  end.

(** The choices of [random.sample]: [k] draws without replacement, each
    draw taking the next number of the random source [rng] modulo what is
    left of the population. *)
Fixpoint pick {A : Type} (population : list A) (k : nat) (rng : list nat)
  : list A * list nat :=
  match k with
  | O => ([], rng)
  | S k' =>
      let i := (hd 0%nat rng mod List.length population)%nat in
      match nth_error population i with
      | Some x =>
          let (rest, rng') := pick (remove_at i population) k' (tl rng) in
          (x :: rest, rng')
      | None => ([], rng)
      end
  end.

(** [random.sample(population, k)]: refused when [k] exceeds the
    population. *)
Definition random_sample {A : Type} (population : list A) (k : nat)
           (rng : list nat) : exc (list A * list nat) :=
  if (List.length population <? k)%nat then Raise ValueError
  else Ok (pick population k rng).

(** [suggestions.extend(random.sample(self.suggestion_templates[key], k))],
    on the pair of the suggestions so far and the random source. *)
Definition extend_sample (key : string) (k : nat)
           (state : list suggestion * list nat)
  : exc (list suggestion * list nat) :=
  drawn <- random_sample (templates key) k (snd state) ;;
  Ok ((fst state ++ fst drawn)%list, snd drawn).

(** The body of the loop over [cut_cost_areas]. *)
Definition cut_cost_step (monthly_income : Q)
           (top_categories : list (string * Q))
           (state : list suggestion * list nat) (category : string)
  : exc (list suggestion * list nat) :=
  if dict_has top_categories category then
    let amount := dict_get top_categories category 0 in
    if String.eqb category "Food & Dining"
       && Py.gt amount (monthly_income * (15 # 100))
    then extend_sample "high_food_spending" 1 state
    else if String.eqb category "Transportation"
            && Py.gt amount (monthly_income * (10 # 100))
    then extend_sample "high_transport_spending" 1 state
    else if String.eqb category "Shopping"
            && Py.gt amount (monthly_income * (10 # 100))
    then extend_sample "high_shopping_spending" 1 state
    else if String.eqb category "Entertainment"
            && Py.gt amount (monthly_income * (5 # 100))
    then extend_sample "high_entertainment_spending" 1 state
    else Ok state
  else Ok state.

Fixpoint cut_cost_loop (monthly_income : Q)
         (top_categories : list (string * Q)) (cut_cost_areas : list string)
         (state : list suggestion * list nat)
  : exc (list suggestion * list nat) :=
  match cut_cost_areas with
  | [] => Ok state
  | category :: rest =>
      state <- cut_cost_step monthly_income top_categories state category ;;
      cut_cost_loop monthly_income top_categories rest state
  end.

(** [generate_personalized_suggestions], given the random source. *)
Definition generate_personalized_suggestions
           (rng : list nat)
           (user_profile : Profile) (transaction_analysis : AnalysisDict)
  : exc (list suggestion) :=
  let suggestions : list suggestion := [] in
  let financial_goals := get (financial_goals user_profile) no_goals in
  let monthly_income := get (monthly_income_avg transaction_analysis) 0 in
  let monthly_expenses :=
    get (monthly_expenses_avg transaction_analysis) 0 in
  let top_categories :=
    get (top_spending_categories transaction_analysis) [] in
  let financial_health_score :=
    get (financial_health_score transaction_analysis) 50%Z in
  let savings_target := get (monthly_savings_target financial_goals) 0 in
  let cut_cost_areas := get (cut_cost_areas financial_goals) [] in
  let current_savings := monthly_income - monthly_expenses in
  savings_rate <-
    (if Py.gt monthly_income 0
     then q <- truediv current_savings monthly_income ;; Ok (q * 100)
     else Ok 0) ;;
  state <-
    (if Py.gt savings_target 0 then
       if Py.lt current_savings savings_target then
         let gap := savings_target - current_savings in
         extend_sample "low_savings" 2
           ((suggestions ++ [SavingsGap current_savings savings_target gap])
              %list, rng)
       else Ok ((suggestions ++ [TargetMet savings_target])%list, rng)
     else Ok (suggestions, rng)) ;;
  state <- cut_cost_loop monthly_income top_categories cut_cost_areas state ;;
  state <-
    (if negb (dict_has top_categories "Investments")
        || Qeq_bool (dict_get top_categories "Investments" 0) 0
     then extend_sample "no_investments" 1 state
     else Ok state) ;;
  state <-
    (if (financial_health_score <? 60)%Z
     then extend_sample "budget_optimization" 1 state
     else Ok state) ;;
  state <- extend_sample "general_tips" (7 - List.length (fst state)) state ;;
  Ok (firstn 7 (fst state)).

End SuggestionsEngine.

Import SuggestionsEngine.

(** ** chatbot.py *)

Module Chatbot.

(** The keys of the dict [_load_response_templates] returns. *)
Definition response_template_keys : list string :=
  [ "budget"; "saving"; "investing"; "debt"; "expenses"; "food_saving";
    "transport_saving"; "shopping_saving"; "general" ].

(** [_identify_topic]; each test is
    [any(word in message_lower for word in [...])]. *)
Definition _identify_topic (message_lower : string) : string :=
  if any_keyword ["budget"; "budgeting"; "allocate"; "spend"] message_lower
  then "budget"
  else if any_keyword ["save"; "saving"; "savings"; "emergency fund"]
                      message_lower
  then "saving"
  else if any_keyword ["invest"; "investment"; "mutual fund"; "sip"; "stock"]
                      message_lower
  then "investing"
  else if any_keyword ["debt"; "loan"; "credit card"; "pay off"]
                      message_lower
  then "debt"
  else if any_keyword ["food"; "eating"; "restaurant"; "grocery"]
                      message_lower
  then "food_saving"
  else if any_keyword ["transport"; "fuel"; "petrol"; "uber"; "taxi"]
                      message_lower
  then "transport_saving"
  else if any_keyword ["shopping"; "amazon"; "flipkart"; "buy"; "purchase"]
                      message_lower
  then "shopping_saving"
  else if any_keyword ["expense"; "spending"; "cost"; "reduce"]
                      message_lower
  then "expenses"
  else "general".

(** The topic [chat] works with: [_identify_topic(user_message.lower())]. *)
Definition chat_topic (user_message : string) : string :=
  let message_lower := lower user_message in
  _identify_topic message_lower.

Definition is_some {A : Type} (field : option A) : bool :=
  match field with Some _ => true | None => false end.

(** The truth value of a profile dict: false for [{}]. *)
Definition profile_bool (p : Profile) : bool :=
  is_some (created_date p) || is_some (user_info p)
  || is_some (financial_goals p) || is_some (transaction_analysis p).

(** The truth value of an analysis dict: false for [{}]. *)
Definition analysis_bool (a : AnalysisDict) : bool :=
  is_some (total_transactions a) || is_some (date_range a)
  || is_some (total_income a) || is_some (monthly_income_avg a)
  || is_some (income_sources a) || is_some (total_expenses a)
  || is_some (monthly_expenses_avg a) || is_some (expense_breakdown a)
  || is_some (top_spending_categories a) || is_some (spending_trend a)
  || is_some (highest_spending_month a)
  || is_some (lowest_spending_month a) || is_some (monthly_spending a)
  || is_some (financial_health_score a).

(** The truth value of an argument whose default is [None]. *)
Definition truthy {A : Type} (bool_of : A -> bool) (arg : option A) : bool :=
  match arg with Some d => bool_of d | None => false end.

Definition default_questions : list string :=
  [ "How can I start budgeting?";
    "What's the best way to save money?";
    "Should I invest in mutual funds?";
    "How much should I save for emergencies?";
    "How can I reduce my expenses?" ].

(** [get_suggested_questions]; [None] is the default of both arguments. *)
Definition get_suggested_questions
           (user_profile : option Profile)
           (transaction_analysis : option AnalysisDict) : list string :=
  match user_profile, transaction_analysis with
  | Some user_profile, Some transaction_analysis =>
      if negb (profile_bool user_profile)
         || negb (analysis_bool transaction_analysis)
      then default_questions
      else
        let suggestions : list string := [] in
        let financial_health_score :=
          get (financial_health_score transaction_analysis) 50%Z in
        let monthly_income :=
          get (monthly_income_avg transaction_analysis) 0 in
        let monthly_expenses :=
          get (monthly_expenses_avg transaction_analysis) 0 in
        let top_categories :=
          get (top_spending_categories transaction_analysis) [] in
        let savings_target :=
          get (monthly_savings_target
                 (get (financial_goals user_profile) no_goals)) 0 in
        let suggestions :=
          if (financial_health_score <? 40)%Z then
            (suggestions
               ++ [ "How can I improve my financial health?";
                    "What should I prioritize: saving or paying debt?";
                    "How can I reduce my monthly expenses?" ])%list
          else if (financial_health_score >? 70)%Z then
            (suggestions
               ++ [ "How can I optimize my investments?";
                    "What are good long-term investment options?";
                    "How can I maximize my savings rate?" ])%list
          else suggestions in
        let suggestions :=
          if Py.gt monthly_expenses monthly_income
          then (suggestions
                  ++ ["I'm spending more than I earn. What should I do?"])
                 %list
          else suggestions in
        let suggestions :=
          if dict_has top_categories "Food & Dining"
          then (suggestions ++ ["How can I reduce my food expenses?"])%list
          else suggestions in
        let suggestions :=
          if dict_has top_categories "Transportation"
          then (suggestions
                  ++ ["What are cost-effective transportation options?"])
                 %list
          else suggestions in
        let suggestions :=
          if dict_has top_categories "Shopping"
          then (suggestions ++ ["How can I save money on shopping?"])%list
          else suggestions in
        let suggestions :=
          if Py.gt savings_target 0 then
            let current_savings := monthly_income - monthly_expenses in
            if Py.lt current_savings savings_target
            then (suggestions
                    ++ ["How can I reach my monthly savings target?"])%list
            else suggestions
          else suggestions in
        let suggestions :=
          (suggestions
             ++ [ "How should I allocate my monthly income?";
                  "What's a good emergency fund amount?";
                  "How can I track my expenses better?" ])%list in
        firstn 5 suggestions
  | _, _ => default_questions
  end.

End Chatbot.

Import Chatbot.

(** ** app.py *)

Module App.

(** [c.isspace()] on code points below 256. *)
Definition isspace (c : ascii) : bool :=
  let n := N_of_ascii c in
  (((9 <=? n) && (n <=? 13)) || ((28 <=? n) && (n <=? 32))
   || (n =? 133) || (n =? 160))%N.

Fixpoint lstrip (s : string) : string :=
  match s with
  | EmptyString => EmptyString
  | String c s' => if isspace c then lstrip s' else s
  end.

Fixpoint rstrip (s : string) : string :=
  match s with
  | EmptyString => EmptyString
  | String c s' =>
      match rstrip s' with
      | EmptyString => if isspace c then EmptyString else String c EmptyString
      | kept => String c kept
      end
  end.

(** [str.strip()] *)
Definition strip (s : string) : string := rstrip (lstrip s).

(** [d[key] = value] on a dict from column names to roles: an existing
    key keeps its place and takes the new value. *)
Fixpoint dict_set (d : list (string * string)) (key value : string)
  : list (string * string) :=
  match d with
  | [] => [(key, value)]
  | (k, v) :: d' =>
      if String.eqb k key then (k, value) :: d'
      else (k, v) :: dict_set d' key value
  end.

(** [value in d.values()] *)
Definition in_values (d : list (string * string)) (value : string) : bool :=
  existsb (fun e => String.eqb (snd e) value) d.

Definition date_keywords : list string :=
  [ "date"; "transaction_date"; "posted_date"; "value_date"; "tran_date";
    "trans_date" ].

Definition desc_keywords : list string :=
  [ "description"; "memo"; "details"; "narration"; "particulars";
    "transaction_details"; "remarks"; "note" ].

Definition amount_keywords : list string :=
  [ "amount"; "value"; "sum"; "total"; "transaction_amount"; "debit";
    "credit"; "balance" ].

Definition type_keywords : list string :=
  [ "type"; "debit_credit"; "dr_cr"; "transaction_type"; "cr_dr"; "d_c" ].

(** The inner loop
    [for i, col in enumerate(columns_lower): if keyword in col:
       column_mapping[columns[i]] = role; break],
    from position [i] on. *)
Fixpoint map_first_match (keyword role : string) (columns : list string)
         (i : nat) (columns_lower : list string)
         (column_mapping : list (string * string))
  : list (string * string) :=
  match columns_lower with
  | [] => column_mapping
  | col :: rest =>
      if str_in keyword col
      then dict_set column_mapping (nth i columns "") role
      else map_first_match keyword role columns (S i) rest column_mapping
  end.

(** The loop over the keywords of a required role, left as soon as the
    role is among the values of the mapping. *)
Fixpoint detect (role : string) (keywords : list string)
         (columns columns_lower : list string)
         (column_mapping : list (string * string))
  : list (string * string) :=
  match keywords with
  | [] => column_mapping
  | keyword :: rest =>
      let column_mapping :=
        map_first_match keyword role columns 0 columns_lower
                        column_mapping in
      if in_values column_mapping role then column_mapping
      else detect role rest columns columns_lower column_mapping
  end.

(** The loop over [type_keywords], which has no outer [break]. *)
Fixpoint detect_every (role : string) (keywords : list string)
         (columns columns_lower : list string)
         (column_mapping : list (string * string))
  : list (string * string) :=
  match keywords with
  | [] => column_mapping
  | keyword :: rest =>
      detect_every role rest columns columns_lower
                   (map_first_match keyword role columns 0 columns_lower
                                    column_mapping)
  end.

(** [auto_detect_columns]; [None] is Python's [None]. *)
Definition auto_detect_columns (columns : list string)
  : option (list (string * string)) :=
  let column_mapping : list (string * string) := [] in
  let columns_lower := map (fun col => strip (lower col)) columns in
  let column_mapping :=
    detect "date" date_keywords columns columns_lower column_mapping in
  let column_mapping :=
    detect "description" desc_keywords columns columns_lower
           column_mapping in
  let column_mapping :=
    detect "amount" amount_keywords columns columns_lower column_mapping in
  let column_mapping :=
    detect_every "type" type_keywords columns columns_lower
                 column_mapping in
  let required_mappings := ["date"; "description"; "amount"] in
  if forallb (in_values column_mapping) required_mappings
  then Some column_mapping
  else None.

End App.

Import App.

(** ** ai_categorizer.py *)

Module AiCategorizer.

Section Vectorizer.

(** [_ml_based_categorization]: the TF-IDF similarity step.  It is not
    modelled; the functions below are given it as an arbitrary function
    from descriptions to category names. *)
Variable _ml_based_categorization : string -> string.

Definition _rule_based_categorization
           (description : string) (amount : Q) (transaction_type : string)
  : string :=
  let description_lower := lower description in
  match scan_table Config.CATEGORY_KEYWORDS description_lower with
  | Some category => category
  | None => "Other"
  end.

Definition _amount_based_categorization
           (amount : Q) (transaction_type : string) : string :=
  if String.eqb transaction_type "Credit" then "Income"
  else if gt amount 10000 then "Shopping"
  else if gt amount 1000 then "Bills & Utilities"
  else "Other".

Definition categorize_transaction
           (description : string) (amount : Q) (transaction_type : string)
  : string :=
  let rule_based_category :=
    _rule_based_categorization description amount transaction_type in
  if negb (String.eqb rule_based_category "Other")
  then rule_based_category
  else
    let ml_category := _ml_based_categorization description in
    if negb (String.eqb ml_category "Other") then ml_category
    else _amount_based_categorization amount transaction_type.

End Vectorizer.

End AiCategorizer.

(** * Vocabulary of the properties *)

(** ** The categoriser *)

(** [occurs kw s]: the text [kw] is a contiguous part of [s]. *)
Definition occurs (kw s : string) : Prop :=
  exists pre post, s = pre ++ kw ++ post.

(** The (category, keyword) pairs of a table in the order the two loops
    visit them. *)
Definition pairs (table : list (string * list string))
  : list (string * string) :=
  flat_map (fun ck => map (pair (fst ck)) (snd ck)) table.

Definition table_pairs : list (string * string) :=
  Eval cbv in pairs Config.CATEGORY_KEYWORDS.

Definition matches (s : string) (p : string * string) : bool :=
  str_in (snd p) s.

(** [CATEGORY_KEYWORDS[category]], empty for an unknown category. *)
Definition keywords_of (category : string) : list string :=
  match find (fun ck => String.eqb (fst ck) category)
             Config.CATEGORY_KEYWORDS with
  | Some ck => snd ck
  | None => []
  end.

(** The pairs of the nine categories declared before "Income". *)
Definition other_pairs : list (string * string) :=
  Eval cbv in pairs (removelast Config.CATEGORY_KEYWORDS).

Definition income_pairs : list (string * string) :=
  Eval cbv in map (pair "Income") (keywords_of "Income").

(** ** Vocabulary for grouped sums *)

(** Entries in strictly ascending key order. *)
Definition key_lt {K : Type} (cmp : K -> K -> comparison) (a b : K * Q)
  : Prop :=
  cmp (fst a) (fst b) = Lt.

Definition keys_ascending {K : Type} (cmp : K -> K -> comparison)
           (g : list (K * Q)) : Prop :=
  StronglySorted (key_lt cmp) g.

Definition same_key {K : Type} (cmp : K -> K -> comparison) (k : K)
           (kv : K * Q) : bool :=
  match cmp (fst kv) k with Eq => true | _ => false end.

(** The sum of the values filed under key [k]. *)
Definition total_for {K : Type} (cmp : K -> K -> comparison) (k : K)
           (kvs : list (K * Q)) : Q :=
  sum (map snd (filter (same_key cmp k) kvs)).

(** The loop of [groupby_sum], started from the groups [g]. *)
Definition groupby_from {K : Type} (cmp : K -> K -> comparison)
           (g kvs : list (K * Q)) : list (K * Q) :=
  fold_left (fun g kv => group_add cmp (fst kv) (snd kv) g) kvs g.


(** ** Rows, months and categories *)

(** Every cell of the [date] column is a timestamp, as it is once
    [analyze_transactions] has converted the column. *)
Definition parsed (df : DataFrame) : Prop :=
  Forall (fun r => exists t, date r = DateTs t) df.

(** The calendar month of a row with a parsed date. *)
Definition row_period (r : row) : Period :=
  match date r with
  | DateTs t => ((year t - 1970) * 12 + (month t - 1))%Z
  | DateStr _ => 0%Z
  end.

Definition is_income (r : row) : bool := String.eqb (category r) "Income".

Definition income_rows (df : DataFrame) : DataFrame := filter is_income df.

Definition expense_rows (df : DataFrame) : DataFrame :=
  filter (fun r => negb (is_income r)) df.

(** The calendar months in which [rows] has at least one row. *)
Definition populated_months (rows : DataFrame) : list Period :=
  nodup Z.eq_dec (map row_period rows).

(** The sum of the amounts of the rows of month [m]. *)
Definition month_total (rows : DataFrame) (m : Period) : Q :=
  sum (map amount (filter (fun r => (row_period r =? m)%Z) rows)).




Definition by_month (rows : DataFrame) : list (Period * Q) :=
  map (fun r => (row_period r, amount r)) rows.

Definition by_category (rows : DataFrame) : list (string * Q) :=
  map (fun r => (category r, amount r)) rows.

(** Income of 400 and 600 in January 2024 and of 3000 in March 2024; the
    only row of February is an expense. *)
Definition frame_m1_m3 : DataFrame :=
  [ {| date := DateTs {| year := 2024; month := 1; day := 5 |};
       description := "SALARY PART 1"; amount := 400; type := "Credit";
       category := "Income" |};
    {| date := DateTs {| year := 2024; month := 1; day := 20 |};
       description := "SALARY PART 2"; amount := 600; type := "Credit";
       category := "Income" |};
    {| date := DateTs {| year := 2024; month := 2; day := 11 |};
       description := "SWIGGY"; amount := 250; type := "Debit";
       category := "Food & Dining" |};
    {| date := DateTs {| year := 2024; month := 3; day := 10 |};
       description := "BONUS"; amount := 3000; type := "Credit";
       category := "Income" |} ].

(** ** The health score, rule by rule *)

(** The bonus for the share of income that is saved: 20 above 0.2, 10
    above 0.1, 5 above 0, a malus of 20 otherwise; all comparisons strict. *)
Definition ratio_bonus (savings_ratio : Q) : Z :=
  if Qlt_le_dec (2 # 10) savings_ratio then 20
  else if Qlt_le_dec (1 # 10) savings_ratio then 10
  else if Qlt_le_dec 0 savings_ratio then 5
  else (-20).

(** The bonus for meeting the savings target: 15 from the target on, 10
    from 0.8 of it, 5 from 0.5 of it. *)
Definition target_bonus (actual target : Q) : Z :=
  if Qlt_le_dec actual target then
    if Qlt_le_dec actual (target * (8 # 10)) then
      if Qlt_le_dec actual (target * (5 # 10)) then 0 else 5
    else 10
  else 15.

(** Ten points for a decreasing trend, ten off for an increasing one. *)
Definition trend_adjustment (trend : string) : Z :=
  if string_dec trend "decreasing" then 10
  else if string_dec trend "increasing" then (-10)
  else 0.

Definition clamp (lo hi x : Z) : Z :=
  if (x <? lo)%Z then lo else if (hi <? x)%Z then hi else x.

(** The score as the rules describe it. *)
Definition health_score
           (income expenses target : Q) (trend : string) : Z :=
  clamp 0 100
        (50
         + (if Qlt_le_dec 0 income then
              ratio_bonus ((income - expenses) / income)
              + (if Qlt_le_dec 0 target
                 then target_bonus (income - expenses) target
                 else 0)
            else 0)
         + trend_adjustment trend)%Z.

(** The analysis of the scenario: average income 50000, average expenses
    40000, a stable trend. *)
Definition scenario_analysis : AnalysisDict :=
  update (income_dict 50000 50000 [])
         (update (expense_dict 40000 40000 [] [])
                 (pattern_dict "stable" None None None)).

(** A profile whose savings target is 0. *)
Definition scenario_profile : Profile :=
  {| created_date := None; user_info := None;
     financial_goals :=
       Some {| monthly_savings_target := Some 0;
               priority_categories := Some []; cut_cost_areas := Some [] |};
     transaction_analysis := None |}.

(** ** Sample frames and profiles *)

(** The frame of [test_user_profile] in [test_app.py]: dates are text. *)
Definition test_frame : DataFrame :=
  [ {| date := DateStr "2024-01-01"; description := "SALARY";
       amount := 50000; type := "Credit"; category := "Income" |};
    {| date := DateStr "2024-01-02"; description := "SWIGGY";
       amount := 300; type := "Debit"; category := "Food & Dining" |};
    {| date := DateStr "2024-01-03"; description := "UBER";
       amount := 150; type := "Debit"; category := "Transportation" |};
    {| date := DateStr "2024-01-04"; description := "AMAZON";
       amount := 2000; type := "Debit"; category := "Shopping" |};
    {| date := DateStr "2024-01-05"; description := "ELECTRICITY BILL";
       amount := 1200; type := "Debit";
       category := "Bills & Utilities" |} ].

(** The profile the same test builds: a savings target of 15000. *)
Definition test_profile : Profile :=
  {| created_date := Some "2024-01-06T00:00:00";
     user_info :=
       Some [("monthly_income", "50000"); ("age", "26-35");
             ("occupation", "Software Engineer");
             ("monthly_savings_target", "15000")];
     financial_goals :=
       Some {| monthly_savings_target := Some 15000;
               priority_categories :=
                 Some ["Food & Dining"; "Transportation"];
               cut_cost_areas := Some ["Food & Dining"; "Entertainment"] |};
     transaction_analysis := None |}.

(** The frame the run on [test_frame] leaves behind. *)
Definition test_frame_after : DataFrame :=
  Eval vm_compute in
    match analyze_transactions test_frame test_profile with
    | Ok (df', _) => df'
    | Raise _ => []
    end.

(** The profile the run on [test_frame] returns. *)
Definition test_profile_after : Profile :=
  Eval vm_compute in
    match analyze_transactions test_frame test_profile with
    | Ok (_, p') => p'
    | Raise _ => test_profile
    end.

(** ** Orders of the results *)


(** Eight expense categories in one month, two of them with equal totals
    (Education and Healthcare, 700 each), and one income row. *)
Definition frame_8_categories : DataFrame :=
  let on (d : Z) (text : string) (a : Q) (c : string) : row :=
    {| date := DateTs {| year := 2024; month := 5; day := d |};
       description := text; amount := a; type := "Debit"; category := c |} in
  [ on 1%Z "SWIGGY" 300 "Food & Dining";
    on 2%Z "UBER" 150 "Transportation";
    on 3%Z "AMAZON" 2000 "Shopping";
    on 4%Z "ELECTRICITY BILL" 1200 "Bills & Utilities";
    on 5%Z "NETFLIX" 199 "Entertainment";
    on 6%Z "PHARMACY" 700 "Healthcare";
    on 7%Z "COURSE FEE" 400 "Education";
    on 8%Z "HOTEL" 5000 "Travel";
    on 9%Z "SALARY" 50000 "Income";
    on 10%Z "TUITION" 300 "Education";
    on 11%Z "ZOMATO" 350 "Food & Dining" ].

Definition count (l : list Q) : Q := inject_Z (Z.of_nat (List.length l)).

Definition average (l : list Q) : Q := sum l / count l.

(** The sum of the products of the deviations from the two averages. *)
Definition centered_dot (xs ys : list Q) : Q :=
  sum (map (fun xy => (fst xy - average xs) * (snd xy - average ys))
           (combine xs ys)).

(** The slope of the ordinary-least-squares line through the points
    [(i, ys[i])], [i = 0 .. n-1]: the co-deviation of index and value over
    the squared deviation of the index. *)
Definition ols_slope (ys : list Q) : Q :=
  let xs := xrange (List.length ys) in
  centered_dot xs ys / centered_dot xs xs.

(** The trend the code names for a slope. *)
Definition trend_of_slope (trend_slope : Q) : string :=
  if Py.gt trend_slope 0 then "increasing"
  else if Py.lt trend_slope 0 then "decreasing"
  else "stable".


(** Expenses of 100, 200 and 300 in three consecutive months. *)
Definition frame_rising : DataFrame :=
  let on (m : Z) (a : Q) : row :=
    {| date := DateTs {| year := 2024; month := m; day := 15 |};
       description := "RENT"; amount := a; type := "Debit";
       category := "Bills & Utilities" |} in
  [ on 1%Z 100; on 2%Z 200; on 3%Z 300 ].

(** Expenses of 300, 200 and 100 in three consecutive months. *)
Definition frame_falling : DataFrame :=
  let on (m : Z) (a : Q) : row :=
    {| date := DateTs {| year := 2024; month := m; day := 15 |};
       description := "RENT"; amount := a; type := "Debit";
       category := "Bills & Utilities" |} in
  [ on 1%Z 300; on 2%Z 200; on 3%Z 100 ].

(** Expenses of 200 in each of three consecutive months. *)
Definition frame_flat : DataFrame :=
  let on (m : Z) (a : Q) : row :=
    {| date := DateTs {| year := 2024; month := m; day := 15 |};
       description := "RENT"; amount := a; type := "Debit";
       category := "Bills & Utilities" |} in
  [ on 1%Z 200; on 2%Z 200; on 3%Z 200 ].

(** The squared error of the line [a * x + b] on the points
    [(i, ys[i])]. *)
Definition squared_error (a b : Q) (ys : list Q) : Q :=
  sum (map (fun xy => (snd xy - (a * fst xy + b))
                      * (snd xy - (a * fst xy + b)))
           (combine (xrange (List.length ys)) ys)).

(** What the line [a * x + b] leaves of the point [xy]. *)
Definition residual (a b : Q) (xy : Q * Q) : Q :=
  snd xy - (a * fst xy + b).

(** ** Order of the categories in the table *)

(** The position of a category among the keys of [CATEGORY_KEYWORDS]; the
    number of keys for a name that is not a key. *)
Fixpoint position_in (names : list string) (c : string) : nat :=
  match names with
  | [] => 0%nat
  | n :: names' => if String.eqb n c then 0%nat else S (position_in names' c)
  end.

Definition category_rank (c : string) : nat :=
  position_in (map fst Config.CATEGORY_KEYWORDS) c.

(** The pairs whose keyword contains the keyword of an earlier pair of a
    different category. *)
Fixpoint shadowed_from (earlier rest : list (string * string))
  : list (string * string) :=
  match rest with
  | [] => []
  | p :: rest' =>
      (if existsb (fun q => str_in (snd q) (snd p)
                            && negb (String.eqb (fst q) (fst p))) earlier
       then [p] else [])
      ++ shadowed_from (earlier ++ [p]) rest'
  end.

Definition shadowed_pairs : list (string * string) :=
  Eval vm_compute in shadowed_from [] table_pairs.

(** Non-decreasing along the list. *)
Fixpoint nondecreasing (l : list nat) : bool :=
  match l with
  | [] => true
  | x :: l' =>
      match l' with
      | [] => true
      | y :: _ => (x <=? y)%nat && nondecreasing l'
      end
  end.

(** ** The analysis record put together *)

(** The record [analyze_transactions] builds from the basic counts and the
    three analyzers' results, before the score is added. *)
Definition merged_analysis (n : nat)
           (range : option Timestamp * option Timestamp)
           (income expenses patterns : AnalysisDict) : AnalysisDict :=
  update (update (update (basic_dict n range) income) expenses) patterns.

(** The score of a record and a profile, from the fields the scorer reads. *)
Definition score_of (a : AnalysisDict) (p : Profile) : Z :=
  health_score
    (get (monthly_income_avg a) 0)
    (get (monthly_expenses_avg a) 0)
    (get (monthly_savings_target (get (financial_goals p) no_goals)) 0)
    (get (spending_trend a) "stable").


(** The tally of [value_counts] before it is sorted. *)
Definition tally (l : list string) : list (string * nat) :=
  fold_left (fun c s => count_add s c) l [].

(** The occurrences filed under [s] in a tally. *)
Definition tallied (s : string) (c : list (string * nat)) : nat :=
  list_sum (map snd (filter (fun e => String.eqb (fst e) s) c)).

(** A key of the record is present. *)
Definition has_key {A : Type} (field : option A) : Prop := field <> None.

(** ** Counting the targeted suggestions *)

(** An area the user wants to cut triggers a suggestion when it is among
    the top categories with an amount above its share of the income. *)
Definition triggers (monthly_income : Q) (top_categories : list (string * Q))
           (category : string) : bool :=
  dict_has top_categories category
  && ((String.eqb category "Food & Dining"
       && Py.gt (dict_get top_categories category 0)
                (monthly_income * (15 # 100)))
      || (String.eqb category "Transportation"
          && Py.gt (dict_get top_categories category 0)
                   (monthly_income * (10 # 100)))
      || (String.eqb category "Shopping"
          && Py.gt (dict_get top_categories category 0)
                   (monthly_income * (10 # 100)))
      || (String.eqb category "Entertainment"
          && Py.gt (dict_get top_categories category 0)
                   (monthly_income * (5 # 100)))).

(** The number of suggestions collected before the general tips: three
    when the savings fall short of a positive target and one when they
    meet it, one per triggering area, one when no investment shows among
    the top categories, one when the score is below 60. *)
Definition targeted_suggestions
           (user_profile : Profile) (transaction_analysis : AnalysisDict)
  : nat :=
  let goals := get (financial_goals user_profile) no_goals in
  let monthly_income := get (monthly_income_avg transaction_analysis) 0 in
  let monthly_expenses :=
    get (monthly_expenses_avg transaction_analysis) 0 in
  let top_categories :=
    get (top_spending_categories transaction_analysis) [] in
  let savings_target := get (monthly_savings_target goals) 0 in
  ((if Py.gt savings_target 0
    then if Py.lt (monthly_income - monthly_expenses) savings_target
         then 3 else 1
    else 0)
   + List.length (filter (triggers monthly_income top_categories)
                         (get (cut_cost_areas goals) []))
   + (if negb (dict_has top_categories "Investments")
         || Qeq_bool (dict_get top_categories "Investments" 0) 0
      then 1 else 0)
   + (if (get (financial_health_score transaction_analysis) 50 <? 60)%Z
      then 1 else 0))%nat.

(** A month of a user who invests: a salary, a fund purchase and food. *)
Definition saver_frame : DataFrame :=
  [ {| date := DateStr "2024-01-01"; description := "SALARY";
       amount := 60000; type := "Credit"; category := "Income" |};
    {| date := DateStr "2024-01-05"; description := "SIP MUTUAL FUND";
       amount := 20000; type := "Debit"; category := "Investments" |};
    {| date := DateStr "2024-01-09"; description := "SWIGGY";
       amount := 10000; type := "Debit"; category := "Food & Dining" |} ].

(** [generate_personalized_suggestions(profile,
    profile['transaction_analysis'])], as the application calls it on
    the profile a run of [analyze_transactions] returned. *)
Definition suggestions_after_analysis (rng : list nat) (df : DataFrame)
           (user_profile : Profile) : exc (list suggestion) :=
  result <- analyze_transactions df user_profile ;;
  match transaction_analysis (snd result) with
  | Some analysis =>
      generate_personalized_suggestions rng (snd result) analysis
  | None => Raise TypeError
  end.

(** ** Questions and column mappings *)

(** No string of the list occurs in it twice. *)
Fixpoint distinct_strings (l : list string) : bool :=
  match l with
  | [] => true
  | x :: l' => negb (existsb (String.eqb x) l') && distinct_strings l'
  end.

(** The name a column is matched by: lowercase, without surrounding
    white space. *)
Definition normalised (col : string) : string := strip (lower col).

(** The keyword list [auto_detect_columns] uses for a role. *)
Definition role_keywords (role : string) : list string :=
  if String.eqb role "date" then date_keywords
  else if String.eqb role "description" then desc_keywords
  else if String.eqb role "amount" then amount_keywords
  else if String.eqb role "type" then type_keywords
  else [].

(** The name of the column contains a keyword of the role. *)
Definition names_role (col role : string) : bool :=
  any_keyword (role_keywords role) (normalised col).

(** The columns a mapping gives the role to. *)
Definition columns_with (role : string) (mapping : list (string * string))
  : list string :=
  map fst (filter (fun e => String.eqb (snd e) role) mapping).

(** * Properties *)

(** ** Substring test *)

Lemma prefix_true_iff (kw s : string) :
  String.prefix kw s = true <-> exists post, s = kw ++ post.
Proof.
  revert s; induction kw as [|c kw IH]; intros s.
  - destruct s; simpl; split; eauto.
  - destruct s as [|c' s]; simpl.
    + split; [discriminate | intros [post H]; discriminate].
    + destruct (ascii_dec c c') as [->|Hne].
      * rewrite IH. split; intros [post H]; exists post.
        -- now rewrite H.
        -- now injection H.
      * split; [discriminate | intros [post H]; injection H; congruence].
Qed.

Lemma str_in_unfold (kw s : string) :
  str_in kw s =
  if String.prefix kw s then true
  else match s with
       | EmptyString => false
       | String _ s' => str_in kw s'
       end.
Proof. destruct s; reflexivity. Qed.

Lemma str_in_true_iff (kw s : string) :
  str_in kw s = true <-> occurs kw s.
Proof.
  unfold occurs.
  induction s as [|c s IH]; rewrite str_in_unfold.
  - destruct (String.prefix kw "") eqn:Hp.
    + apply prefix_true_iff in Hp as [post Hp].
      split; [intros _; exists "", post; exact Hp | reflexivity].
    + split; [discriminate|].
      intros [pre [post H]].
      destruct pre; [|discriminate].
      assert (String.prefix kw "" = true) by (apply prefix_true_iff; eauto).
      congruence.
  - destruct (String.prefix kw (String c s)) eqn:Hp.
    + apply prefix_true_iff in Hp as [post Hp].
      split; [intros _; exists "", post; exact Hp | reflexivity].
    + rewrite IH. split.
      * intros [pre [post H]]. exists (String c pre), post. now rewrite H.
      * intros [pre [post H]]. destruct pre as [|c' pre].
        -- assert (String.prefix kw (String c s) = true)
             by (apply prefix_true_iff; eauto).
           congruence.
        -- injection H as _ H. eauto.
Qed.

Lemma str_in_false_iff (kw s : string) :
  str_in kw s = false <-> ~ occurs kw s.
Proof.
  rewrite <- str_in_true_iff. destruct (str_in kw s); split; congruence.
Qed.

(** ** The keyword table as a sequence of pairs *)

Lemma find_app {A : Type} (f : A -> bool) (l1 l2 : list A) :
  find f (l1 ++ l2) =
  match find f l1 with Some x => Some x | None => find f l2 end.
Proof.
  induction l1 as [|x l1 IH]; simpl; [reflexivity|].
  destruct (f x); [reflexivity | exact IH].
Qed.

Lemma any_keyword_find (category : string) (keywords : list string)
      (s : string) :
  option_map fst (find (matches s) (map (pair category) keywords)) =
  if any_keyword keywords s then Some category else None.
Proof.
  induction keywords as [|k kws IH]; simpl; [reflexivity|].
  unfold matches at 1; simpl.
  destruct (str_in k s); [reflexivity | exact IH].
Qed.

(** The nested loops return the category of the first pair, in visiting
    order, whose keyword occurs. *)
Lemma scan_table_find (table : list (string * list string)) (s : string) :
  scan_table table s = option_map fst (find (matches s) (pairs table)).
Proof.
  induction table as [|[category keywords] rest IH]; simpl; [reflexivity|].
  rewrite find_app.
  pose proof (any_keyword_find category keywords s) as H.
  destruct (find (matches s) (map (pair category) keywords));
    simpl in H |- *; destruct (any_keyword keywords s);
    try discriminate; [exact (eq_sym H) | exact IH].
Qed.

Lemma find_first {A : Type} (f : A -> bool) (l1 l2 : list A) (x : A) :
  (forall y, In y l1 -> f y = false) -> f x = true ->
  find f (l1 ++ x :: l2) = Some x.
Proof.
  intros Hl1 Hx. induction l1 as [|y l1 IH]; simpl.
  - now rewrite Hx.
  - rewrite (Hl1 y (or_introl eq_refl)). apply IH.
    intros z Hz. apply Hl1. now right.
Qed.

Lemma find_split {A : Type} (f : A -> bool) (l : list A) (x : A) :
  find f l = Some x ->
  exists l1 l2, l = (l1 ++ x :: l2)%list /\ f x = true
                /\ forall y, In y l1 -> f y = false.
Proof.
  induction l as [|y l IH]; simpl; [discriminate|].
  destruct (f y) eqn:Hy.
  - intros [= ->]. exists [], l. repeat split; [assumption | intros ? []].
  - intros H. destruct (IH H) as [l1 [l2 [-> [Hx Hl1]]]].
    exists (y :: l1), l2. repeat split; [assumption|].
    intros z [<-|Hz]; [assumption | now apply Hl1].
Qed.

Lemma find_none_iff {A : Type} (f : A -> bool) (l : list A) :
  find f l = None <-> forall y, In y l -> f y = false.
Proof.
  induction l as [|y l IH]; simpl.
  - split; [intros _ ? [] | reflexivity].
  - destruct (f y) eqn:Hy.
    + split; [discriminate|]. intros H.
      specialize (H y (or_introl eq_refl)). congruence.
    + rewrite IH. split.
      * intros H z [<-|Hz]; [assumption | now apply H].
      * intros H z Hz. apply H. now right.
Qed.

Lemma categorize_transaction_find
      (description : string) (amount : Q) (transaction_type : string) :
  categorize_transaction description amount transaction_type =
  match find (matches (lower description)) table_pairs with
  | Some p => fst p
  | None =>
      if String.eqb transaction_type "Credit" then "Income"
      else if Py.gt amount 10000 then "Shopping"
      else if Py.gt amount 1000 then "Bills & Utilities"
      else "Other"
  end.
Proof.
  unfold categorize_transaction. rewrite scan_table_find.
  change (pairs Config.CATEGORY_KEYWORDS) with table_pairs.
  now destruct (find (matches (lower description)) table_pairs).
Qed.

(** Whatever follows the first pair whose keyword occurs is never looked
    at: that pair's category is the answer. *)
Lemma first_pair_wins
      (description : string) (amount : Q) (transaction_type : string)
      (earlier later : list (string * string)) (category keyword : string) :
  table_pairs = (earlier ++ (category, keyword) :: later)%list ->
  occurs keyword (lower description) ->
  (forall c k, In (c, k) earlier -> ~ occurs k (lower description)) ->
  categorize_transaction description amount transaction_type = category.
Proof.
  intros Htable Hocc Hearlier.
  rewrite categorize_transaction_find, Htable.
  rewrite (find_first _ earlier later (category, keyword)); [reflexivity| |].
  - intros [c k] Hin. apply str_in_false_iff. now apply (Hearlier c k).
  - now apply str_in_true_iff.
Qed.

Lemma Py_gt_iff (x y : Q) : Py.gt x y = true <-> y < x.
Proof.
  unfold Py.gt. rewrite negb_true_iff, <- not_true_iff_false, Qle_bool_iff.
  split; [apply Qnot_le_lt | apply Qlt_not_le].
Qed.

Lemma Py_gt_false_iff (x y : Q) : Py.gt x y = false <-> x <= y.
Proof.
  unfold Py.gt. rewrite negb_false_iff. apply Qle_bool_iff.
Qed.

Lemma Py_lt_iff (x y : Q) : Py.lt x y = true <-> x < y.
Proof. apply (Py_gt_iff y x). Qed.

Lemma Py_ge_iff (x y : Q) : Py.ge x y = true <-> y <= x.
Proof. apply Qle_bool_iff. Qed.

Lemma table_pairs_split : table_pairs = (other_pairs ++ income_pairs)%list.
Proof. reflexivity. Qed.

Lemma no_keyword_occurs_iff (s : string) :
  find (matches s) table_pairs = None <->
  forall c k, In (c, k) (pairs Config.CATEGORY_KEYWORDS) -> ~ occurs k s.
Proof.
  change (pairs Config.CATEGORY_KEYWORDS) with table_pairs.
  rewrite find_none_iff. split.
  - intros H c k Hin. apply str_in_false_iff. exact (H (c, k) Hin).
  - intros H [c k] Hin. apply str_in_false_iff. exact (H c k Hin).
Qed.

Lemma In_forallb {A : Type} (f : A -> bool) (l : list A) (x : A) :
  forallb f l = true -> In x l -> f x = true.
Proof. intros H Hin. rewrite forallb_forall in H. now apply H. Qed.

(** C1. A description holding keywords of two different categories gets the
    category of the first (category, keyword) pair, in the table's own
    order, whose keyword occurs in the lower-cased text; where in the text
    that keyword stands plays no part.  In particular "uber food delivery"
    is "Food & Dining" whatever the amount and the type. *)
Theorem C1_first_table_pair_decides
        (description : string) (amount : Q) (transaction_type : string)
        (c1 k1 c2 k2 : string)
        (Hin1 : In (c1, k1) (pairs Config.CATEGORY_KEYWORDS))
        (Hin2 : In (c2, k2) (pairs Config.CATEGORY_KEYWORDS))
        (Hdiff : c1 <> c2)
        (Hocc1 : occurs k1 (lower description))
        (Hocc2 : occurs k2 (lower description)) :
  (exists earlier category keyword later,
      pairs Config.CATEGORY_KEYWORDS
      = (earlier ++ (category, keyword) :: later)%list
      /\ occurs keyword (lower description)
      /\ (forall c k, In (c, k) earlier -> ~ occurs k (lower description))
      /\ categorize_transaction description amount transaction_type
         = category)
  /\ (forall a t,
         categorize_transaction "uber food delivery" a t = "Food & Dining").
Proof.
  split; [|reflexivity].
  change (pairs Config.CATEGORY_KEYWORDS) with table_pairs in *.
  destruct (find (matches (lower description)) table_pairs) as [[c k]|] eqn:Hf.
  - destruct (find_split _ _ _ Hf) as [earlier [later [Ht [Hm Hearlier]]]].
    exists earlier, c, k, later.
    assert (Hno : forall c' k', In (c', k') earlier ->
                                ~ occurs k' (lower description)).
    { intros c' k' Hin. apply str_in_false_iff. exact (Hearlier _ Hin). }
    assert (Hk : occurs k (lower description)) by now apply str_in_true_iff.
    repeat split; try assumption.
    now apply (first_pair_wins _ _ _ earlier later c k).
  - exfalso. rewrite find_none_iff in Hf.
    specialize (Hf _ Hin1). apply str_in_false_iff in Hf. now apply Hf.
Qed.

Lemma C1_first_table_pair_decides_witness :
  (exists earlier category keyword later,
      pairs Config.CATEGORY_KEYWORDS
      = (earlier ++ (category, keyword) :: later)%list
      /\ occurs keyword (lower "Uber FOOD delivery")
      /\ (forall c k, In (c, k) earlier
                      -> ~ occurs k (lower "Uber FOOD delivery"))
      /\ categorize_transaction "Uber FOOD delivery" 250 "Debit" = category)
  /\ (forall a t,
         categorize_transaction "uber food delivery" a t = "Food & Dining").
Proof.
  apply (C1_first_table_pair_decides
           "Uber FOOD delivery" 250 "Debit"
           "Transportation" "uber" "Food & Dining" "food").
  - apply (nth_error_In _ 19%nat). reflexivity.
  - apply (nth_error_In _ 0%nat). reflexivity.
  - discriminate.
  - apply str_in_true_iff. reflexivity.
  - apply str_in_true_iff. reflexivity.
Defined.

(** C2. When no keyword of the table occurs in the lower-cased description,
    the answer is "Income" for type "Credit"; otherwise "Shopping" above
    10000, "Bills & Utilities" above 1000 and up to 10000 inclusive, and
    "Other" up to 1000 inclusive. *)
Theorem C2_fallback_chain
        (description : string) (amount : Q) (transaction_type : string)
        (Hnone : forall c k, In (c, k) (pairs Config.CATEGORY_KEYWORDS)
                             -> ~ occurs k (lower description)) :
  (transaction_type = "Credit" ->
   categorize_transaction description amount transaction_type = "Income")
  /\ (transaction_type <> "Credit" -> 10000 < amount ->
      categorize_transaction description amount transaction_type
      = "Shopping")
  /\ (transaction_type <> "Credit" -> 1000 < amount -> amount <= 10000 ->
      categorize_transaction description amount transaction_type
      = "Bills & Utilities")
  /\ (transaction_type <> "Credit" -> amount <= 1000 ->
      categorize_transaction description amount transaction_type = "Other").
Proof.
  apply no_keyword_occurs_iff in Hnone.
  rewrite categorize_transaction_find, Hnone.
  repeat split.
  - intros ->. reflexivity.
  - intros Ht Ha. apply String.eqb_neq in Ht. rewrite Ht.
    apply Py_gt_iff in Ha. now rewrite Ha.
  - intros Ht Hlo Hhi. apply String.eqb_neq in Ht. rewrite Ht.
    apply Py_gt_false_iff in Hhi. apply Py_gt_iff in Hlo.
    now rewrite Hhi, Hlo.
  - intros Ht Ha. apply String.eqb_neq in Ht. rewrite Ht.
    assert (Hhi : amount <= 10000).
    { eapply Qle_trans; [exact Ha | discriminate]. }
    apply Py_gt_false_iff in Hhi, Ha. now rewrite Hhi, Ha.
Qed.

Lemma C2_fallback_chain_witness :
  categorize_transaction "XYZ123" 50000 "Credit" = "Income"
  /\ categorize_transaction "XYZ123" 15000 "Debit" = "Shopping"
  /\ categorize_transaction "XYZ123" 10000 "Debit" = "Bills & Utilities"
  /\ categorize_transaction "XYZ123" 1000 "Debit" = "Other".
Proof.
  assert (Hnone : forall c k, In (c, k) (pairs Config.CATEGORY_KEYWORDS)
                              -> ~ occurs k (lower "XYZ123")).
  { apply no_keyword_occurs_iff. reflexivity. }
  split; [|split; [|split]].
  - apply (C2_fallback_chain "XYZ123" 50000 "Credit" Hnone). reflexivity.
  - apply (C2_fallback_chain "XYZ123" 15000 "Debit" Hnone);
      [discriminate | reflexivity].
  - apply (C2_fallback_chain "XYZ123" 10000 "Debit" Hnone);
      [discriminate | reflexivity | discriminate].
  - apply (C2_fallback_chain "XYZ123" 1000 "Debit" Hnone);
      discriminate.
Defined.

Lemma other_pairs_not_income :
  forallb (fun p => negb (String.eqb (fst p) "Income")) other_pairs = true.
Proof. reflexivity. Qed.

Lemma income_pairs_income :
  forallb (fun p => String.eqb (fst p) "Income") income_pairs = true.
Proof. reflexivity. Qed.

Lemma fallback_not_income (amount : Q) :
  (if Py.gt amount 10000 then "Shopping"
   else if Py.gt amount 1000 then "Bills & Utilities" else "Other")
  <> "Income".
Proof.
  destruct (Py.gt amount 10000); [discriminate|].
  destruct (Py.gt amount 1000); discriminate.
Qed.

(** C3, as the code has it.  With a type other than "Credit" the answer is
    "Income" exactly when an Income keyword occurs in the lower-cased
    description and no keyword of any other category does: the keyword scan
    never looks at the type, and the fallback gives "Income" to "Credit"
    only. *)
Theorem C3_income_without_credit_iff_income_keyword
        (description : string) (amount : Q) (transaction_type : string)
        (Hdebit : transaction_type <> "Credit") :
  categorize_transaction description amount transaction_type = "Income"
  <-> (exists k, In k (keywords_of "Income")
                 /\ occurs k (lower description))
      /\ (forall c k, In (c, k) (pairs Config.CATEGORY_KEYWORDS) ->
                      c <> "Income" -> ~ occurs k (lower description)).
Proof.
  change (pairs Config.CATEGORY_KEYWORDS) with table_pairs.
  rewrite categorize_transaction_find, table_pairs_split, find_app.
  set (s := lower description).
  destruct (find (matches s) other_pairs) as [[c k]|] eqn:Ho.
  - apply find_some in Ho as [Hin Hm].
    pose proof (In_forallb _ _ _ other_pairs_not_income Hin) as Hc.
    simpl in Hc. apply negb_true_iff, String.eqb_neq in Hc.
    split; [intros H; simpl in H; contradiction|].
    intros [_ H]. exfalso.
    apply (H c k); [apply in_or_app; now left | assumption |].
    now apply str_in_true_iff.
  - rewrite find_none_iff in Ho.
    assert (Hothers : forall c k, In (c, k) (other_pairs ++ income_pairs) ->
                                  c <> "Income" -> ~ occurs k s).
    { intros c k Hin Hc. apply in_app_or in Hin as [Hin|Hin].
      - apply str_in_false_iff. exact (Ho _ Hin).
      - pose proof (In_forallb _ _ _ income_pairs_income Hin) as Hc'.
        simpl in Hc'. apply String.eqb_eq in Hc'. contradiction. }
    destruct (find (matches s) income_pairs) as [[c k]|] eqn:Hi.
    + apply find_some in Hi as [Hin Hm].
      pose proof (In_forallb _ _ _ income_pairs_income Hin) as Hc.
      simpl in Hc. apply String.eqb_eq in Hc. subst c.
      split; [intros _ | reflexivity].
      split; [|exact Hothers].
      exists k. split; [|now apply str_in_true_iff].
      change income_pairs with (map (pair "Income") (keywords_of "Income"))
        in Hin.
      apply in_map_iff in Hin as [k' [[= <-] Hin]]. exact Hin.
    + apply String.eqb_neq in Hdebit. rewrite Hdebit.
      split; [intros H; now apply fallback_not_income in H|].
      intros [[k [Hin Hk]] _]. exfalso.
      rewrite find_none_iff in Hi.
      assert (Hp : In ("Income", k) income_pairs).
      { change income_pairs with (map (pair "Income") (keywords_of "Income")).
        now apply in_map. }
      apply Hi in Hp. apply str_in_false_iff in Hp. now apply Hp.
Qed.

Lemma C3_income_without_credit_iff_income_keyword_witness :
  categorize_transaction "LOAN EMI PAYMENT" 5000 "Debit" = "Income"
  <-> (exists k, In k (keywords_of "Income")
                 /\ occurs k (lower "LOAN EMI PAYMENT"))
      /\ (forall c k, In (c, k) (pairs Config.CATEGORY_KEYWORDS) ->
                      c <> "Income" -> ~ occurs k (lower "LOAN EMI PAYMENT")).
Proof.
  apply (C3_income_without_credit_iff_income_keyword
           "LOAN EMI PAYMENT" 5000 "Debit").
  discriminate.
Defined.

(** C3 as stated fails: a debit whose text holds an Income keyword (here
    "payment") and no keyword of another category is "Income". *)
Lemma C3_counterexample :
  ~ (forall description amount,
        0 <= amount ->
        categorize_transaction description amount "Debit" <> "Income").
Proof.
  intros H. apply (H "LOAN EMI PAYMENT" 5000); [discriminate | reflexivity].
Qed.

(** ** Sums *)

Lemma sum_app (l1 l2 : list Q) : sum (l1 ++ l2) == sum l1 + sum l2.
Proof.
  induction l1 as [|x l1 IH]; simpl.
  - ring.
  - rewrite IH. ring.
Qed.



(** ** Grouping *)

Section GroupByFacts.
Context {K : Type} (cmp : K -> K -> comparison).
Hypothesis cmp_spec :
  forall x y, CompareSpec (x = y) (cmp x y = Lt) (cmp y x = Lt) (cmp x y).
Hypothesis cmp_trans :
  forall x y z, cmp x y = Lt -> cmp y z = Lt -> cmp x z = Lt.
Hypothesis cmp_irrefl : forall x, cmp x x <> Lt.

Local Set Default Proof Using "cmp_spec cmp_trans cmp_irrefl".

Lemma cmp_refl (x : K) : cmp x x = Eq.
Proof.
  destruct (cmp_spec x x) as [_|H|H]; [reflexivity | |];
    now apply cmp_irrefl in H.
Qed.

Lemma cmp_eq (x y : K) : cmp x y = Eq <-> x = y.
Proof.
  split; [|intros ->; apply cmp_refl].
  destruct (cmp_spec x y); congruence.
Qed.

Lemma cmp_gt (x y : K) : cmp x y = Gt -> cmp y x = Lt.
Proof. destruct (cmp_spec x y); congruence. Qed.

Lemma same_key_iff (k : K) (kv : K * Q) :
  same_key cmp k kv = true <-> fst kv = k.
Proof.
  unfold same_key. rewrite <- cmp_eq.
  destruct (cmp (fst kv) k); split; congruence.
Qed.

Lemma total_for_cons (k : K) (kv : K * Q) (kvs : list (K * Q)) :
  total_for cmp k (kv :: kvs) =
  if same_key cmp k kv then snd kv + total_for cmp k kvs
  else total_for cmp k kvs.
Proof. unfold total_for. simpl. now destruct (same_key cmp k kv). Qed.

Lemma group_add_total (k k0 : K) (v : Q) (g : list (K * Q)) :
  total_for cmp k (group_add cmp k0 v g)
  == total_for cmp k g + (if same_key cmp k (k0, v) then v else 0).
Proof.
  induction g as [|[k' s] g IH]; simpl.
  - rewrite total_for_cons. unfold total_for. simpl.
    destruct (same_key cmp k (k0, v)); ring.
  - destruct (cmp k0 k') eqn:Hc.
    + apply cmp_eq in Hc. subst k'.
      rewrite !total_for_cons.
      replace (same_key cmp k (k0, s + v)) with (same_key cmp k (k0, v))
        by reflexivity.
      replace (same_key cmp k (k0, s)) with (same_key cmp k (k0, v))
        by reflexivity.
      destruct (same_key cmp k (k0, v)); simpl; ring.
    + rewrite total_for_cons.
      destruct (same_key cmp k (k0, v)); simpl; ring.
    + rewrite !total_for_cons.
      destruct (same_key cmp k (k', s)); rewrite IH; simpl; ring.
Qed.

Lemma group_add_sum (k : K) (v : Q) (g : list (K * Q)) :
  sum (map snd (group_add cmp k v g)) == sum (map snd g) + v.
Proof.
  induction g as [|[k' s] g IH]; simpl.
  - ring.
  - destruct (cmp k k'); simpl; [ring | ring | rewrite IH; ring].
Qed.

Lemma group_add_keys (k x : K) (v : Q) (g : list (K * Q)) :
  In x (map fst (group_add cmp k v g)) <-> x = k \/ In x (map fst g).
Proof.
  induction g as [|[k' s] g IH]; simpl.
  - intuition.
  - destruct (cmp k k') eqn:Hc; simpl.
    + apply cmp_eq in Hc. subst k'. intuition.
    + intuition.
    + rewrite IH. intuition.
Qed.

Lemma group_add_above (a : K * Q) (k : K) (v : Q) (g : list (K * Q)) :
  Forall (key_lt cmp a) g -> cmp (fst a) k = Lt ->
  Forall (key_lt cmp a) (group_add cmp k v g).
Proof.
  intros Hg Hk. induction Hg as [|[k' s] g Hh Hg IH]; simpl.
  - constructor; [exact Hk | constructor].
  - destruct (cmp k k'); repeat constructor; assumption.
Qed.

Lemma group_add_ascending (k : K) (v : Q) (g : list (K * Q)) :
  keys_ascending cmp g -> keys_ascending cmp (group_add cmp k v g).
Proof.
  unfold keys_ascending.
  induction 1 as [|[k' s] g Hg IH Hh]; simpl.
  - repeat constructor.
  - destruct (cmp k k') eqn:Hc.
    + constructor; assumption.
    + constructor; [now constructor|].
      constructor; [exact Hc|].
      eapply Forall_impl; [|exact Hh].
      intros b Hb. unfold key_lt in *. simpl in *.
      now apply (cmp_trans k k' (fst b)).
    + constructor; [exact IH|].
      apply group_add_above; [exact Hh | now apply cmp_gt].
Qed.

Lemma groupby_from_cons (g : list (K * Q)) (kv : K * Q)
      (kvs : list (K * Q)) :
  groupby_from cmp g (kv :: kvs)
  = groupby_from cmp (group_add cmp (fst kv) (snd kv) g) kvs.
Proof. reflexivity. Qed.

Lemma groupby_from_total (k : K) (kvs g : list (K * Q)) :
  total_for cmp k (groupby_from cmp g kvs)
  == total_for cmp k g + total_for cmp k kvs.
Proof.
  revert g. induction kvs as [|[k0 v] kvs IH]; intros g.
  - unfold total_for at 3. simpl. ring.
  - rewrite groupby_from_cons, IH, group_add_total.
    rewrite (total_for_cons k (k0, v) kvs).
    simpl. destruct (same_key cmp k (k0, v)); simpl; ring.
Qed.

Lemma groupby_from_sum (kvs g : list (K * Q)) :
  sum (map snd (groupby_from cmp g kvs))
  == sum (map snd g) + sum (map snd kvs).
Proof.
  revert g. induction kvs as [|[k0 v] kvs IH]; intros g.
  - simpl. ring.
  - rewrite groupby_from_cons, IH, group_add_sum. simpl. ring.
Qed.

Lemma groupby_from_keys (x : K) (kvs g : list (K * Q)) :
  In x (map fst (groupby_from cmp g kvs))
  <-> In x (map fst g) \/ In x (map fst kvs).
Proof.
  revert g. induction kvs as [|[k0 v] kvs IH]; intros g.
  - simpl. intuition.
  - rewrite groupby_from_cons, IH, group_add_keys. simpl.
    intuition.
Qed.

Lemma groupby_from_ascending (kvs g : list (K * Q)) :
  keys_ascending cmp g -> keys_ascending cmp (groupby_from cmp g kvs).
Proof.
  revert g. induction kvs as [|[k0 v] kvs IH]; intros g Hg.
  - exact Hg.
  - rewrite groupby_from_cons. apply IH. now apply group_add_ascending.
Qed.

(** What [groupby_sum] returns: ascending keys, exactly the keys of the
    input, each with the sum of its values. *)
Lemma groupby_sum_ascending (kvs : list (K * Q)) :
  keys_ascending cmp (groupby_sum cmp kvs).
Proof.
  change (groupby_sum cmp kvs) with (groupby_from cmp [] kvs).
  apply groupby_from_ascending. constructor.
Qed.

Lemma groupby_sum_keys (x : K) (kvs : list (K * Q)) :
  In x (map fst (groupby_sum cmp kvs)) <-> In x (map fst kvs).
Proof.
  change (groupby_sum cmp kvs) with (groupby_from cmp [] kvs).
  rewrite (groupby_from_keys x kvs []). simpl. intuition.
Qed.

Lemma groupby_sum_total (k : K) (kvs : list (K * Q)) :
  total_for cmp k (groupby_sum cmp kvs) == total_for cmp k kvs.
Proof.
  change (groupby_sum cmp kvs) with (groupby_from cmp [] kvs).
  rewrite (groupby_from_total k kvs []).
  unfold total_for at 1. simpl. ring.
Qed.

Lemma groupby_sum_sum (kvs : list (K * Q)) :
  sum (map snd (groupby_sum cmp kvs)) == sum (map snd kvs).
Proof.
  change (groupby_sum cmp kvs) with (groupby_from cmp [] kvs).
  rewrite (groupby_from_sum kvs []). simpl. ring.
Qed.

Lemma ascending_above_total (a : K * Q) (g : list (K * Q)) :
  Forall (key_lt cmp a) g -> total_for cmp (fst a) g == 0.
Proof.
  induction 1 as [|b g Hb _ IH].
  - reflexivity.
  - rewrite total_for_cons.
    destruct (same_key cmp (fst a) b) eqn:Hs; [|exact IH].
    apply same_key_iff in Hs. unfold key_lt in Hb. rewrite Hs in Hb.
    now apply cmp_irrefl in Hb.
Qed.

Lemma ascending_total (k : K) (v : Q) (g : list (K * Q)) :
  keys_ascending cmp g -> In (k, v) g -> total_for cmp k g == v.
Proof.
  induction 1 as [|b g Hg IH Hb]; intros Hin; [contradiction|].
  rewrite total_for_cons. destruct Hin as [->|Hin].
  - rewrite (proj2 (same_key_iff k (k, v)) eq_refl). simpl.
    rewrite (ascending_above_total (k, v) g Hb). ring.
  - destruct (same_key cmp k b) eqn:Hs; [|now apply IH].
    apply same_key_iff in Hs. exfalso.
    rewrite Forall_forall in Hb. specialize (Hb _ Hin).
    unfold key_lt in Hb. simpl in Hb. rewrite Hs in Hb.
    now apply cmp_irrefl in Hb.
Qed.

Lemma ascending_NoDup (g : list (K * Q)) :
  keys_ascending cmp g -> NoDup (map fst g).
Proof.
  induction 1 as [|b g Hg IH Hb]; simpl; constructor; [|exact IH].
  intros Hin. apply in_map_iff in Hin as [c [Hc Hin]].
  rewrite Forall_forall in Hb. specialize (Hb _ Hin).
  unfold key_lt in Hb. rewrite Hc in Hb. now apply cmp_irrefl in Hb.
Qed.

(** Each entry of the result carries the sum of the input values filed
    under its key. *)
Lemma groupby_sum_entry (k : K) (v : Q) (kvs : list (K * Q)) :
  In (k, v) (groupby_sum cmp kvs) -> v == total_for cmp k kvs.
Proof.
  intros Hin. rewrite <- groupby_sum_total.
  symmetry. apply ascending_total; [apply groupby_sum_ascending | exact Hin].
Qed.

Lemma groupby_sum_nonempty (kvs : list (K * Q)) :
  kvs <> [] -> groupby_sum cmp kvs <> [].
Proof.
  destruct kvs as [|[k v] kvs]; [congruence|]. intros _ Hnil.
  assert (H : In k (map fst (groupby_sum cmp ((k, v) :: kvs)))).
  { apply groupby_sum_keys. now left. }
  rewrite Hnil in H. exact H.
Qed.
End GroupByFacts.

(** The two key orders in use: month ordinals and category names. *)

Lemma Z_cmp_spec (x y : Z) :
  CompareSpec (x = y) ((x ?= y)%Z = Lt) ((y ?= x)%Z = Lt) (x ?= y)%Z.
Proof. exact (Z.compare_spec x y). Qed.

Lemma Z_cmp_trans (x y z : Z) :
  (x ?= y)%Z = Lt -> (y ?= z)%Z = Lt -> (x ?= z)%Z = Lt.
Proof. apply Z.lt_trans. Qed.

Lemma Z_cmp_irrefl (x : Z) : (x ?= x)%Z <> Lt.
Proof. rewrite Z.compare_refl. discriminate. Qed.




(** ** Rows, months and categories *)

Lemma combine_map {A B C : Type} (f : A -> B) (g : A -> C) (l : list A) :
  combine (map f l) (map g l) = map (fun a => (f a, g a)) l.
Proof. induction l as [|a l IH]; simpl; [reflexivity | now rewrite IH]. Qed.

Lemma parsed_filter (f : row -> bool) (df : DataFrame) :
  parsed df -> parsed (filter f df).
Proof.
  unfold parsed. rewrite !Forall_forall. intros H r Hr.
  apply filter_In in Hr as [Hr _]. now apply H.
Qed.

Lemma mapM_to_period_parsed (df : DataFrame) :
  parsed df -> mapM to_period_M (map date df) = Ok (map row_period df).
Proof.
  induction 1 as [|r df [t Hr] _ IH]; simpl; [reflexivity|].
  rewrite IH. unfold row_period. rewrite Hr. reflexivity.
Qed.

Lemma monthly_sums_parsed (df : DataFrame) :
  parsed df -> monthly_sums df = Ok (groupby_sum Z.compare (by_month df)).
Proof.
  intros H. unfold monthly_sums. rewrite (mapM_to_period_parsed df H).
  simpl. now rewrite combine_map.
Qed.

Lemma total_for_by_month (rows : DataFrame) (m : Period) :
  total_for Z.compare m (by_month rows) = month_total rows m.
Proof.
  unfold total_for, month_total, by_month.
  induction rows as [|r rows IH]; simpl; [reflexivity|].
  unfold same_key at 1. simpl. rewrite Z.eqb_compare.
  destruct (row_period r ?= m)%Z; simpl; now rewrite IH.
Qed.


(** The groups by month: one per populated month, in chronological order,
    each holding that month's total. *)
Lemma monthly_groups_keys (rows : DataFrame) :
  Permutation (map fst (groupby_sum Z.compare (by_month rows)))
              (populated_months rows).
Proof.
  apply NoDup_Permutation.
  - apply (ascending_NoDup _ Z_cmp_spec Z_cmp_trans Z_cmp_irrefl).
    apply (groupby_sum_ascending _ Z_cmp_spec Z_cmp_trans Z_cmp_irrefl).
  - apply NoDup_nodup.
  - intros m. unfold populated_months. rewrite nodup_In.
    rewrite (groupby_sum_keys _ Z_cmp_spec Z_cmp_trans Z_cmp_irrefl).
    unfold by_month. now rewrite map_map.
Qed.

Lemma monthly_groups_entry (rows : DataFrame) (m : Period) (v : Q) :
  In (m, v) (groupby_sum Z.compare (by_month rows)) ->
  v == month_total rows m.
Proof.
  intros Hin. rewrite <- total_for_by_month.
  now apply (groupby_sum_entry _ Z_cmp_spec Z_cmp_trans Z_cmp_irrefl).
Qed.


Lemma monthly_groups_length (rows : DataFrame) :
  List.length (groupby_sum Z.compare (by_month rows))
  = List.length (populated_months rows).
Proof.
  transitivity
    (List.length (map fst (groupby_sum Z.compare (by_month rows)))).
  - symmetry. apply length_map.
  - apply Permutation_length, monthly_groups_keys.
Qed.

Lemma monthly_groups_nonempty (rows : DataFrame) :
  rows <> [] -> groupby_sum Z.compare (by_month rows) <> [].
Proof.
  intros H. apply (groupby_sum_nonempty _ Z_cmp_spec Z_cmp_trans Z_cmp_irrefl).
  destruct rows; [congruence | discriminate].
Qed.

Lemma mean_nonempty (l : list Q) :
  l <> [] ->
  mean l = Ok (sum l / inject_Z (Z.of_nat (List.length l))).
Proof.
  destruct l as [|x l]; [congruence | reflexivity].
Qed.

(** ** The analyzers on a parsed frame *)

Lemma _analyze_income_nonempty (df : DataFrame) :
  parsed df -> income_rows df <> [] ->
  _analyze_income df =
  Ok (income_dict
        (sum (map amount (income_rows df)))
        (sum (map snd (groupby_sum Z.compare (by_month (income_rows df))))
         / inject_Z (Z.of_nat (List.length
              (groupby_sum Z.compare (by_month (income_rows df))))))
        (head 5 (value_counts (map description (income_rows df))))).
Proof.
  intros Hp Hne. unfold _analyze_income.
  change (filter (fun r => String.eqb (category r) "Income") df)
    with (income_rows df).
  destruct (income_rows df) as [|r rows] eqn:Hrows; [congruence|].
  cbn [empty].
  assert (Hp' : parsed (r :: rows)).
  { rewrite <- Hrows. now apply parsed_filter. }
  rewrite (monthly_sums_parsed _ Hp'). cbn [bind].
  rewrite mean_nonempty.
  - cbn [bind]. now rewrite length_map.
  - intros Hnil. apply map_eq_nil in Hnil.
    now apply (monthly_groups_nonempty (r :: rows)) in Hnil.
Qed.

Lemma _analyze_expenses_nonempty (df : DataFrame) :
  parsed df -> expense_rows df <> [] ->
  _analyze_expenses df =
  Ok (expense_dict
        (sum (map amount (expense_rows df)))
        (sum (map snd (groupby_sum Z.compare (by_month (expense_rows df))))
         / inject_Z (Z.of_nat (List.length
              (groupby_sum Z.compare (by_month (expense_rows df))))))
        (sort_values_desc Py.gt
           (groupby_sum String_as_OT.compare
                        (by_category (expense_rows df))))
        (head 5 (sort_values_desc Py.gt
           (groupby_sum String_as_OT.compare
                        (by_category (expense_rows df)))))).
Proof.
  intros Hp Hne. unfold _analyze_expenses.
  change (filter (fun r => negb (String.eqb (category r) "Income")) df)
    with (expense_rows df).
  destruct (expense_rows df) as [|r rows] eqn:Hrows; [congruence|].
  cbn [empty].
  assert (Hp' : parsed (r :: rows)).
  { rewrite <- Hrows. now apply parsed_filter. }
  rewrite (monthly_sums_parsed _ Hp'). cbn [bind].
  rewrite mean_nonempty.
  - cbn [bind]. now rewrite combine_map, length_map.
  - intros Hnil. apply map_eq_nil in Hnil.
    now apply (monthly_groups_nonempty (r :: rows)) in Hnil.
Qed.




(** ** The health score *)

Lemma Py_gt_dec (x y : Q) :
  Py.gt x y = if Qlt_le_dec y x then true else false.
Proof.
  destruct (Qlt_le_dec y x) as [H|H].
  - now apply Py_gt_iff.
  - now apply Py_gt_false_iff.
Qed.

Lemma Py_ge_dec (x y : Q) :
  Py.ge x y = if Qlt_le_dec x y then false else true.
Proof.
  destruct (Qlt_le_dec x y) as [H|H].
  - apply not_true_iff_false. rewrite Py_ge_iff. now apply Qlt_not_le.
  - now apply Py_ge_iff.
Qed.

Lemma truediv_nonzero (x y : Q) : 0 < y -> truediv x y = Ok (x / y).
Proof.
  intros H. unfold truediv.
  destruct (Qeq_bool y 0) eqn:He; [|reflexivity].
  apply Qeq_bool_eq in He. rewrite He in H. now apply Qlt_irrefl in H.
Qed.

Lemma eqb_string_dec (s t : string) :
  String.eqb s t = if string_dec s t then true else false.
Proof.
  destruct (string_dec s t) as [->|H].
  - apply String.eqb_refl.
  - now apply String.eqb_neq.
Qed.

Lemma clamp_max_min (x : Z) : Z.max 0 (Z.min 100 x) = clamp 0 100 x.
Proof.
  unfold clamp.
  destruct (Z.ltb_spec x 0); destruct (Z.ltb_spec 100 x); lia.
Qed.


(** The scorer computes [health_score] and never raises. *)
Lemma _calculate_financial_health_score_returns
      (a : AnalysisDict) (p : Profile) :
  _calculate_financial_health_score a p
  = Ok (health_score
          (get (monthly_income_avg a) 0)
          (get (monthly_expenses_avg a) 0)
          (get (monthly_savings_target
                  (get (financial_goals p) no_goals)) 0)
          (get (spending_trend a) "stable")).
Proof.
  unfold _calculate_financial_health_score, health_score.
  set (income := get (monthly_income_avg a) 0).
  set (expenses := get (monthly_expenses_avg a) 0).
  set (target := get (monthly_savings_target
                        (get (financial_goals p) no_goals)) 0).
  set (trend := get (spending_trend a) "stable").
  rewrite <- clamp_max_min. unfold trend_adjustment.
  rewrite !eqb_string_dec, (Py_gt_dec income 0), (Py_gt_dec target 0).
  destruct (Qlt_le_dec 0 income) as [Hi|Hi].
  - rewrite (truediv_nonzero _ _ Hi). cbn [bind].
    unfold ratio_bonus, target_bonus. rewrite !Py_gt_dec, !Py_ge_dec.
    destruct (Qlt_le_dec (2 # 10) ((income - expenses) / income));
      destruct (Qlt_le_dec (1 # 10) ((income - expenses) / income));
      destruct (Qlt_le_dec 0 ((income - expenses) / income));
      destruct (Qlt_le_dec 0 target);
      destruct (Qlt_le_dec (income - expenses) target);
      destruct (Qlt_le_dec (income - expenses) (target * (8 # 10)));
      destruct (Qlt_le_dec (income - expenses) (target * (5 # 10)));
      destruct (string_dec trend "decreasing");
      destruct (string_dec trend "increasing");
      cbn [bind]; f_equal; f_equal; lia.
  - cbn [bind].
    destruct (string_dec trend "decreasing");
      destruct (string_dec trend "increasing"); f_equal; f_equal; lia.
Qed.


(** ** Empty inputs *)

Lemma _analyze_income_empty (df : DataFrame) :
  income_rows df = [] -> _analyze_income df = Ok (income_dict 0 0 []).
Proof.
  unfold income_rows, is_income, _analyze_income. intros H. now rewrite H.
Qed.

Lemma _analyze_expenses_empty (df : DataFrame) :
  expense_rows df = [] -> _analyze_expenses df = Ok (expense_dict 0 0 [] []).
Proof.
  unfold expense_rows, is_income, _analyze_expenses. intros H.
  now rewrite H.
Qed.

Lemma _analyze_spending_patterns_empty (df : DataFrame) :
  expense_rows df = [] ->
  _analyze_spending_patterns df = Ok (pattern_dict "stable" None None None).
Proof.
  unfold expense_rows, is_income, _analyze_spending_patterns. intros H.
  now rewrite H.
Qed.

(** C8. Without income rows [_analyze_income] returns its zero defaults;
    without non-income rows [_analyze_expenses] and
    [_analyze_spending_patterns] return theirs (trend "stable", no highest
    and no lowest month).  Each call returns; none raises. *)
Theorem C8_empty_defaults (df : DataFrame) :
  (income_rows df = [] ->
   _analyze_income df
   = Ok {| total_transactions := None; date_range := None;
           total_income := Some 0; monthly_income_avg := Some 0;
           income_sources := Some []; total_expenses := None;
           monthly_expenses_avg := None; expense_breakdown := None;
           top_spending_categories := None; spending_trend := None;
           highest_spending_month := None; lowest_spending_month := None;
           monthly_spending := None; financial_health_score := None |})
  /\ (expense_rows df = [] ->
      _analyze_expenses df
      = Ok {| total_transactions := None; date_range := None;
              total_income := None; monthly_income_avg := None;
              income_sources := None; total_expenses := Some 0;
              monthly_expenses_avg := Some 0; expense_breakdown := Some [];
              top_spending_categories := Some []; spending_trend := None;
              highest_spending_month := None; lowest_spending_month := None;
              monthly_spending := None; financial_health_score := None |})
  /\ (expense_rows df = [] ->
      _analyze_spending_patterns df
      = Ok {| total_transactions := None; date_range := None;
              total_income := None; monthly_income_avg := None;
              income_sources := None; total_expenses := None;
              monthly_expenses_avg := None; expense_breakdown := None;
              top_spending_categories := None;
              spending_trend := Some "stable";
              highest_spending_month := Some None;
              lowest_spending_month := Some None;
              monthly_spending := None; financial_health_score := None |}).
Proof.
  split; [|split]; intros H.
  - now apply _analyze_income_empty.
  - now apply _analyze_expenses_empty.
  - now apply _analyze_spending_patterns_empty.
Qed.

Lemma C8_empty_defaults_witness :
  _analyze_income [] = Ok (income_dict 0 0 [])
  /\ _analyze_expenses [] = Ok (expense_dict 0 0 [] [])
  /\ _analyze_spending_patterns [] = Ok (pattern_dict "stable" None None None).
Proof.
  destruct (C8_empty_defaults []) as [Hincome [Hexpenses Hpatterns]].
  split; [|split].
  - apply Hincome. reflexivity.
  - apply Hexpenses. reflexivity.
  - apply Hpatterns. reflexivity.
Defined.

(** ** The frame and the profile across [analyze_transactions] *)

Lemma assign_to_datetime_rows (df df' : DataFrame) :
  assign_to_datetime df = Ok df' ->
  Forall2 (fun r r' => exists t, to_datetime_cell (date r) = Ok t
                                 /\ r' = set_date r t) df df'.
Proof.
  revert df'. induction df as [|r df IH]; simpl; intros df' H.
  - injection H as <-. constructor.
  - destruct (to_datetime_cell (date r)) as [t|e] eqn:Ht; [|discriminate].
    cbn [bind] in H.
    destruct (assign_to_datetime df) as [rest|e] eqn:Hrest; [|discriminate].
    cbn [bind] in H. injection H as <-.
    constructor; [exists t; split; [exact Ht | reflexivity] | now apply IH].
Qed.

Lemma assign_to_datetime_parsed (df : DataFrame) :
  parsed df -> assign_to_datetime df = Ok df.
Proof.
  induction 1 as [|r df [t Hr] _ IH]; simpl; [reflexivity|].
  rewrite Hr. cbn [to_datetime_cell bind]. rewrite IH. cbn [bind].
  destruct r as [d desc a ty c]. simpl in Hr. subst d. reflexivity.
Qed.

Lemma assign_to_datetime_is_parsed (df df' : DataFrame) :
  assign_to_datetime df = Ok df' -> parsed df'.
Proof.
  intros H. apply assign_to_datetime_rows in H.
  induction H as [|r r' df df' [t [_ ->]] _ IH]; constructor;
    [now exists t | exact IH].
Qed.

(** What a successful run leaves in the caller's frame. *)
Lemma analyze_transactions_frame
      (df : DataFrame) (p : Profile) (df' : DataFrame) (p' : Profile) :
  analyze_transactions df p = Ok (df', p') ->
  (df = [] /\ df' = []) \/ assign_to_datetime df = Ok df'.
Proof.
  unfold analyze_transactions.
  destruct df as [|r df]; cbn [empty].
  - intros [= <- _]. now left.
  - intros H. right.
    destruct (assign_to_datetime (r :: df)) as [df1|e]; [|discriminate].
    cbn [bind] in H.
    destruct (datetime_column df1); [|discriminate]. cbn [bind] in H.
    destruct (_analyze_income df1); [|discriminate]. cbn [bind] in H.
    destruct (_analyze_expenses df1); [|discriminate]. cbn [bind] in H.
    destruct (_analyze_spending_patterns df1); [|discriminate].
    cbn [bind] in H.
    destruct (_calculate_financial_health_score _ p); [|discriminate].
    cbn [bind] in H. now injection H as <- _.
Qed.

(** C9, as the code has it.  A successful run keeps the rows in number and
    order and keeps every description, amount, type and category; it
    rewrites the [date] column, each cell becoming the timestamp it parses
    to, so a frame whose dates already are timestamps comes back
    unchanged. *)
Theorem C9_run_rewrites_only_the_date_column
        (df : DataFrame) (p : Profile) (df' : DataFrame) (p' : Profile)
        (Hrun : analyze_transactions df p = Ok (df', p')) :
  Forall2 (fun r r' =>
             description r' = description r /\ amount r' = amount r
             /\ type r' = type r /\ category r' = category r
             /\ (exists t, to_datetime_cell (date r) = Ok t
                            /\ date r' = DateTs t))
          df df'
  /\ (parsed df -> df' = df).
Proof.
  destruct (analyze_transactions_frame _ _ _ _ Hrun) as [[-> ->]|Ha].
  - split; [constructor | reflexivity].
  - split.
    + apply assign_to_datetime_rows in Ha.
      eapply Forall2_impl; [|exact Ha].
      intros r r' [t [Ht ->]]. repeat split. now exists t.
    + intros Hp. rewrite (assign_to_datetime_parsed _ Hp) in Ha.
      now injection Ha.
Qed.

Lemma test_run :
  analyze_transactions test_frame test_profile
  = Ok (test_frame_after, test_profile_after).
Proof. vm_compute. reflexivity. Qed.

Lemma C9_run_rewrites_only_the_date_column_witness :
  Forall2 (fun r r' =>
             description r' = description r /\ amount r' = amount r
             /\ type r' = type r /\ category r' = category r
             /\ (exists t, to_datetime_cell (date r) = Ok t
                           /\ date r' = DateTs t))
          test_frame test_frame_after
  /\ (parsed test_frame -> test_frame_after = test_frame).
Proof.
  exact (C9_run_rewrites_only_the_date_column
           test_frame test_profile test_frame_after test_profile_after
           test_run).
Defined.

(** C9 as stated fails: the run of [test_app.py] on a frame with text dates
    leaves timestamps in the [date] column of the caller's frame. *)
Lemma C9_counterexample :
  ~ (forall df p df' p',
        df <> [] -> analyze_transactions df p = Ok (df', p') -> df' = df).
Proof.
  intros H.
  assert (Hne : test_frame <> []) by discriminate.
  specialize (H test_frame test_profile test_frame_after test_profile_after
                Hne test_run).
  discriminate H.
Qed.

(** C10. On an empty frame [analyze_transactions] returns the profile it
    was given, with whatever analysis it already carried, and leaves the
    frame empty.  On a non-empty frame the analysis attached to the result
    does not depend on the one the profile carried before. *)
Theorem C10_empty_frame_returns_profile (user_profile : Profile) :
  analyze_transactions [] user_profile = Ok ([], user_profile)
  /\ (forall df previous,
         df <> [] ->
         analyze_transactions df (set_transaction_analysis user_profile
                                                            previous)
         = analyze_transactions df user_profile).
Proof.
  split; [reflexivity|].
  intros df previous Hne. unfold analyze_transactions.
  destruct df as [|r df]; [congruence|]. cbn [empty].
  destruct (assign_to_datetime (r :: df)) as [df1|e]; [|reflexivity].
  cbn [bind].
  destruct (datetime_column df1); [|reflexivity]. cbn [bind].
  destruct (_analyze_income df1); [|reflexivity]. cbn [bind].
  destruct (_analyze_expenses df1); [|reflexivity]. cbn [bind].
  destruct (_analyze_spending_patterns df1); [|reflexivity]. cbn [bind].
  reflexivity.
Qed.

Lemma C10_empty_frame_returns_profile_witness :
  analyze_transactions [] test_profile_after = Ok ([], test_profile_after)
  /\ analyze_transactions test_frame test_profile_after
     = analyze_transactions test_frame test_profile.
Proof.
  destruct (C10_empty_frame_returns_profile test_profile)
    as [_ Hreplaced].
  split.
  - exact (proj1 (C10_empty_frame_returns_profile test_profile_after)).
  - apply (Hreplaced test_frame
             {| total_transactions := Some 5%nat;
                date_range :=
                  Some (Some {| year := 2024; month := 1; day := 1 |},
                        Some {| year := 2024; month := 1; day := 5 |});
                total_income := Some 50000;
                monthly_income_avg := Some 50000;
                income_sources := Some [("SALARY", 1%nat)];
                total_expenses := Some 3650;
                monthly_expenses_avg := Some 3650;
                expense_breakdown :=
                  Some [("Shopping", 2000); ("Bills & Utilities", 1200);
                        ("Food & Dining", 300); ("Transportation", 150)];
                top_spending_categories :=
                  Some [("Shopping", 2000); ("Bills & Utilities", 1200);
                        ("Food & Dining", 300); ("Transportation", 150)];
                spending_trend := Some "insufficient_data";
                highest_spending_month := Some (Some 648%Z);
                lowest_spending_month := Some (Some 648%Z);
                monthly_spending := Some [(648%Z, 3650)];
                financial_health_score := Some 85%Z |}).
    discriminate.
Defined.

(** ** Sorting by value, largest first *)

Section SortValuesFacts.
Context {K : Type} (before : K * Q -> K * Q -> Prop).





End SortValuesFacts.


(** ** The expense breakdown *)






Example frame_8_categories_top :
  exists a,
    _analyze_expenses frame_8_categories = Ok a
    /\ expense_breakdown a
       = Some [("Travel", 5000); ("Shopping", 2000);
               ("Bills & Utilities", 1200); ("Education", 700);
               ("Healthcare", 700); ("Food & Dining", 650);
               ("Entertainment", 199); ("Transportation", 150)]
    /\ top_spending_categories a
       = Some [("Travel", 5000); ("Shopping", 2000);
               ("Bills & Utilities", 1200); ("Education", 700);
               ("Healthcare", 700)].
Proof.
  eexists. split; [vm_compute; reflexivity|]. split; reflexivity.
Qed.

(** ** The least-squares slope *)

Lemma count_cons (x : Q) (l : list Q) : count (x :: l) == count l + 1.
Proof.
  unfold count. cbn [List.length].
  rewrite Nat2Z.inj_succ. unfold Z.succ. now rewrite inject_Z_plus.
Qed.

Lemma count_nonzero (l : list Q) : l <> [] -> ~ count l == 0.
Proof.
  destruct l as [|x l]; [congruence|]. intros _ H.
  unfold count, Qeq in H. simpl in H. lia.
Qed.

Lemma dot_cons (x y : Q) (xs ys : list Q) :
  dot (x :: xs) (y :: ys) = x * y + dot xs ys.
Proof. reflexivity. Qed.

Lemma shifted_dot (c d : Q) (xs ys : list Q) :
  List.length xs = List.length ys ->
  sum (map (fun xy => (fst xy - c) * (snd xy - d)) (combine xs ys))
  == dot xs ys - c * sum ys - d * sum xs + count xs * c * d.
Proof.
  revert ys. induction xs as [|x xs IH]; intros [|y ys] Hlen;
    try discriminate.
  - unfold count, dot. simpl. ring.
  - injection Hlen as Hlen. specialize (IH ys Hlen).
    rewrite dot_cons, count_cons. cbn [combine map sum fold_right fst snd].
    change (fold_right Qplus 0
              (map (fun xy => (fst xy - c) * (snd xy - d)) (combine xs ys)))
      with (sum (map (fun xy => (fst xy - c) * (snd xy - d))
                     (combine xs ys))).
    rewrite IH.
    change (fold_right Qplus 0 ys) with (sum ys).
    change (fold_right Qplus 0 xs) with (sum xs).
    ring.
Qed.

Lemma centered_dot_normal (xs ys : list Q) :
  List.length xs = List.length ys -> xs <> [] ->
  count xs * centered_dot xs ys == count xs * dot xs ys - sum xs * sum ys.
Proof.
  intros Hlen Hne. unfold centered_dot.
  rewrite (shifted_dot _ _ xs ys Hlen). unfold average.
  assert (Hc : count ys = count xs) by (unfold count; now rewrite Hlen).
  rewrite Hc. field. now apply count_nonzero.
Qed.

Lemma xrange_length (n : nat) : List.length (xrange n) = n.
Proof. unfold xrange. now rewrite length_map, length_seq. Qed.

Lemma scaled_quotient (n a b : Q) : ~ n == 0 -> (n * a) / (n * b) == a / b.
Proof.
  intros Hn. destruct (Qeq_dec b 0) as [Hb|Hb].
  - rewrite Hb. setoid_replace (n * 0) with 0 by ring.
    unfold Qdiv. change (/ 0) with 0. ring.
  - field. split; assumption.
Qed.

(** The slope [np.polyfit] returns is the least-squares slope. *)
Lemma polyfit1_slope (ys : list Q) :
  ys <> [] ->
  exists fit, polyfit1 ys = Ok fit /\ fst fit == ols_slope ys.
Proof.
  intros Hne. destruct ys as [|y ys]; [congruence|].
  eexists. split; [reflexivity|]. cbn [fst].
  set (l := y :: ys) in *.
  set (xs := xrange (List.length l)).
  assert (Hlen : List.length xs = List.length l) by apply xrange_length.
  assert (Hxs : xs <> []).
  { intros H. rewrite H in Hlen. discriminate. }
  assert (Hn : inject_Z (Z.of_nat (List.length l)) = count xs).
  { unfold count. now rewrite Hlen. }
  rewrite Hn.
  rewrite <- (centered_dot_normal xs l Hlen Hxs).
  rewrite <- (centered_dot_normal xs xs eq_refl Hxs).
  unfold ols_slope. fold xs.
  apply scaled_quotient. now apply count_nonzero.
Qed.

Lemma idxmax_nonempty {K : Type} (l : list (K * Q)) :
  l <> [] -> exists k, idxmax l = Ok k.
Proof.
  induction l as [|[k v] l IH]; [congruence|]. intros _.
  destruct l as [|e l]; [now exists k|].
  destruct IH as [k' Hk']; [discriminate|].
  cbn [idxmax] in Hk' |- *. rewrite Hk'. cbn [bind]. eauto.
Qed.

Lemma idxmin_nonempty {K : Type} (l : list (K * Q)) :
  l <> [] -> exists k, idxmin l = Ok k.
Proof.
  induction l as [|[k v] l IH]; [congruence|]. intros _.
  destruct l as [|e l]; [now exists k|].
  destruct IH as [k' Hk']; [discriminate|].
  cbn [idxmin] in Hk' |- *. rewrite Hk'. cbn [bind]. eauto.
Qed.

Lemma _analyze_spending_patterns_nonempty (df : DataFrame) :
  parsed df -> expense_rows df <> [] ->
  exists fit highest lowest,
    polyfit1 (map snd (groupby_sum Z.compare (by_month (expense_rows df))))
    = Ok fit
    /\ _analyze_spending_patterns df
       = Ok (pattern_dict
               (if (1 <? List.length
                           (groupby_sum Z.compare
                                        (by_month (expense_rows df))))%nat
                then trend_of_slope (fst fit)
                else "insufficient_data")
               (Some highest) (Some lowest)
               (Some (groupby_sum Z.compare (by_month (expense_rows df))))).
Proof.
  intros Hp Hne. unfold _analyze_spending_patterns. cbv zeta.
  change (filter (fun r => negb (String.eqb (category r) "Income")) df)
    with (expense_rows df).
  destruct (expense_rows df) as [|r rows] eqn:Hrows; [congruence|].
  cbn [empty].
  assert (Hp' : parsed (r :: rows)).
  { rewrite <- Hrows. now apply parsed_filter. }
  rewrite (monthly_sums_parsed _ Hp'). cbn [bind].
  pose proof (monthly_groups_nonempty (r :: rows) Hne) as Hms.
  set (ms := groupby_sum Z.compare (by_month (r :: rows))) in *.
  destruct (polyfit1_slope (map snd ms)) as [fit [Hfit _]].
  { intros H. apply map_eq_nil in H. contradiction. }
  destruct (idxmax_nonempty ms Hms) as [hi Hhi].
  destruct (idxmin_nonempty ms Hms) as [lo Hlo].
  exists fit, hi, lo. split; [exact Hfit|].
  unfold Period in *. rewrite Hfit, Hhi, Hlo.
  destruct ms as [|e ms']; [congruence|]. cbn [empty negb bind].
  destruct (1 <? List.length (e :: ms'))%nat; reflexivity.
Qed.





Example trend_examples :
  (exists a, _analyze_spending_patterns frame_rising = Ok a
             /\ spending_trend a = Some "increasing")
  /\ (exists a, _analyze_spending_patterns frame_falling = Ok a
                /\ spending_trend a = Some "decreasing")
  /\ (exists a, _analyze_spending_patterns frame_flat = Ok a
                /\ spending_trend a = Some "stable")
  /\ (exists a, _analyze_spending_patterns frame_8_categories = Ok a
                /\ spending_trend a = Some "insufficient_data").
Proof.
  repeat split; eexists; (split; [vm_compute; reflexivity | reflexivity]).
Qed.

(** ** The run returns whenever the dates parse *)






(** ** The fitted line minimises the squared error *)

Lemma Qsquare_nonneg (x : Q) : 0 <= x * x.
Proof.
  unfold Qle, Qmult. simpl. rewrite Z.mul_1_r. apply Z.square_nonneg.
Qed.

Section LeastSquares.
Variables a b a' b' : Q.

Lemma squared_error_shift (ps : list (Q * Q)) :
  sum (map (fun xy => (snd xy - (a' * fst xy + b'))
                      * (snd xy - (a' * fst xy + b'))) ps)
  == sum (map (fun xy => residual a b xy * residual a b xy) ps)
     + (2 # 1) * (a - a') * sum (map (fun xy => fst xy * residual a b xy) ps)
     + (2 # 1) * (b - b') * sum (map (residual a b) ps)
     + sum (map (fun xy => ((a - a') * fst xy + (b - b'))
                           * ((a - a') * fst xy + (b - b'))) ps).
Proof.
  induction ps as [|[x y] ps IH].
  - simpl. ring.
  - cbn [map sum fold_right].
    change (fold_right Qplus 0) with sum. rewrite IH.
    unfold residual. cbn [fst snd]. ring.
Qed.

Lemma sum_squares_nonneg (ps : list (Q * Q)) :
  0 <= sum (map (fun xy => ((a - a') * fst xy + (b - b'))
                           * ((a - a') * fst xy + (b - b'))) ps).
Proof.
  induction ps as [|[x y] ps IH]; [apply Qle_refl|].
  cbn [map sum fold_right]. change (fold_right Qplus 0) with sum.
  pose proof (Qsquare_nonneg ((a - a') * fst (x, y) + (b - b'))) as Hsq.
  lra.
Qed.

Lemma sum_residual (xs ys : list Q) :
  List.length xs = List.length ys ->
  sum (map (residual a b) (combine xs ys))
  == sum ys - a * sum xs - count xs * b.
Proof.
  revert ys. induction xs as [|x xs IH]; intros [|y ys] Hlen;
    try discriminate.
  - unfold count. simpl. ring.
  - injection Hlen as Hlen. rewrite count_cons.
    cbn [combine map sum fold_right].
    change (fold_right Qplus 0) with sum. rewrite (IH ys Hlen).
    unfold residual. cbn [fst snd]. ring.
Qed.

Lemma sum_x_residual (xs ys : list Q) :
  List.length xs = List.length ys ->
  sum (map (fun xy => fst xy * residual a b xy) (combine xs ys))
  == dot xs ys - a * dot xs xs - b * sum xs.
Proof.
  revert ys. induction xs as [|x xs IH]; intros [|y ys] Hlen;
    try discriminate.
  - unfold dot. simpl. ring.
  - injection Hlen as Hlen. rewrite !dot_cons.
    cbn [combine map sum fold_right].
    change (fold_right Qplus 0) with sum. rewrite (IH ys Hlen).
    unfold residual. cbn [fst snd]. ring.
Qed.
End LeastSquares.

Lemma xrange_succ (n : nat) :
  xrange (S n) = (xrange n ++ [inject_Z (Z.of_nat n)])%list.
Proof. unfold xrange. now rewrite seq_S, map_app. Qed.

Lemma dot_self (xs : list Q) : dot xs xs = sum (map (fun x => x * x) xs).
Proof.
  unfold dot. f_equal.
  induction xs as [|x xs IH]; simpl; [reflexivity | now rewrite IH].
Qed.

Lemma inject_nat_succ (n : nat) :
  inject_Z (Z.of_nat (S n)) == inject_Z (Z.of_nat n) + 1.
Proof. rewrite Nat2Z.inj_succ. unfold Z.succ. now rewrite inject_Z_plus. Qed.

(** 0 + 1 + ... + (n-1) and 0 + 1 + 4 + ... + (n-1)^2, in closed form. *)
Lemma sum_xrange (n : nat) :
  (2 # 1) * sum (xrange n)
  == inject_Z (Z.of_nat n) * (inject_Z (Z.of_nat n) - 1).
Proof.
  induction n as [|n IH]; [reflexivity|].
  rewrite xrange_succ, sum_app, inject_nat_succ. simpl sum at 2.
  set (N := inject_Z (Z.of_nat n)) in *.
  setoid_replace ((2 # 1) * (sum (xrange n) + (N + 0)))
    with ((2 # 1) * sum (xrange n) + (2 # 1) * N) by ring.
  rewrite IH. ring.
Qed.

Lemma sum_squares_xrange (n : nat) :
  (6 # 1) * dot (xrange n) (xrange n)
  == (inject_Z (Z.of_nat n) - 1) * inject_Z (Z.of_nat n)
     * ((2 # 1) * inject_Z (Z.of_nat n) - 1).
Proof.
  rewrite dot_self.
  induction n as [|n IH]; [reflexivity|].
  rewrite xrange_succ, map_app, sum_app, inject_nat_succ. simpl sum at 2.
  set (N := inject_Z (Z.of_nat n)) in *.
  setoid_replace
    ((6 # 1) * (sum (map (fun x => x * x) (xrange n)) + (N * N + 0)))
    with ((6 # 1) * sum (map (fun x => x * x) (xrange n))
          + (6 # 1) * (N * N)) by ring.
  rewrite IH. ring.
Qed.

(** With two or more points the indices are not all equal, so the normal
    equations have one solution. *)
Lemma xrange_spread (n : nat) :
  (2 <= n)%nat ->
  0 < inject_Z (Z.of_nat n) * dot (xrange n) (xrange n)
      - sum (xrange n) * sum (xrange n).
Proof.
  intros Hn.
  set (N := inject_Z (Z.of_nat n)).
  assert (HN : (2 # 1) <= N).
  { unfold N. change (2 # 1) with (inject_Z 2).
    rewrite <- Zle_Qle. lia. }
  assert (H12 : (12 # 1) * (N * dot (xrange n) (xrange n)
                            - sum (xrange n) * sum (xrange n))
                == N * N * (N - 1) * (N + 1)).
  { setoid_replace
      ((12 # 1) * (N * dot (xrange n) (xrange n)
                   - sum (xrange n) * sum (xrange n)))
      with ((2 # 1) * N * ((6 # 1) * dot (xrange n) (xrange n))
            - (3 # 1) * (((2 # 1) * sum (xrange n))
                         * ((2 # 1) * sum (xrange n)))) by ring.
    rewrite sum_squares_xrange, sum_xrange. fold N. ring. }
  assert (Hpos : 0 < N * N * (N - 1) * (N + 1)).
  { repeat apply Qmult_lt_0_compat; lra. }
  rewrite <- H12 in Hpos. lra.
Qed.

(** The line [np.polyfit] is modelled to return is the least-squares line:
    no other line has a smaller squared error on the points. *)
Lemma polyfit1_least_squares (ys : list Q) (fit : Q * Q) (a b : Q) :
  (2 <= List.length ys)%nat -> polyfit1 ys = Ok fit ->
  squared_error (fst fit) (snd fit) ys <= squared_error a b ys.
Proof.
  intros Hn Hfit. destruct ys as [|y ys]; [discriminate|].
  set (l := y :: ys) in *.
  set (xs := xrange (List.length l)).
  set (n := inject_Z (Z.of_nat (List.length l))).
  set (slope := (n * dot xs l - sum xs * sum l)
                / (n * dot xs xs - sum xs * sum xs)).
  set (intercept := (sum l - slope * sum xs) / n).
  assert (Hlen : List.length xs = List.length l) by apply xrange_length.
  assert (Hcount : count xs = n).
  { unfold n, count. now rewrite Hlen. }
  assert (Hline : polyfit1 l = Ok (slope, intercept)) by reflexivity.
  rewrite Hline in Hfit. injection Hfit as <-. cbn [fst snd].
  pose proof (xrange_spread (List.length l) Hn) as Hspread.
  fold xs n in Hspread.
  assert (Hc : 0 < n).
  { unfold n. change 0 with (inject_Z 0). rewrite <- Zlt_Qlt. lia. }
  unfold squared_error. fold xs.
  rewrite (squared_error_shift slope intercept a b (combine xs l)).
  rewrite (sum_residual slope intercept xs l Hlen).
  rewrite (sum_x_residual slope intercept xs l Hlen).
  rewrite Hcount.
  assert (H1 : sum l - slope * sum xs - n * intercept == 0).
  { unfold intercept. field. lra. }
  assert (H2 : dot xs l - slope * dot xs xs - intercept * sum xs == 0).
  { unfold intercept, slope. field. split; lra. }
  rewrite H1, H2.
  pose proof (sum_squares_nonneg slope intercept a b (combine xs l)) as Hsq.
  unfold residual. lra.
Qed.

(** * Further properties *)

(** ** The categoriser: range, added text, overshadowed keywords *)

Lemma append_assoc (s1 s2 s3 : string) :
  (s1 ++ s2) ++ s3 = s1 ++ (s2 ++ s3).
Proof. induction s1 as [|c s1 IH]; simpl; [reflexivity | now rewrite IH]. Qed.

Lemma lower_app (s1 s2 : string) : lower (s1 ++ s2) = lower s1 ++ lower s2.
Proof. induction s1 as [|c s1 IH]; simpl; [reflexivity | now rewrite IH]. Qed.

Lemma occurs_trans (a b s : string) : occurs a b -> occurs b s -> occurs a s.
Proof.
  intros [p1 [q1 ->]] [p2 [q2 ->]].
  exists (p2 ++ p1), (q1 ++ q2). now rewrite !append_assoc.
Qed.

Lemma occurs_extend (k pre s post : string) :
  occurs k s -> occurs k (pre ++ s ++ post).
Proof.
  intros H. apply (occurs_trans k s); [exact H|]. now exists pre, post.
Qed.

Lemma table_categories_listed :
  forallb (fun p => existsb (String.eqb (fst p)) Config.CATEGORIES)
          table_pairs = true.
Proof. reflexivity. Qed.

Lemma existsb_eqb_In (c : string) (l : list string) :
  existsb (String.eqb c) l = true -> In c l.
Proof.
  intros H. apply existsb_exists in H as [x [Hin Hx]].
  apply String.eqb_eq in Hx. now subst.
Qed.

(** X1.  Whatever the description, the amount and the type, the category
    returned is one of the eleven names of [CATEGORIES]. *)
Theorem X1_category_in_CATEGORIES
        (description : string) (amount : Q) (transaction_type : string) :
  In (categorize_transaction description amount transaction_type)
     Config.CATEGORIES.
Proof.
  rewrite categorize_transaction_find.
  destruct (find (matches (lower description)) table_pairs) as [p|] eqn:Hf.
  - apply find_some in Hf as [Hin _].
    apply existsb_eqb_In.
    exact (In_forallb _ _ _ table_categories_listed Hin).
  - destruct (String.eqb transaction_type "Credit");
      [|destruct (Py.gt amount 10000); [|destruct (Py.gt amount 1000)]];
      apply existsb_eqb_In; reflexivity.
Qed.

Lemma nondecreasing_head (x : nat) (l : list nat) :
  nondecreasing (x :: l) = true -> forall y, In y (x :: l) -> (x <= y)%nat.
Proof.
  revert x. induction l as [|z l IH]; intros x H y Hy.
  - destruct Hy as [<-|[]]. lia.
  - cbn [nondecreasing] in H. apply andb_true_iff in H as [Hxz Hl].
    apply Nat.leb_le in Hxz.
    destruct Hy as [<-|Hy]; [lia|].
    specialize (IH z Hl y Hy). lia.
Qed.

Lemma nondecreasing_tail (x : nat) (l : list nat) :
  nondecreasing (x :: l) = true -> nondecreasing l = true.
Proof.
  destruct l as [|z l]; [reflexivity|]. cbn [nondecreasing].
  intros H. now apply andb_true_iff in H as [_ H].
Qed.

Lemma nondecreasing_split (l1 l2 : list nat) (x y : nat) :
  nondecreasing (l1 ++ x :: l2) = true -> In y (x :: l2) -> (x <= y)%nat.
Proof.
  induction l1 as [|z l1 IH]; intros H Hy.
  - now apply (nondecreasing_head x l2).
  - apply IH; [|exact Hy]. exact (nondecreasing_tail _ _ H).
Qed.

(** The pairs of the table come category by category. *)
Lemma table_pairs_by_rank :
  nondecreasing (map (fun p => category_rank (fst p)) table_pairs) = true.
Proof. reflexivity. Qed.

Lemma find_weaker {A : Type} (f1 f2 : A -> bool) (l : list A) (p1 : A) :
  (forall x, f1 x = true -> f2 x = true) ->
  find f1 l = Some p1 ->
  exists p2 l1 l2,
    find f2 l = Some p2 /\ l = (l1 ++ p2 :: l2)%list /\ In p1 (p2 :: l2).
Proof.
  intros Himp H1.
  assert (H2 : exists p2, find f2 l = Some p2).
  { destruct (find f2 l) as [p2|] eqn:H2; [now exists p2|].
    apply find_some in H1 as [Hin Hp1].
    rewrite find_none_iff in H2. specialize (H2 _ Hin).
    rewrite (Himp _ Hp1) in H2. discriminate. }
  destruct H2 as [p2 H2].
  destruct (find_split _ _ _ H2) as [l1 [l2 [-> [Hp2 Hl1]]]].
  exists p2, l1, l2. repeat split; [exact H2|].
  apply find_some in H1 as [Hin Hp1].
  apply in_app_or in Hin as [Hin|Hin]; [|exact Hin].
  specialize (Hl1 _ Hin). rewrite (Himp _ Hp1) in Hl1. discriminate.
Qed.

(** When a keyword of the table occurs, the deciding pair stands at or
    before that keyword's pair, so its category is declared no later. *)
Lemma keyword_bounds_rank (s : string) (c k : string) :
  In (c, k) table_pairs -> occurs k s ->
  exists p, find (matches s) table_pairs = Some p
            /\ (category_rank (fst p) <= category_rank c)%nat.
Proof.
  intros Hin Hocc.
  destruct (find (matches s) table_pairs) as [p|] eqn:Hf.
  - exists p. split; [reflexivity|].
    destruct (find_split _ _ _ Hf) as [l1 [l2 [Hl [_ Hl1]]]].
    assert (Hck : In (c, k) (p :: l2)).
    { rewrite Hl in Hin. apply in_app_or in Hin as [Hin|Hin]; [|exact Hin].
      specialize (Hl1 _ Hin). unfold matches in Hl1. simpl in Hl1.
      apply str_in_false_iff in Hl1. contradiction. }
    pose proof table_pairs_by_rank as Hs. rewrite Hl, map_app in Hs.
    cbn [map] in Hs.
    apply (nondecreasing_split _ _ _ _ Hs).
    change (In ((fun q => category_rank (fst q)) (c, k))
               (map (fun q => category_rank (fst q)) (p :: l2))).
    now apply in_map.
  - rewrite find_none_iff in Hf. specialize (Hf _ Hin).
    apply str_in_false_iff in Hf. contradiction.
Qed.

(** X2.  Text added before or after a description that holds a keyword
    cannot move the category later in the table: the category of the
    longer text is the same or one declared earlier. *)
Theorem X2_added_text_never_moves_category_later
        (pre description post : string) (amount amount' : Q)
        (transaction_type transaction_type' : string)
        (Hkeyword : exists c k, In (c, k) (pairs Config.CATEGORY_KEYWORDS)
                                /\ occurs k (lower description)) :
  (category_rank
     (categorize_transaction (pre ++ description ++ post)
                             amount' transaction_type')
   <= category_rank
        (categorize_transaction description amount transaction_type))%nat.
Proof.
  change (pairs Config.CATEGORY_KEYWORDS) with table_pairs in Hkeyword.
  destruct Hkeyword as [c [k [Hin Hocc]]].
  destruct (keyword_bounds_rank _ c k Hin Hocc) as [p [Hp _]].
  rewrite (categorize_transaction_find description), Hp.
  destruct p as [c1 k1]. cbn [fst].
  apply find_some in Hp as [Hin1 Hm1].
  apply str_in_true_iff in Hm1. cbn [snd] in Hm1.
  assert (Hocc' : occurs k1 (lower (pre ++ description ++ post))).
  { rewrite !lower_app. now apply occurs_extend. }
  destruct (keyword_bounds_rank _ c1 k1 Hin1 Hocc') as [p' [Hp' Hrank]].
  now rewrite categorize_transaction_find, Hp'.
Qed.

Lemma X2_added_text_never_moves_category_later_witness :
  (category_rank
     (categorize_transaction ("UBER " ++ "HOTEL STAY" ++ " REF 4411")
                             1200 "Debit")
   <= category_rank (categorize_transaction "HOTEL STAY" 1200 "Debit"))%nat.
Proof.
  apply (X2_added_text_never_moves_category_later
           "UBER " "HOTEL STAY" " REF 4411" 1200 1200 "Debit" "Debit").
  exists "Travel", "hotel". split.
  - apply (nth_error_In _ 94%nat). reflexivity.
  - apply str_in_true_iff. reflexivity.
Defined.

Lemma In_pairb (c k : string) (l : list (string * string)) :
  existsb (fun q => String.eqb (fst q) c && String.eqb (snd q) k) l = true ->
  In (c, k) l.
Proof.
  intros H. apply existsb_exists in H as [[c' k'] [Hin Hq]].
  apply andb_true_iff in Hq as [Hc Hk].
  apply String.eqb_eq in Hc, Hk. simpl in Hc, Hk. now subst.
Qed.

(** A keyword that contains the keyword [k'] of the earlier category [c']
    cannot decide for the later category [c]. *)
Lemma overshadowed (s c c' k k' : string) :
  In (c', k') table_pairs -> occurs k' k ->
  (category_rank c' < category_rank c)%nat ->
  occurs k s ->
  forall p, find (matches s) table_pairs = Some p -> fst p <> c.
Proof.
  intros Hin Hkk Hrank Hocc p Hp Heq.
  destruct (keyword_bounds_rank s c' k' Hin (occurs_trans _ _ _ Hkk Hocc))
    as [p' [Hp' Hle]].
  rewrite Hp in Hp'. injection Hp' as <-. rewrite Heq in Hle. lia.
Qed.

Ltac shadowed_by c k c' k' :=
  eapply (overshadowed _ c c' k k');
  [ apply In_pairb; reflexivity
  | apply str_in_true_iff; reflexivity
  | vm_compute; lia
  | eassumption
  | eassumption ].

(** X3.  Five keywords can never decide for their own category, because
    each contains a keyword of a category declared earlier: "gas" of Bills
    & Utilities (Transportation has "gas"), "book" and "training" of
    Education ("book" of Shopping, "train" of Transportation), "booking" of
    Travel ("book" of Shopping) and "refund" of Income ("fund" of
    Investments).  A description in which such a keyword occurs is never
    given that keyword's category. *)
Theorem X3_overshadowed_keywords
        (description : string) (amount : Q) (transaction_type : string)
        (c k : string)
        (Hin : In (c, k) (shadowed_from [] (pairs Config.CATEGORY_KEYWORDS)))
        (Hocc : occurs k (lower description)) :
  categorize_transaction description amount transaction_type <> c
  /\ shadowed_from [] (pairs Config.CATEGORY_KEYWORDS)
     = [ ("Bills & Utilities", "gas"); ("Education", "book");
         ("Education", "training"); ("Travel", "booking");
         ("Income", "refund") ].
Proof.
  split; [|vm_compute; reflexivity].
  change (shadowed_from [] (pairs Config.CATEGORY_KEYWORDS))
    with shadowed_pairs in Hin.
  rewrite categorize_transaction_find.
  destruct (find (matches (lower description)) table_pairs) as [p|] eqn:Hf.
  - destruct Hin as [H|[H|[H|[H|[H|[]]]]]]; injection H as <- <-.
    + shadowed_by "Bills & Utilities" "gas" "Transportation" "gas".
    + shadowed_by "Education" "book" "Shopping" "book".
    + shadowed_by "Education" "training" "Transportation" "train".
    + shadowed_by "Travel" "booking" "Shopping" "book".
    + shadowed_by "Income" "refund" "Investments" "fund".
  - exfalso. rewrite find_none_iff in Hf.
    assert (Hck : In (c, k) table_pairs).
    { destruct Hin as [H|[H|[H|[H|[H|[]]]]]]; injection H as <- <-;
        apply In_pairb; reflexivity. }
    specialize (Hf _ Hck). apply str_in_false_iff in Hf. contradiction.
Qed.

Lemma X3_overshadowed_keywords_witness :
  categorize_transaction "TAX REFUND" 900 "Credit" <> "Income"
  /\ shadowed_from [] (pairs Config.CATEGORY_KEYWORDS)
     = [ ("Bills & Utilities", "gas"); ("Education", "book");
         ("Education", "training"); ("Travel", "booking");
         ("Income", "refund") ].
Proof.
  apply (X3_overshadowed_keywords "TAX REFUND" 900 "Credit" "Income" "refund").
  - apply (nth_error_In _ 4%nat). vm_compute. reflexivity.
  - apply str_in_true_iff. reflexivity.
Defined.

(** ** The batch *)



(** ** What a run on a non-empty frame computes *)

Lemma analyze_transactions_steps
      (df df1 : DataFrame) (p p1 : Profile) :
  df <> [] -> analyze_transactions df p = Ok (df1, p1) ->
  exists ts ai ae ap,
    assign_to_datetime df = Ok df1
    /\ datetime_column df1 = Ok ts
    /\ _analyze_income df1 = Ok ai
    /\ _analyze_expenses df1 = Ok ae
    /\ _analyze_spending_patterns df1 = Ok ap
    /\ p1 = set_transaction_analysis p
              (set_financial_health_score
                 (merged_analysis (List.length df1) (ts_min ts, ts_max ts)
                                  ai ae ap)
                 (score_of (merged_analysis (List.length df1)
                                            (ts_min ts, ts_max ts) ai ae ap)
                           p)).
Proof.
  intros Hne. unfold analyze_transactions.
  destruct df as [|r df]; [congruence|]. cbn [empty].
  destruct (assign_to_datetime (r :: df)) as [d1|e]; [|discriminate].
  cbn [bind].
  destruct (datetime_column d1) as [ts|e] eqn:Hts; [|discriminate].
  cbn [bind].
  destruct (_analyze_income d1) as [ai|e] eqn:Hai; [|discriminate].
  cbn [bind].
  destruct (_analyze_expenses d1) as [ae|e] eqn:Hae; [|discriminate].
  cbn [bind].
  destruct (_analyze_spending_patterns d1) as [ap|e] eqn:Hap;
    [|discriminate].
  cbn [bind].
  rewrite _calculate_financial_health_score_returns. cbn [bind].
  intros [= <- <-]. exists ts, ai, ae, ap.
  repeat split; assumption.
Qed.

Lemma assign_to_datetime_columns (df df1 : DataFrame) :
  assign_to_datetime df = Ok df1 ->
  map description df1 = map description df
  /\ map amount df1 = map amount df
  /\ map type df1 = map type df
  /\ map category df1 = map category df.
Proof.
  intros H. apply assign_to_datetime_rows in H.
  induction H as [|r r' df df1 [t [_ ->]] _ [IH1 [IH2 [IH3 IH4]]]];
    [repeat split|].
  cbn [map set_date description amount type category].
  now rewrite IH1, IH2, IH3, IH4.
Qed.


Lemma populated_months_nonempty (rows : DataFrame) :
  rows <> [] -> populated_months rows <> [].
Proof.
  destruct rows as [|r rows]; [congruence|]. intros _ Hnil.
  assert (Hin : In (row_period r) (populated_months (r :: rows))).
  { apply nodup_In. now left. }
  rewrite Hnil in Hin. exact Hin.
Qed.

Lemma average_times_months (rows : DataFrame) :
  rows <> [] ->
  sum (map snd (groupby_sum Z.compare (by_month rows)))
  / inject_Z (Z.of_nat (List.length (groupby_sum Z.compare (by_month rows))))
  * inject_Z (Z.of_nat (List.length (populated_months rows)))
  == sum (map amount rows).
Proof.
  intros Hne. rewrite monthly_groups_length.
  rewrite (groupby_sum_sum _ Z_cmp_spec Z_cmp_trans Z_cmp_irrefl).
  unfold by_month. rewrite map_map. cbn [snd].
  change (map (fun x : row => amount x) rows) with (map amount rows).
  field.
  pose proof (populated_months_nonempty rows Hne) as Hm.
  destruct (populated_months rows) as [|m ms]; [congruence|].
  intros H. unfold Qeq in H. simpl in H. lia.
Qed.

(** The shape of the analyzers' results on a parsed frame, with or without
    rows of their kind. *)
Lemma _analyze_income_shape (df : DataFrame) :
  parsed df ->
  exists avg,
    _analyze_income df
    = Ok (income_dict
            (sum (map amount (income_rows df))) avg
            (head 5 (value_counts (map description (income_rows df)))))
    /\ avg * inject_Z (Z.of_nat
                         (List.length (populated_months (income_rows df))))
       == sum (map amount (income_rows df)).
Proof.
  intros Hp. destruct (income_rows df) as [|r rows] eqn:Hrows.
  - exists 0. split; [|reflexivity].
    rewrite (_analyze_income_empty df Hrows). reflexivity.
  - assert (Hne : income_rows df <> []) by (rewrite Hrows; discriminate).
    rewrite <- Hrows. eexists.
    split; [apply (_analyze_income_nonempty df Hp Hne)|].
    now apply average_times_months.
Qed.

Lemma _analyze_expenses_shape (df : DataFrame) :
  parsed df ->
  exists avg,
    _analyze_expenses df
    = Ok (expense_dict
            (sum (map amount (expense_rows df))) avg
            (sort_values_desc Py.gt
               (groupby_sum String_as_OT.compare
                            (by_category (expense_rows df))))
            (head 5 (sort_values_desc Py.gt
               (groupby_sum String_as_OT.compare
                            (by_category (expense_rows df))))))
    /\ avg * inject_Z (Z.of_nat
                         (List.length (populated_months (expense_rows df))))
       == sum (map amount (expense_rows df)).
Proof.
  intros Hp. destruct (expense_rows df) as [|r rows] eqn:Hrows.
  - exists 0. split; [|reflexivity].
    rewrite (_analyze_expenses_empty df Hrows). reflexivity.
  - assert (Hne : expense_rows df <> []) by (rewrite Hrows; discriminate).
    rewrite <- Hrows. eexists.
    split; [apply (_analyze_expenses_nonempty df Hp Hne)|].
    now apply average_times_months.
Qed.

Lemma _analyze_spending_patterns_shape (df : DataFrame) :
  parsed df ->
  exists trend highest lowest monthly,
    _analyze_spending_patterns df
    = Ok (pattern_dict trend highest lowest monthly)
    /\ (monthly = None <-> expense_rows df = []).
Proof.
  intros Hp. destruct (expense_rows df) as [|r rows] eqn:Hrows.
  - exists "stable", None, None, None.
    split; [now apply _analyze_spending_patterns_empty | tauto].
  - destruct (_analyze_spending_patterns_nonempty df Hp)
      as [fit [hi [lo [_ H]]]]; [rewrite Hrows; discriminate|].
    rewrite Hrows in H. do 4 eexists. split; [exact H|].
    split; discriminate.
Qed.

(** The record a successful run attaches, field by field. *)
Lemma analyze_transactions_record
      (df df1 : DataFrame) (p p1 : Profile) :
  df <> [] -> analyze_transactions df p = Ok (df1, p1) ->
  exists ts avgi avge trend highest lowest monthly,
    assign_to_datetime df = Ok df1
    /\ datetime_column df1 = Ok ts
    /\ _analyze_income df1
       = Ok (income_dict
               (sum (map amount (income_rows df1))) avgi
               (head 5 (value_counts (map description (income_rows df1)))))
    /\ _analyze_expenses df1
       = Ok (expense_dict
               (sum (map amount (expense_rows df1))) avge
               (sort_values_desc Py.gt
                  (groupby_sum String_as_OT.compare
                               (by_category (expense_rows df1))))
               (head 5 (sort_values_desc Py.gt
                  (groupby_sum String_as_OT.compare
                               (by_category (expense_rows df1))))))
    /\ _analyze_spending_patterns df1
       = Ok (pattern_dict trend highest lowest monthly)
    /\ (monthly = None <-> expense_rows df1 = [])
    /\ p1 = set_transaction_analysis p
              (set_financial_health_score
                 (merged_analysis
                    (List.length df1) (ts_min ts, ts_max ts)
                    (income_dict
                       (sum (map amount (income_rows df1))) avgi
                       (head 5 (value_counts
                                  (map description (income_rows df1)))))
                    (expense_dict
                       (sum (map amount (expense_rows df1))) avge
                       (sort_values_desc Py.gt
                          (groupby_sum String_as_OT.compare
                                       (by_category (expense_rows df1))))
                       (head 5 (sort_values_desc Py.gt
                          (groupby_sum String_as_OT.compare
                                       (by_category (expense_rows df1))))))
                    (pattern_dict trend highest lowest monthly))
                 (health_score
                    avgi avge
                    (get (monthly_savings_target
                            (get (financial_goals p) no_goals)) 0)
                    trend)).
Proof.
  intros Hne Hrun.
  destruct (analyze_transactions_steps df df1 p p1 Hne Hrun)
    as [ts [ai [ae [ap [Hassign [Hts [Hai [Hae [Hap ->]]]]]]]]].
  pose proof (assign_to_datetime_is_parsed _ _ Hassign) as Hp.
  destruct (_analyze_income_shape df1 Hp) as [avgi [Hi _]].
  destruct (_analyze_expenses_shape df1 Hp) as [avge [He _]].
  destruct (_analyze_spending_patterns_shape df1 Hp)
    as [trend [hi [lo [ms [Hpat Hms]]]]].
  rewrite Hi in Hai. injection Hai as <-.
  rewrite He in Hae. injection Hae as <-.
  rewrite Hpat in Hap. injection Hap as <-.
  exists ts, avgi, avge, trend, hi, lo, ms.
  repeat split; try assumption; apply Hms.
Qed.

(** ** Totals *)





(** ** The highest and the lowest month *)

Lemma idxmax_cons {K : Type} (k : K) (v : Q) (e : K * Q)
      (l : list (K * Q)) :
  idxmax ((k, v) :: e :: l)
  = (k' <- idxmax (e :: l) ;;
     Ok (if forallb (fun kv => Qle_bool (snd kv) v) (e :: l)
         then k else k')).
Proof. reflexivity. Qed.

Lemma idxmin_cons {K : Type} (k : K) (v : Q) (e : K * Q)
      (l : list (K * Q)) :
  idxmin ((k, v) :: e :: l)
  = (k' <- idxmin (e :: l) ;;
     Ok (if forallb (fun kv => Qle_bool v (snd kv)) (e :: l)
         then k else k')).
Proof. reflexivity. Qed.

Lemma idxmax_first_largest {K : Type} (l : list (K * Q)) (k : K) :
  idxmax l = Ok k ->
  exists v l1 l2,
    l = (l1 ++ (k, v) :: l2)%list
    /\ (forall e, In e l1 -> snd e < v)
    /\ (forall e, In e l2 -> snd e <= v).
Proof.
  revert k. induction l as [|[k0 v0] l IH]; intros k H; [discriminate|].
  destruct l as [|e l].
  - cbn in H. injection H as <-. exists v0, [], [].
    repeat split; intros ? [].
  - rewrite idxmax_cons in H.
    destruct (idxmax (e :: l)) as [k'|err] eqn:Hk'; [|discriminate].
    cbn [bind] in H.
    destruct (forallb (fun kv => Qle_bool (snd kv) v0) (e :: l)) eqn:Hall;
      injection H as <-.
    + exists v0, [], (e :: l). split; [reflexivity|].
      split; [intros ? []|].
      intros x Hx. apply Qle_bool_iff.
      exact (In_forallb _ _ _ Hall Hx).
    + destruct (IH k' eq_refl) as [v [l1 [l2 [Hl [H1 H2]]]]].
      assert (Hv0 : v0 < v).
      { assert (Hex : exists x, In x (e :: l) /\ v0 < snd x).
        { apply not_true_iff_false in Hall.
          destruct (existsb (fun kv => negb (Qle_bool (snd kv) v0))
                            (e :: l)) eqn:Hex.
          - apply existsb_exists in Hex as [x [Hx Hn]].
            exists x. split; [exact Hx|].
            apply negb_true_iff in Hn. apply Qnot_le_lt. intros Hle.
            apply Qle_bool_iff in Hle. congruence.
          - exfalso. apply Hall. apply forallb_forall. intros x Hx.
            destruct (Qle_bool (snd x) v0) eqn:Hq; [reflexivity|].
            assert (Ht : existsb (fun kv => negb (Qle_bool (snd kv) v0))
                                 (e :: l) = true).
            { apply existsb_exists. exists x. now rewrite Hq. }
            congruence. }
        destruct Hex as [x [Hx Hlt]].
        assert (Hxv : snd x <= v).
        { rewrite Hl in Hx. apply in_app_or in Hx as [Hx|[<-|Hx]].
          - apply Qlt_le_weak. now apply H1.
          - apply Qle_refl.
          - now apply H2. }
        eapply Qlt_le_trans; eassumption. }
      exists v, ((k0, v0) :: l1), l2. rewrite Hl. split; [reflexivity|].
      split; [|exact H2].
      intros x [<-|Hx]; [exact Hv0 | now apply H1].
Qed.

Lemma idxmin_first_smallest {K : Type} (l : list (K * Q)) (k : K) :
  idxmin l = Ok k ->
  exists v l1 l2,
    l = (l1 ++ (k, v) :: l2)%list
    /\ (forall e, In e l1 -> v < snd e)
    /\ (forall e, In e l2 -> v <= snd e).
Proof.
  revert k. induction l as [|[k0 v0] l IH]; intros k H; [discriminate|].
  destruct l as [|e l].
  - cbn in H. injection H as <-. exists v0, [], [].
    repeat split; intros ? [].
  - rewrite idxmin_cons in H.
    destruct (idxmin (e :: l)) as [k'|err] eqn:Hk'; [|discriminate].
    cbn [bind] in H.
    destruct (forallb (fun kv => Qle_bool v0 (snd kv)) (e :: l)) eqn:Hall;
      injection H as <-.
    + exists v0, [], (e :: l). split; [reflexivity|].
      split; [intros ? []|].
      intros x Hx. apply Qle_bool_iff.
      exact (In_forallb _ _ _ Hall Hx).
    + destruct (IH k' eq_refl) as [v [l1 [l2 [Hl [H1 H2]]]]].
      assert (Hv0 : v < v0).
      { assert (Hex : exists x, In x (e :: l) /\ snd x < v0).
        { apply not_true_iff_false in Hall.
          destruct (existsb (fun kv => negb (Qle_bool v0 (snd kv)))
                            (e :: l)) eqn:Hex.
          - apply existsb_exists in Hex as [x [Hx Hn]].
            exists x. split; [exact Hx|].
            apply negb_true_iff in Hn. apply Qnot_le_lt. intros Hle.
            apply Qle_bool_iff in Hle. congruence.
          - exfalso. apply Hall. apply forallb_forall. intros x Hx.
            destruct (Qle_bool v0 (snd x)) eqn:Hq; [reflexivity|].
            assert (Ht : existsb (fun kv => negb (Qle_bool v0 (snd kv)))
                                 (e :: l) = true).
            { apply existsb_exists. exists x. now rewrite Hq. }
            congruence. }
        destruct Hex as [x [Hx Hlt]].
        assert (Hxv : v <= snd x).
        { rewrite Hl in Hx. apply in_app_or in Hx as [Hx|[<-|Hx]].
          - apply Qlt_le_weak. now apply H1.
          - apply Qle_refl.
          - now apply H2. }
        eapply Qle_lt_trans; eassumption. }
      exists v, ((k0, v0) :: l1), l2. rewrite Hl. split; [reflexivity|].
      split; [|exact H2].
      intros x [<-|Hx]; [exact Hv0 | now apply H1].
Qed.

Lemma _analyze_spending_patterns_months (df : DataFrame) :
  parsed df -> expense_rows df <> [] ->
  exists trend highest lowest,
    idxmax (groupby_sum Z.compare (by_month (expense_rows df))) = Ok highest
    /\ idxmin (groupby_sum Z.compare (by_month (expense_rows df)))
       = Ok lowest
    /\ _analyze_spending_patterns df
       = Ok (pattern_dict
               trend (Some highest) (Some lowest)
               (Some (groupby_sum Z.compare (by_month (expense_rows df))))).
Proof.
  intros Hp Hne. unfold _analyze_spending_patterns. cbv zeta.
  change (filter (fun r => negb (String.eqb (category r) "Income")) df)
    with (expense_rows df).
  destruct (expense_rows df) as [|r rows] eqn:Hrows; [congruence|].
  cbn [empty].
  assert (Hp' : parsed (r :: rows)).
  { rewrite <- Hrows. now apply parsed_filter. }
  rewrite (monthly_sums_parsed _ Hp'). cbn [bind].
  pose proof (monthly_groups_nonempty (r :: rows) Hne) as Hms.
  set (ms := groupby_sum Z.compare (by_month (r :: rows))) in *.
  destruct (polyfit1_slope (map snd ms)) as [fit [Hfit _]].
  { intros H. apply map_eq_nil in H. contradiction. }
  destruct (idxmax_nonempty ms Hms) as [hi Hhi].
  destruct (idxmin_nonempty ms Hms) as [lo Hlo].
  unfold Period in *. rewrite Hfit, Hhi, Hlo.
  destruct ms as [|e ms']; [congruence|]. cbn [empty negb bind].
  destruct (1 <? List.length (e :: ms'))%nat; cbn [bind];
    do 3 eexists; repeat split; reflexivity.
Qed.

Lemma StronglySorted_after {A : Type} (R : A -> A -> Prop)
      (l1 l2 : list A) (x : A) :
  StronglySorted R (l1 ++ x :: l2) -> Forall (R x) l2.
Proof.
  induction l1 as [|y l1 IH]; simpl; intros H.
  - now inversion H.
  - apply IH. now inversion H.
Qed.

Lemma monthly_groups_month (rows : DataFrame) (m : Period) :
  In m (populated_months rows) ->
  exists v, In (m, v) (groupby_sum Z.compare (by_month rows))
            /\ v == month_total rows m.
Proof.
  intros Hm.
  apply (Permutation_in _ (Permutation_sym (monthly_groups_keys rows)))
    in Hm.
  apply in_map_iff in Hm as [[m' v] [Hfst Hin]]. simpl in Hfst. subst m'.
  exists v. split; [exact Hin | now apply monthly_groups_entry].
Qed.

(** X7.  [highest_spending_month] is a populated month whose total no
    other month exceeds, and the earliest of the months with that total;
    [lowest_spending_month] is the earliest month with the smallest
    total. *)
Theorem X7_highest_and_lowest_month
        (df : DataFrame) (Hparsed : parsed df)
        (Hrows : expense_rows df <> []) :
  exists a highest lowest,
    _analyze_spending_patterns df = Ok a
    /\ highest_spending_month a = Some (Some highest)
    /\ lowest_spending_month a = Some (Some lowest)
    /\ In highest (populated_months (expense_rows df))
    /\ In lowest (populated_months (expense_rows df))
    /\ (forall m,
           In m (populated_months (expense_rows df)) ->
           month_total (expense_rows df) m
           <= month_total (expense_rows df) highest
           /\ (month_total (expense_rows df) m
               == month_total (expense_rows df) highest ->
               (highest <= m)%Z))
    /\ (forall m,
           In m (populated_months (expense_rows df)) ->
           month_total (expense_rows df) lowest
           <= month_total (expense_rows df) m
           /\ (month_total (expense_rows df) m
               == month_total (expense_rows df) lowest ->
               (lowest <= m)%Z)).
Proof.
  destruct (_analyze_spending_patterns_months df Hparsed Hrows)
    as [trend [hi [lo [Hhi [Hlo Hrun]]]]].
  set (rows := expense_rows df) in *.
  set (ms := groupby_sum Z.compare (by_month rows)) in *.
  assert (Hasc : keys_ascending Z.compare ms)
    by apply (groupby_sum_ascending _ Z_cmp_spec Z_cmp_trans Z_cmp_irrefl).
  assert (Hnodup : NoDup (map fst ms))
    by apply (ascending_NoDup _ Z_cmp_spec Z_cmp_trans Z_cmp_irrefl _ Hasc).
  assert (Hkey : forall m v, In (m, v) ms -> In m (populated_months rows)).
  { intros m v Hin.
    apply (Permutation_in _ (monthly_groups_keys rows)).
    change m with (fst (m, v)). now apply in_map. }
  assert (Hsame : forall m v v', In (m, v) ms -> In (m, v') ms -> v == v').
  { intros m v v' H1 H2.
    rewrite (monthly_groups_entry rows m v H1).
    now rewrite (monthly_groups_entry rows m v' H2). }
  destruct (idxmax_first_largest ms hi Hhi) as [vh [h1 [h2 [Hh [Hh1 Hh2]]]]].
  destruct (idxmin_first_smallest ms lo Hlo) as [vl [m1 [m2 [Hm [Hm1 Hm2]]]]].
  assert (Hinh : In (hi, vh) ms) by (rewrite Hh; apply in_elt).
  assert (Hinl : In (lo, vl) ms) by (rewrite Hm; apply in_elt).
  pose proof (monthly_groups_entry rows hi vh Hinh) as Hvh.
  pose proof (monthly_groups_entry rows lo vl Hinl) as Hvl.
  exists (pattern_dict trend (Some hi) (Some lo) (Some ms)), hi, lo.
  split; [exact Hrun|]. split; [reflexivity|]. split; [reflexivity|].
  split; [exact (Hkey _ _ Hinh)|]. split; [exact (Hkey _ _ Hinl)|].
  split.
  - intros m Hm0.
    destruct (monthly_groups_month rows m Hm0) as [v [Hin Hv]]. fold ms in Hin.
    rewrite <- Hv, <- Hvh.
    pose proof Hin as Hin'. rewrite Hh in Hin'.
    apply in_app_or in Hin' as [Hx|[Hx|Hx]].
    + specialize (Hh1 _ Hx). cbn [snd] in Hh1.
      split; [now apply Qlt_le_weak|].
      intros Heq. rewrite Heq in Hh1. now apply Qlt_irrefl in Hh1.
    + injection Hx as <- <-.
      split; [apply Qle_refl | intros _; apply Z.le_refl].
    + split; [exact (Hh2 _ Hx)|]. intros _.
      rewrite Hh in Hasc.
      pose proof (StronglySorted_after _ _ _ _ Hasc) as Hafter.
      rewrite Forall_forall in Hafter. specialize (Hafter _ Hx).
      unfold key_lt in Hafter. cbn [fst] in Hafter.
      apply Z.compare_lt_iff in Hafter. now apply Z.lt_le_incl.
  - intros m Hm0.
    destruct (monthly_groups_month rows m Hm0) as [v [Hin Hv]]. fold ms in Hin.
    rewrite <- Hv, <- Hvl.
    pose proof Hin as Hin'. rewrite Hm in Hin'.
    apply in_app_or in Hin' as [Hx|[Hx|Hx]].
    + specialize (Hm1 _ Hx). cbn [snd] in Hm1.
      split; [now apply Qlt_le_weak|].
      intros Heq. rewrite Heq in Hm1. now apply Qlt_irrefl in Hm1.
    + injection Hx as <- <-.
      split; [apply Qle_refl | intros _; apply Z.le_refl].
    + split; [exact (Hm2 _ Hx)|]. intros _.
      rewrite Hm in Hasc.
      pose proof (StronglySorted_after _ _ _ _ Hasc) as Hafter.
      rewrite Forall_forall in Hafter. specialize (Hafter _ Hx).
      unfold key_lt in Hafter. cbn [fst] in Hafter.
      apply Z.compare_lt_iff in Hafter. now apply Z.lt_le_incl.
Qed.

Lemma X7_highest_and_lowest_month_witness :
  exists a highest lowest,
    _analyze_spending_patterns frame_flat = Ok a
    /\ highest_spending_month a = Some (Some highest)
    /\ lowest_spending_month a = Some (Some lowest)
    /\ In highest (populated_months (expense_rows frame_flat))
    /\ In lowest (populated_months (expense_rows frame_flat))
    /\ (forall m,
           In m (populated_months (expense_rows frame_flat)) ->
           month_total (expense_rows frame_flat) m
           <= month_total (expense_rows frame_flat) highest
           /\ (month_total (expense_rows frame_flat) m
               == month_total (expense_rows frame_flat) highest ->
               (highest <= m)%Z))
    /\ (forall m,
           In m (populated_months (expense_rows frame_flat)) ->
           month_total (expense_rows frame_flat) lowest
           <= month_total (expense_rows frame_flat) m
           /\ (month_total (expense_rows frame_flat) m
               == month_total (expense_rows frame_flat) lowest ->
               (lowest <= m)%Z)).
Proof.
  apply (X7_highest_and_lowest_month frame_flat).
  - repeat constructor; eexists; reflexivity.
  - discriminate.
Defined.

(** ** The income sources *)

Section SortAnyValues.
Context {K V : Type} (gtb : V -> V -> bool).

Lemma insert_desc_perm (x : K * V) (l : list (K * V)) :
  Permutation (insert_desc gtb x l) (x :: l).
Proof.
  induction l as [|y l IH]; simpl; [reflexivity|].
  destruct (gtb (snd y) (snd x)); [|reflexivity].
  rewrite IH. apply perm_swap.
Qed.

Lemma sort_values_desc_perm (l : list (K * V)) :
  Permutation (sort_values_desc gtb l) l.
Proof.
  induction l as [|x l IH]; simpl; [reflexivity|].
  rewrite insert_desc_perm. now constructor.
Qed.
End SortAnyValues.

Lemma insert_desc_counts_sorted {K : Type} (x : K * nat)
      (l : list (K * nat)) :
  StronglySorted (fun a b => (snd b <= snd a)%nat) l ->
  StronglySorted (fun a b => (snd b <= snd a)%nat)
                 (insert_desc (fun a b => (b <? a)%nat) x l).
Proof.
  induction 1 as [|y l Hl IH Hy]; simpl.
  - repeat constructor.
  - destruct (snd x <? snd y)%nat eqn:Hlt.
    + apply Nat.ltb_lt in Hlt. constructor; [exact IH|].
      apply (Permutation_Forall
               (Permutation_sym (insert_desc_perm _ x l))).
      constructor; [lia | exact Hy].
    + apply Nat.ltb_ge in Hlt. constructor; [now constructor|].
      constructor; [exact Hlt|].
      eapply Forall_impl; [|exact Hy]. intros z Hz. simpl in Hz. lia.
Qed.

Lemma sort_counts_sorted {K : Type} (l : list (K * nat)) :
  StronglySorted (fun a b => (snd b <= snd a)%nat)
                 (sort_values_desc (fun a b => (b <? a)%nat) l).
Proof.
  induction l as [|x l IH]; simpl; [constructor|].
  now apply insert_desc_counts_sorted.
Qed.

Lemma tallied_cons (s : string) (e : string * nat)
      (c : list (string * nat)) :
  tallied s (e :: c)
  = ((if String.eqb (fst e) s then snd e else 0) + tallied s c)%nat.
Proof. unfold tallied. simpl. now destruct (String.eqb (fst e) s). Qed.

Lemma count_add_tallied (x s : string) (c : list (string * nat)) :
  tallied x (count_add s c)
  = (tallied x c + (if String.eqb s x then 1 else 0))%nat.
Proof.
  induction c as [|[s' n] c IH]; simpl.
  - rewrite tallied_cons. unfold tallied. simpl.
    destruct (String.eqb s x); lia.
  - destruct (String.eqb_spec s s') as [->|Hne].
    + rewrite !tallied_cons. simpl. destruct (String.eqb s' x); lia.
    + rewrite !tallied_cons, IH. simpl. destruct (String.eqb s' x); lia.
Qed.

Lemma count_add_keys (x s : string) (c : list (string * nat)) :
  In x (map fst (count_add s c)) <-> x = s \/ In x (map fst c).
Proof.
  induction c as [|[s' n] c IH]; simpl.
  - intuition.
  - destruct (String.eqb_spec s s') as [->|Hne]; simpl.
    + intuition.
    + rewrite IH. intuition.
Qed.

Lemma count_add_NoDup (s : string) (c : list (string * nat)) :
  NoDup (map fst c) -> NoDup (map fst (count_add s c)).
Proof.
  induction c as [|[s' n] c IH]; simpl; intros H.
  - repeat constructor. intros [].
  - inversion H as [|? ? Hnotin Hc]; subst.
    destruct (String.eqb_spec s s') as [->|Hne]; simpl.
    + now constructor.
    + constructor; [|now apply IH].
      rewrite count_add_keys. intros [Heq|Hin]; [congruence | contradiction].
Qed.

Lemma tally_from (l : list string) (c : list (string * nat)) (x : string) :
  tallied x (fold_left (fun c s => count_add s c) l c)
  = (tallied x c + count_occ string_dec l x)%nat
  /\ (NoDup (map fst c) ->
      NoDup (map fst (fold_left (fun c s => count_add s c) l c)))
  /\ (In x (map fst (fold_left (fun c s => count_add s c) l c))
      <-> In x (map fst c) \/ In x l).
Proof.
  revert c. induction l as [|s l IH]; intros c; cbn [fold_left].
  - cbn [count_occ]. repeat split; try tauto; try lia.
    intros [H|[]]. exact H.
  - destruct (IH (count_add s c)) as [IH1 [IH2 IH3]].
    split; [|split].
    + rewrite IH1, count_add_tallied. cbn [count_occ].
      destruct (string_dec s x) as [->|Hne].
      * rewrite String.eqb_refl. lia.
      * apply String.eqb_neq in Hne. rewrite Hne. lia.
    + intros H. apply IH2. now apply count_add_NoDup.
    + rewrite IH3, count_add_keys. simpl. intuition.
Qed.

Lemma tallied_entry (s : string) (n : nat) (c : list (string * nat)) :
  NoDup (map fst c) -> In (s, n) c -> tallied s c = n.
Proof.
  induction c as [|[s' n'] c IH]; simpl; intros Hnd Hin; [contradiction|].
  inversion Hnd as [|? ? Hnotin Hc]; subst.
  rewrite tallied_cons. simpl. destruct Hin as [[= -> ->]|Hin].
  - rewrite String.eqb_refl.
    assert (H0 : tallied s c = 0%nat).
    { unfold tallied. clear IH Hnd Hc.
      induction c as [|[s1 n1] c IHc]; [reflexivity|]. simpl.
      destruct (String.eqb_spec s1 s) as [->|Hne].
      - exfalso. apply Hnotin. now left.
      - apply IHc. intros H. apply Hnotin. now right. }
    lia.
  - destruct (String.eqb_spec s' s) as [->|Hne].
    + exfalso. apply Hnotin. change s with (fst (s, n)). now apply in_map.
    + now apply IH.
Qed.

(** The tally lists every distinct text once, with its number of
    occurrences. *)
Lemma tally_spec (l : list string) :
  NoDup (map fst (tally l))
  /\ (forall s, In s (map fst (tally l)) <-> In s l)
  /\ (forall s n, In (s, n) (tally l) -> n = count_occ string_dec l s).
Proof.
  unfold tally. split; [|split].
  - apply (tally_from l [] ""). constructor.
  - intros s. destruct (tally_from l [] s) as [_ [_ H]]. rewrite H.
    simpl. tauto.
  - intros s n Hin.
    destruct (tally_from l [] s) as [H1 [H2 _]].
    rewrite <- (tallied_entry s n _ (H2 (NoDup_nil _)) Hin), H1.
    reflexivity.
Qed.

Lemma StronglySorted_across {A : Type} (R : A -> A -> Prop)
      (l1 l2 : list A) :
  StronglySorted R (l1 ++ l2) ->
  forall x y, In x l1 -> In y l2 -> R x y.
Proof.
  induction l1 as [|z l1 IH]; simpl; intros H x y Hx Hy; [contradiction|].
  inversion H as [|? ? Hs Hz]; subst.
  destruct Hx as [<-|Hx].
  - rewrite Forall_forall in Hz. apply Hz. apply in_or_app. now right.
  - now apply (IH Hs).
Qed.

Lemma StronglySorted_prefix {A : Type} (R : A -> A -> Prop)
      (l1 l2 : list A) :
  StronglySorted R (l1 ++ l2) -> StronglySorted R l1.
Proof.
  induction l1 as [|z l1 IH]; simpl; intros H; [constructor|].
  inversion H as [|? ? Hs Hz]; subst. constructor; [now apply IH|].
  rewrite Forall_forall in Hz |- *. intros x Hx. apply Hz.
  apply in_or_app. now left.
Qed.

(** X8.  [income_sources] lists at most five distinct descriptions of
    income rows, each with the number of income rows that carry it, most
    frequent first; a description it leaves out occurs no more often than
    any it lists, and is left out only when five are listed. *)
Theorem X8_income_sources
        (df : DataFrame) (Hparsed : parsed df)
        (Hrows : income_rows df <> []) :
  exists a sources,
    _analyze_income df = Ok a
    /\ income_sources a = Some sources
    /\ (List.length sources <= 5)%nat
    /\ NoDup (map fst sources)
    /\ (forall s n,
           In (s, n) sources ->
           n = count_occ string_dec (map description (income_rows df)) s
           /\ (1 <= n)%nat)
    /\ StronglySorted (fun x y => (snd y <= snd x)%nat) sources
    /\ (forall s,
           In s (map description (income_rows df)) ->
           ~ In s (map fst sources) ->
           List.length sources = 5%nat
           /\ forall s' n',
               In (s', n') sources ->
               (count_occ string_dec (map description (income_rows df)) s
                <= n')%nat).
Proof.
  set (descs := map description (income_rows df)).
  set (counts := value_counts descs).
  destruct (tally_spec descs) as [Hnd [Hkeys Hcount]].
  assert (Hperm : Permutation counts (tally descs))
    by apply sort_values_desc_perm.
  assert (Hsorted : StronglySorted (fun x y => (snd y <= snd x)%nat) counts)
    by apply sort_counts_sorted.
  assert (Hsplit : counts = (firstn 5 counts ++ skipn 5 counts)%list)
    by (symmetry; apply firstn_skipn).
  assert (Hcnt : forall s n, In (s, n) counts ->
                             n = count_occ string_dec descs s).
  { intros s n Hin. apply Hcount. exact (Permutation_in _ Hperm Hin). }
  assert (Hnd' : NoDup (map fst counts)).
  { apply (Permutation_NoDup
             (Permutation_sym (Permutation_map fst Hperm))), Hnd. }
  exists (income_dict
            (sum (map amount (income_rows df)))
            (sum (map snd (groupby_sum Z.compare
                                       (by_month (income_rows df))))
             / inject_Z (Z.of_nat (List.length
                  (groupby_sum Z.compare (by_month (income_rows df))))))
            (head 5 counts)),
         (firstn 5 counts).
  split; [exact (_analyze_income_nonempty df Hparsed Hrows)|].
  split; [reflexivity|].
  split; [apply firstn_le_length|].
  split.
  { rewrite Hsplit, map_app in Hnd'. exact (NoDup_app_remove_r _ _ Hnd'). }
  split.
  { intros s n Hin.
    assert (Hin' : In (s, n) counts).
    { rewrite Hsplit. apply in_or_app. now left. }
    split; [now apply Hcnt|].
    rewrite (Hcnt s n Hin').
    assert (Hs : In s descs).
    { apply Hkeys.
      apply (Permutation_in _ (Permutation_map fst Hperm)).
      change s with (fst (s, n)). now apply in_map. }
    apply (count_occ_In string_dec) in Hs. lia. }
  split.
  { rewrite Hsplit in Hsorted. exact (StronglySorted_prefix _ _ _ Hsorted). }
  intros s Hs Hout.
  assert (Hin : In s (map fst counts)).
  { apply (Permutation_in _ (Permutation_sym (Permutation_map fst Hperm))).
    now apply Hkeys. }
  apply in_map_iff in Hin as [[s0 n] [Hfst Hin]]. simpl in Hfst. subst s0.
  assert (Hrest : In (s, n) (skipn 5 counts)).
  { rewrite Hsplit in Hin. apply in_app_or in Hin as [Hin|Hin]; [|exact Hin].
    exfalso. apply Hout. change s with (fst (s, n)). now apply in_map. }
  split.
  - assert (Hlen : (5 < List.length counts)%nat).
    { destruct (Nat.le_gt_cases (List.length counts) 5) as [Hle|Hgt];
        [|exact Hgt].
      rewrite (skipn_all2 counts Hle) in Hrest. contradiction. }
    rewrite length_firstn. lia.
  - intros s' n' Hin'. rewrite <- (Hcnt s n Hin).
    rewrite Hsplit in Hsorted.
    exact (StronglySorted_across _ _ _ Hsorted _ _ Hin' Hrest).
Qed.

Lemma X8_income_sources_witness :
  exists a sources,
    _analyze_income frame_m1_m3 = Ok a
    /\ income_sources a = Some sources
    /\ (List.length sources <= 5)%nat
    /\ NoDup (map fst sources)
    /\ (forall s n,
           In (s, n) sources ->
           n = count_occ string_dec
                         (map description (income_rows frame_m1_m3)) s
           /\ (1 <= n)%nat)
    /\ StronglySorted (fun x y => (snd y <= snd x)%nat) sources
    /\ (forall s,
           In s (map description (income_rows frame_m1_m3)) ->
           ~ In s (map fst sources) ->
           List.length sources = 5%nat
           /\ forall s' n',
               In (s', n') sources ->
               (count_occ string_dec
                          (map description (income_rows frame_m1_m3)) s
                <= n')%nat).
Proof.
  apply (X8_income_sources frame_m1_m3).
  - repeat constructor; eexists; reflexivity.
  - discriminate.
Defined.

(** ** The date range and the keys of the record *)

Lemma Timestamp_leb_iff (a b : Timestamp) :
  Timestamp_leb a b = true
  <-> (year a < year b
       \/ (year a = year b
           /\ (month a < month b
               \/ (month a = month b /\ day a <= day b))))%Z.
Proof.
  unfold Timestamp_leb.
  rewrite !orb_true_iff, !andb_true_iff, !orb_true_iff, !andb_true_iff.
  rewrite !Z.ltb_lt, !Z.eqb_eq, Z.leb_le. reflexivity.
Qed.

Lemma Timestamp_leb_refl (a : Timestamp) : Timestamp_leb a a = true.
Proof. apply Timestamp_leb_iff. lia. Qed.

Lemma Timestamp_leb_trans (a b c : Timestamp) :
  Timestamp_leb a b = true -> Timestamp_leb b c = true ->
  Timestamp_leb a c = true.
Proof. rewrite !Timestamp_leb_iff. lia. Qed.

Lemma Timestamp_leb_total (a b : Timestamp) :
  Timestamp_leb a b = false -> Timestamp_leb b a = true.
Proof.
  intros H. apply not_true_iff_false in H.
  rewrite Timestamp_leb_iff in H. apply Timestamp_leb_iff. lia.
Qed.

Lemma ts_min_spec (l : list Timestamp) :
  l <> [] ->
  exists m, ts_min l = Some m /\ In m l
            /\ forall t, In t l -> Timestamp_leb m t = true.
Proof.
  induction l as [|t l IH]; [congruence|]. intros _.
  destruct l as [|t' l].
  - exists t. repeat split; [now left|].
    intros x [<-|[]]. apply Timestamp_leb_refl.
  - destruct IH as [m [Hm [Hin Hle]]]; [discriminate|].
    cbn [ts_min] in Hm |- *. rewrite Hm.
    destruct (Timestamp_leb t m) eqn:Htm.
    + exists t. repeat split; [now left|].
      intros x [<-|Hx]; [apply Timestamp_leb_refl|].
      apply (Timestamp_leb_trans _ m); [exact Htm | now apply Hle].
    + exists m. repeat split; [now right|].
      intros x [<-|Hx]; [now apply Timestamp_leb_total | now apply Hle].
Qed.

Lemma ts_max_spec (l : list Timestamp) :
  l <> [] ->
  exists m, ts_max l = Some m /\ In m l
            /\ forall t, In t l -> Timestamp_leb t m = true.
Proof.
  induction l as [|t l IH]; [congruence|]. intros _.
  destruct l as [|t' l].
  - exists t. repeat split; [now left|].
    intros x [<-|[]]. apply Timestamp_leb_refl.
  - destruct IH as [m [Hm [Hin Hle]]]; [discriminate|].
    cbn [ts_max] in Hm |- *. rewrite Hm.
    destruct (Timestamp_leb m t) eqn:Htm.
    + exists t. repeat split; [now left|].
      intros x [<-|Hx]; [apply Timestamp_leb_refl|].
      apply (Timestamp_leb_trans _ m); [now apply Hle | exact Htm].
    + exists m. repeat split; [now right|].
      intros x [<-|Hx]; [now apply Timestamp_leb_total | now apply Hle].
Qed.

Lemma datetime_column_rows (df : DataFrame) (ts : list Timestamp) :
  datetime_column df = Ok ts ->
  Forall2 (fun r t => date r = DateTs t) df ts.
Proof.
  unfold datetime_column. revert ts.
  induction df as [|r df IH]; intros ts H; cbn [mapM] in H.
  - injection H as <-. constructor.
  - destruct (date r) as [s|t] eqn:Hr; [discriminate|]. cbn [bind] in H.
    destruct (mapM _ df) as [ts'|e]; [|discriminate]. cbn [bind] in H.
    injection H as <-. constructor; [exact Hr | now apply IH].
Qed.

(** X9.  After a run on a non-empty frame [date_range] holds the dates of
    two rows of the frame, and the date of every row lies between them. *)
Theorem X9_date_range_spans_the_frame
        (df df1 : DataFrame) (p p1 : Profile)
        (Hne : df <> [])
        (Hrun : analyze_transactions df p = Ok (df1, p1)) :
  exists a first last,
    transaction_analysis p1 = Some a
    /\ date_range a = Some (Some first, Some last)
    /\ (exists r, In r df1 /\ date r = DateTs first)
    /\ (exists r, In r df1 /\ date r = DateTs last)
    /\ (forall r t, In r df1 -> date r = DateTs t ->
                    Timestamp_leb first t = true
                    /\ Timestamp_leb t last = true).
Proof.
  destruct (analyze_transactions_record df df1 p p1 Hne Hrun)
    as [ts [avgi [avge [trend [hi [lo [ms
         [Hassign [Hts [_ [_ [_ [_ ->]]]]]]]]]]]]].
  apply datetime_column_rows in Hts.
  assert (Hts_ne : ts <> []).
  { intros ->. inversion Hts; subst.
    destruct df as [|r df]; [congruence|].
    simpl in Hassign.
    destruct (to_datetime_cell (date r)); [|discriminate].
    cbn [bind] in Hassign.
    destruct (assign_to_datetime df); discriminate. }
  destruct (ts_min_spec ts Hts_ne) as [first [Hmin [Hfirst Hlo]]].
  destruct (ts_max_spec ts Hts_ne) as [last [Hmax [Hlast Hhi]]].
  assert (Hrow : forall t, In t ts -> exists r, In r df1 /\ date r = DateTs t).
  { clear - Hts. induction Hts as [|r t df1 ts Hr _ IH]; intros x Hx;
      [contradiction|].
    destruct Hx as [<-|Hx]; [exists r; split; [now left | exact Hr]|].
    destruct (IH x Hx) as [r' [Hin Hr']]. exists r'. split; [now right|].
    exact Hr'. }
  assert (Hcell : forall r t, In r df1 -> date r = DateTs t -> In t ts).
  { clear - Hts. induction Hts as [|r t df1 ts Hr _ IH]; intros r' t' Hin Hd;
      [contradiction|].
    destruct Hin as [<-|Hin]; [left; congruence | right; eauto]. }
  eexists. exists first, last.
  split; [reflexivity|].
  split; [cbn; now rewrite Hmin, Hmax|].
  split; [now apply Hrow|]. split; [now apply Hrow|].
  intros r t Hin Hd. specialize (Hcell r t Hin Hd).
  split; [now apply Hlo | now apply Hhi].
Qed.

Lemma X9_date_range_spans_the_frame_witness :
  exists a first last,
    transaction_analysis test_profile_after = Some a
    /\ date_range a = Some (Some first, Some last)
    /\ (exists r, In r test_frame_after /\ date r = DateTs first)
    /\ (exists r, In r test_frame_after /\ date r = DateTs last)
    /\ (forall r t, In r test_frame_after -> date r = DateTs t ->
                    Timestamp_leb first t = true
                    /\ Timestamp_leb t last = true).
Proof.
  apply (X9_date_range_spans_the_frame
           test_frame test_frame_after test_profile test_profile_after).
  - discriminate.
  - exact test_run.
Defined.

(** X10.  After a run on a non-empty frame every key of the record is
    present except possibly [monthly_spending], which is missing exactly
    when the frame has no row outside the Income category. *)
Theorem X10_keys_of_the_record
        (df df1 : DataFrame) (p p1 : Profile)
        (Hne : df <> [])
        (Hrun : analyze_transactions df p = Ok (df1, p1)) :
  exists a,
    transaction_analysis p1 = Some a
    /\ has_key (total_transactions a) /\ has_key (date_range a)
    /\ has_key (total_income a) /\ has_key (monthly_income_avg a)
    /\ has_key (income_sources a) /\ has_key (total_expenses a)
    /\ has_key (monthly_expenses_avg a) /\ has_key (expense_breakdown a)
    /\ has_key (top_spending_categories a) /\ has_key (spending_trend a)
    /\ has_key (highest_spending_month a)
    /\ has_key (lowest_spending_month a)
    /\ has_key (financial_health_score a)
    /\ (monthly_spending a = None
        <-> Forall (fun r => category r = "Income") df).
Proof.
  destruct (analyze_transactions_record df df1 p p1 Hne Hrun)
    as [ts [avgi [avge [trend [hi [lo [ms
         [Hassign [_ [_ [_ [_ [Hms ->]]]]]]]]]]]]].
  destruct (assign_to_datetime_columns _ _ Hassign) as [_ [_ [_ Hcat]]].
  eexists. split; [reflexivity|].
  cbn. unfold has_key.
  do 13 (split; [discriminate|]).
  replace (upd ms None) with ms by (now destruct ms).
  rewrite Hms. unfold expense_rows, is_income.
  assert (H1 : filter (fun r => negb (String.eqb (category r) "Income")) df1
               = []
               <-> Forall (fun c => c = "Income") (map category df1)).
  { clear. induction df1 as [|r df1 IH]; simpl.
    - split; [constructor | reflexivity].
    - destruct (String.eqb_spec (category r) "Income") as [Hc|Hc]; simpl.
      + rewrite IH. split; [now constructor | now inversion 1].
      + split; [discriminate | inversion 1; contradiction]. }
  rewrite H1, Hcat. rewrite Forall_map. reflexivity.
Qed.

Lemma X10_keys_of_the_record_witness :
  exists a,
    transaction_analysis test_profile_after = Some a
    /\ has_key (total_transactions a) /\ has_key (date_range a)
    /\ has_key (total_income a) /\ has_key (monthly_income_avg a)
    /\ has_key (income_sources a) /\ has_key (total_expenses a)
    /\ has_key (monthly_expenses_avg a) /\ has_key (expense_breakdown a)
    /\ has_key (top_spending_categories a) /\ has_key (spending_trend a)
    /\ has_key (highest_spending_month a)
    /\ has_key (lowest_spending_month a)
    /\ has_key (financial_health_score a)
    /\ (monthly_spending a = None
        <-> Forall (fun r => category r = "Income") test_frame).
Proof.
  apply (X10_keys_of_the_record
           test_frame test_frame_after test_profile test_profile_after).
  - discriminate.
  - exact test_run.
Defined.

(** ** The score: reach, monotonicity, consistency *)

Lemma ratio_bonus_range (r : Q) : (-20 <= ratio_bonus r <= 20)%Z.
Proof.
  unfold ratio_bonus.
  destruct (Qlt_le_dec (2 # 10) r); [lia|].
  destruct (Qlt_le_dec (1 # 10) r); [lia|].
  destruct (Qlt_le_dec 0 r); lia.
Qed.

Lemma target_bonus_range (actual target : Q) :
  (0 <= target_bonus actual target <= 15)%Z.
Proof.
  unfold target_bonus.
  destruct (Qlt_le_dec actual target); [|lia].
  destruct (Qlt_le_dec actual (target * (8 # 10))); [|lia].
  destruct (Qlt_le_dec actual (target * (5 # 10))); lia.
Qed.

Lemma trend_adjustment_range (trend : string) :
  (-10 <= trend_adjustment trend <= 10)%Z.
Proof.
  unfold trend_adjustment.
  destruct (string_dec trend "decreasing"); [lia|].
  destruct (string_dec trend "increasing"); lia.
Qed.

Lemma trend_adjustment_values (trend : string) :
  trend_adjustment trend = (-10)%Z \/ trend_adjustment trend = 0%Z
  \/ trend_adjustment trend = 10%Z.
Proof.
  unfold trend_adjustment.
  destruct (string_dec trend "decreasing"); [tauto|].
  destruct (string_dec trend "increasing"); tauto.
Qed.

(** X11.  The scorer never raises and its score lies between 20 and 95, so
    the clamp to 0..100 never cuts anything off; both ends are reached.
    Without a positive average income the score is 40, 50 or 60. *)
Theorem X11_score_between_20_and_95
        (analysis : AnalysisDict) (user_profile : Profile) :
  (exists score,
      _calculate_financial_health_score analysis user_profile = Ok score
      /\ (20 <= score <= 95)%Z
      /\ (get (monthly_income_avg analysis) 0 <= 0 ->
          score = 40%Z \/ score = 50%Z \/ score = 60%Z))
  /\ (exists a p, _calculate_financial_health_score a p = Ok 20%Z)
  /\ (exists a p, _calculate_financial_health_score a p = Ok 95%Z).
Proof.
  split; [|split].
  - eexists.
    split; [apply _calculate_financial_health_score_returns|].
    unfold health_score.
    set (income := get (monthly_income_avg analysis) 0).
    set (expenses := get (monthly_expenses_avg analysis) 0).
    set (target := get (monthly_savings_target
                          (get (financial_goals user_profile) no_goals)) 0).
    set (trend := get (spending_trend analysis) "stable").
    pose proof (ratio_bonus_range ((income - expenses) / income)) as Hr.
    pose proof (target_bonus_range (income - expenses) target) as Ht.
    pose proof (trend_adjustment_range trend) as Hd.
    pose proof (trend_adjustment_values trend) as Hv.
    rewrite <- clamp_max_min.
    destruct (Qlt_le_dec 0 income) as [Hpos|Hnon].
    + split; [destruct (Qlt_le_dec 0 target); lia|].
      intros Hle. exfalso. lra.
    + split; [lia|]. intros _. lia.
  - exists (update (income_dict 100 100 [])
                   (update (expense_dict 200 200 [] [])
                           (pattern_dict "increasing" None None None))),
           scenario_profile.
    reflexivity.
  - exists (update (income_dict 100 100 [])
                   (update (expense_dict 10 10 [] [])
                           (pattern_dict "decreasing" None None None))),
           {| created_date := None; user_info := None;
              financial_goals :=
                Some {| monthly_savings_target := Some 50;
                        priority_categories := None;
                        cut_cost_areas := None |};
              transaction_analysis := None |}.
    reflexivity.
Qed.

Lemma ratio_bonus_mono (r1 r2 : Q) :
  r1 <= r2 -> (ratio_bonus r1 <= ratio_bonus r2)%Z.
Proof.
  intros H. unfold ratio_bonus.
  destruct (Qlt_le_dec (2 # 10) r1); destruct (Qlt_le_dec (2 # 10) r2);
    destruct (Qlt_le_dec (1 # 10) r1); destruct (Qlt_le_dec (1 # 10) r2);
    destruct (Qlt_le_dec 0 r1); destruct (Qlt_le_dec 0 r2);
    try lia; exfalso; lra.
Qed.

Lemma target_bonus_mono (a1 a2 target : Q) :
  a1 <= a2 -> (target_bonus a1 target <= target_bonus a2 target)%Z.
Proof.
  intros H. unfold target_bonus.
  destruct (Qlt_le_dec a1 target); destruct (Qlt_le_dec a2 target);
    destruct (Qlt_le_dec a1 (target * (8 # 10)));
    destruct (Qlt_le_dec a2 (target * (8 # 10)));
    destruct (Qlt_le_dec a1 (target * (5 # 10)));
    destruct (Qlt_le_dec a2 (target * (5 # 10)));
    try lia; exfalso; lra.
Qed.

Lemma health_score_antitone
      (income e1 e2 target : Q) (trend : string) :
  e1 <= e2 ->
  (health_score income e2 target trend
   <= health_score income e1 target trend)%Z.
Proof.
  intros He. unfold health_score. rewrite <- !clamp_max_min.
  destruct (Qlt_le_dec 0 income) as [Hpos|Hnon]; [|lia].
  assert (Hratio : (income - e2) / income <= (income - e1) / income).
  { unfold Qdiv. apply Qmult_le_compat_r; [lra|].
    apply Qlt_le_weak, Qinv_lt_0_compat, Hpos. }
  pose proof (ratio_bonus_mono _ _ Hratio) as Hr.
  assert (Hactual : income - e2 <= income - e1) by lra.
  pose proof (target_bonus_mono _ _ target Hactual) as Ht.
  destruct (Qlt_le_dec 0 target); lia.
Qed.

(** X12.  Spending less never costs points: of two records with the same
    average income and trend, the one with the smaller average expenses
    scores at least as high, for the same profile. *)
Theorem X12_lower_expenses_never_lower_the_score
        (a1 a2 : AnalysisDict) (user_profile : Profile) (s1 s2 : Z)
        (Hincome : monthly_income_avg a1 = monthly_income_avg a2)
        (Htrend : spending_trend a1 = spending_trend a2)
        (Hexpenses : get (monthly_expenses_avg a1) 0
                     <= get (monthly_expenses_avg a2) 0)
        (H1 : _calculate_financial_health_score a1 user_profile = Ok s1)
        (H2 : _calculate_financial_health_score a2 user_profile = Ok s2) :
  (s2 <= s1)%Z.
Proof.
  rewrite _calculate_financial_health_score_returns in H1, H2.
  injection H1 as <-. injection H2 as <-.
  rewrite Hincome, Htrend. now apply health_score_antitone.
Qed.

Lemma X12_lower_expenses_never_lower_the_score_witness : (60 <= 70)%Z.
Proof.
  apply (X12_lower_expenses_never_lower_the_score
           (update (income_dict 50000 50000 [])
                   (update (expense_dict 30000 30000 [] [])
                           (pattern_dict "stable" None None None)))
           scenario_analysis scenario_profile 70%Z 60%Z);
    reflexivity || discriminate.
Defined.



(** ** When a run returns, and running again *)



(** X15.  Analysing again changes nothing: a second run on the frame and
    the profile a first run left behind returns the same frame and the
    same profile. *)
Theorem X15_second_run_changes_nothing
        (df df1 : DataFrame) (p p1 : Profile)
        (Hrun : analyze_transactions df p = Ok (df1, p1)) :
  analyze_transactions df1 p1 = Ok (df1, p1).
Proof.
  destruct df as [|r df].
  - cbn in Hrun. injection Hrun as <- <-. reflexivity.
  - assert (Hne : r :: df <> []) by discriminate.
    destruct (analyze_transactions_steps _ _ _ _ Hne Hrun)
      as [ts [ai [ae [ap [Hassign [Hts [Hai [Hae [Hap ->]]]]]]]]].
    pose proof (assign_to_datetime_is_parsed _ _ Hassign) as Hp.
    assert (Hne1 : df1 <> []).
    { apply assign_to_datetime_rows in Hassign. inversion Hassign.
      discriminate. }
    unfold analyze_transactions.
    destruct df1 as [|r1 df1]; [congruence|]. cbn [empty].
    rewrite (assign_to_datetime_parsed _ Hp). cbn [bind].
    rewrite Hts. cbn [bind]. rewrite Hai. cbn [bind].
    rewrite Hae. cbn [bind]. rewrite Hap. cbn [bind].
    rewrite _calculate_financial_health_score_returns. cbn [bind].
    reflexivity.
Qed.

Lemma X15_second_run_changes_nothing_witness :
  analyze_transactions test_frame_after test_profile_after
  = Ok (test_frame_after, test_profile_after).
Proof.
  exact (X15_second_run_changes_nothing
           test_frame test_frame_after test_profile test_profile_after
           test_run).
Defined.

(** ** Budget recommendations *)



(** ** Personalised suggestions *)

Lemma remove_at_length {A : Type} (l : list A) (i : nat) :
  (i < List.length l)%nat ->
  List.length (remove_at i l) = pred (List.length l).
Proof.
  revert i. induction l as [|x l IH]; intros [|i] Hi; simpl in *; try lia.
  rewrite IH by lia. lia.
Qed.

Lemma pick_length {A : Type} (k : nat) :
  forall (population : list A) (rng : list nat),
    (k <= List.length population)%nat ->
    List.length (fst (pick population k rng)) = k.
Proof.
  induction k as [|k IH]; intros population rng Hk; [reflexivity|].
  cbn [pick].
  assert (Hi : (hd 0%nat rng mod List.length population
                < List.length population)%nat)
    by (apply Nat.mod_upper_bound; lia).
  destruct (nth_error population
                      (hd 0%nat rng mod List.length population)) as [x|]
    eqn:Hnth.
  - specialize (IH (remove_at (hd 0%nat rng mod List.length population)
                              population) (tl rng)).
    rewrite remove_at_length in IH by exact Hi.
    destruct (pick (remove_at (hd 0%nat rng mod List.length population)
                              population) k (tl rng)) as [rest rng'].
    simpl in *. rewrite IH by lia. reflexivity.
  - apply nth_error_None in Hnth. lia.
Qed.

Lemma extend_sample_returns (key : string) (k : nat)
      (state : list suggestion * list nat) :
  (k <= List.length (templates key))%nat ->
  exists state',
    extend_sample key k state = Ok state'
    /\ List.length (fst state') = (List.length (fst state) + k)%nat.
Proof.
  intros Hk. unfold extend_sample, random_sample.
  destruct (Nat.ltb_spec (List.length (templates key)) k) as [H|_];
    [lia|].
  cbn [bind]. eexists. split; [reflexivity|].
  cbn [fst]. rewrite length_app, pick_length by exact Hk. reflexivity.
Qed.

Lemma extend_sample_raises (key : string) (k : nat)
      (state : list suggestion * list nat) :
  (List.length (templates key) < k)%nat ->
  extend_sample key k state = Raise ValueError.
Proof.
  intros Hk. unfold extend_sample, random_sample.
  destruct (Nat.ltb_spec (List.length (templates key)) k) as [_|H];
    [reflexivity|lia].
Qed.

Lemma cut_cost_step_returns (monthly_income : Q)
      (top_categories : list (string * Q))
      (state : list suggestion * list nat) (category : string) :
  exists state',
    cut_cost_step monthly_income top_categories state category = Ok state'
    /\ List.length (fst state')
       = (List.length (fst state)
          + if triggers monthly_income top_categories category
            then 1 else 0)%nat.
Proof.
  unfold cut_cost_step, triggers.
  destruct (dict_has top_categories category); cbn [andb];
    [|exists state; split; [reflexivity|lia]].
  repeat match goal with
         | |- context [if ?b && ?c then _ else _] =>
             destruct (b && c); cbn [orb];
             [apply extend_sample_returns; vm_compute; lia|]
         end.
  exists state. split; [reflexivity|lia].
Qed.

Lemma cut_cost_loop_returns (monthly_income : Q)
      (top_categories : list (string * Q)) (cut_cost_areas : list string) :
  forall state,
  exists state',
    cut_cost_loop monthly_income top_categories cut_cost_areas state
    = Ok state'
    /\ List.length (fst state')
       = (List.length (fst state)
          + List.length (filter (triggers monthly_income top_categories)
                                cut_cost_areas))%nat.
Proof.
  induction cut_cost_areas as [|category rest IH]; intros state.
  - exists state. split; [reflexivity|]. simpl. lia.
  - destruct (cut_cost_step_returns monthly_income top_categories state
                                    category) as [s1 [H1 L1]].
    destruct (IH s1) as [s2 [H2 L2]].
    exists s2. cbn [cut_cost_loop]. rewrite H1. cbn [bind].
    split; [exact H2|]. rewrite L2, L1. cbn [filter].
    destruct (triggers monthly_income top_categories category);
      simpl; lia.
Qed.

(** The state before the general tips are drawn: all four targeted steps
    return, and leave [targeted_suggestions] suggestions. *)
Lemma targeted_steps_return (rng : list nat) (user_profile : Profile)
      (transaction_analysis : AnalysisDict) :
  exists state,
    generate_personalized_suggestions rng user_profile transaction_analysis
    = (state' <- extend_sample "general_tips"
                   (7 - List.length (fst state)) state ;;
       Ok (firstn 7 (fst state')))
    /\ List.length (fst state)
       = targeted_suggestions user_profile transaction_analysis.
Proof.
  unfold generate_personalized_suggestions, targeted_suggestions.
  cbv zeta.
  set (goals := get (financial_goals user_profile) no_goals).
  set (income := get (monthly_income_avg transaction_analysis) 0).
  set (expenses := get (monthly_expenses_avg transaction_analysis) 0).
  set (top := get (top_spending_categories transaction_analysis) []).
  set (target := get (monthly_savings_target goals) 0).
  assert (Hrate : exists r,
             (if Py.gt income 0
              then q <- truediv (income - expenses) income ;; Ok (q * 100)
              else Ok 0) = Ok r).
  { rewrite (Py_gt_dec income 0).
    destruct (Qlt_le_dec 0 income) as [Hpos|_]; [|now eexists].
    rewrite truediv_nonzero by lra. cbn [bind]. now eexists. }
  destruct Hrate as [r ->]. cbn [bind].
  assert (H1 : exists s1,
             (if Py.gt target 0
              then if Py.lt (income - expenses) target
                   then extend_sample "low_savings" 2
                          (([] ++ [SavingsGap (income - expenses) target
                                     (target - (income - expenses))])%list,
                           rng)
                   else Ok (([] ++ [TargetMet target])%list, rng)
              else Ok ([], rng)) = Ok s1
             /\ List.length (fst s1)
                = (if Py.gt target 0
                   then if Py.lt (income - expenses) target
                        then 3 else 1
                   else 0)%nat).
  { destruct (Py.gt target 0); [|now eexists].
    destruct (Py.lt (income - expenses) target); [|now eexists].
    destruct (extend_sample_returns "low_savings" 2
                (([] ++ [SavingsGap (income - expenses) target
                           (target - (income - expenses))])%list, rng))
      as [s [Hs Ls]]; [vm_compute; lia|].
    exists s. split; [exact Hs|]. rewrite Ls. reflexivity. }
  destruct H1 as [s1 [-> L1]]. cbn [bind].
  destruct (cut_cost_loop_returns income top
              (get (cut_cost_areas goals) []) s1) as [s2 [-> L2]].
  cbn [bind].
  assert (H3 : exists s3,
             (if negb (dict_has top "Investments")
                 || Qeq_bool (dict_get top "Investments" 0) 0
              then extend_sample "no_investments" 1 s2
              else Ok s2) = Ok s3
             /\ List.length (fst s3)
                = (List.length (fst s2)
                   + if negb (dict_has top "Investments")
                        || Qeq_bool (dict_get top "Investments" 0) 0
                     then 1 else 0)%nat).
  { destruct (negb (dict_has top "Investments")
              || Qeq_bool (dict_get top "Investments" 0) 0).
    - apply extend_sample_returns. vm_compute. lia.
    - exists s2. split; [reflexivity|lia]. }
  destruct H3 as [s3 [-> L3]]. cbn [bind].
  set (score := get (financial_health_score transaction_analysis) 50%Z).
  assert (H4 : exists s4,
             (if (score <? 60)%Z
              then extend_sample "budget_optimization" 1 s3
              else Ok s3) = Ok s4
             /\ List.length (fst s4)
                = (List.length (fst s3)
                   + if (score <? 60)%Z then 1 else 0)%nat).
  { destruct (score <? 60)%Z.
    - apply extend_sample_returns. vm_compute. lia.
    - exists s3. split; [reflexivity|lia]. }
  destruct H4 as [s4 [-> L4]]. cbn [bind].
  exists s4. split; [reflexivity|]. lia.
Qed.

(** X17.  [generate_personalized_suggestions] never returns fewer or more
    than seven suggestions, whatever the random draws: with at least two
    targeted suggestions collected it returns exactly seven; with fewer
    than two it asks [random.sample] for more general tips than the five
    there are and raises ValueError.  Both cases occur. *)
Theorem X17_seven_suggestions_or_ValueError :
  (forall rng user_profile transaction_analysis,
      (2 <= targeted_suggestions user_profile transaction_analysis)%nat ->
      exists suggestions,
        generate_personalized_suggestions rng user_profile
                                          transaction_analysis
        = Ok suggestions
        /\ List.length suggestions = 7%nat)
  /\ (forall rng user_profile transaction_analysis,
         (targeted_suggestions user_profile transaction_analysis < 2)%nat ->
         generate_personalized_suggestions rng user_profile
                                           transaction_analysis
         = Raise ValueError)
  /\ (forall rng,
         exists suggestions,
           suggestions_after_analysis rng test_frame test_profile
           = Ok suggestions
           /\ List.length suggestions = 7%nat)
  /\ (forall rng,
         suggestions_after_analysis rng saver_frame scenario_profile
         = Raise ValueError).
Proof.
  assert (Hseven : forall rng up ta,
             (2 <= targeted_suggestions up ta)%nat ->
             exists suggestions,
               generate_personalized_suggestions rng up ta = Ok suggestions
               /\ List.length suggestions = 7%nat).
  { intros rng up ta Hn.
    destruct (targeted_steps_return rng up ta) as [s [-> Ls]].
    destruct (extend_sample_returns "general_tips"
                (7 - List.length (fst s)) s) as [s' [-> Ls']].
    { change (List.length (templates "general_tips")) with 5%nat. lia. }
    cbn [bind]. eexists. split; [reflexivity|].
    rewrite length_firstn. lia. }
  assert (Hraise : forall rng up ta,
             (targeted_suggestions up ta < 2)%nat ->
             generate_personalized_suggestions rng up ta
             = Raise ValueError).
  { intros rng up ta Hn.
    destruct (targeted_steps_return rng up ta) as [s [-> Ls]].
    rewrite extend_sample_raises; [reflexivity|].
    change (List.length (templates "general_tips")) with 5%nat. lia. }
  split; [exact Hseven|]. split; [exact Hraise|]. split.
  - intros rng. unfold suggestions_after_analysis.
    destruct (analyze_transactions test_frame test_profile)
      as [[df p]|e] eqn:Hrun; [|discriminate Hrun].
    assert (Hp : p = test_profile_after)
      by (vm_compute in Hrun; injection Hrun as _ <-; reflexivity).
    subst p. cbn [bind snd].
    change (transaction_analysis test_profile_after)
      with (Some (get (transaction_analysis test_profile_after)
                      scenario_analysis)).
    cbv iota. apply Hseven. vm_compute. lia.
  - intros rng. unfold suggestions_after_analysis.
    destruct (analyze_transactions saver_frame scenario_profile)
      as [[df p]|e] eqn:Hrun; [|discriminate Hrun].
    vm_compute in Hrun. injection Hrun as _ <-. cbn [bind snd].
    cbv beta iota delta [transaction_analysis].
    apply Hraise. vm_compute. lia.
Qed.

(** ** The chatbot's topics and questions *)

Lemma any_keyword_In (keywords : list string) (s : string) :
  any_keyword keywords s = true
  <-> exists keyword, In keyword keywords /\ str_in keyword s = true.
Proof.
  induction keywords as [|k l IH]; simpl.
  - split; [discriminate|]. now intros [k [[] _]].
  - destruct (str_in k s) eqn:Hk.
    + split; [|reflexivity]. intros _. exists k. now split; [left|].
    + rewrite IH. split.
      * intros [k' [Hin Hk']]. exists k'. now split; [right|].
      * intros [k' [[<-|Hin] Hk']]; [congruence|]. now exists k'.
Qed.

Lemma any_keyword_false (keywords : list string) (s : string) :
  any_keyword keywords s = false
  <-> forall keyword, In keyword keywords -> str_in keyword s = false.
Proof.
  split.
  - intros Hnone k Hin. destruct (str_in k s) eqn:Hk; [|reflexivity].
    assert (Hsome : any_keyword keywords s = true)
      by (apply any_keyword_In; now exists k).
    congruence.
  - intros Hall. destruct (any_keyword keywords s) eqn:Hany; [|reflexivity].
    apply any_keyword_In in Hany as [k [Hin Hk]].
    rewrite (Hall k Hin) in Hk. discriminate.
Qed.

Lemma str_in_longer (short long s : string) :
  occurs short long -> str_in long s = true -> str_in short s = true.
Proof.
  intros Hsl Hls. apply str_in_true_iff.
  apply (occurs_trans short long s Hsl). now apply str_in_true_iff.
Qed.

(** X18.  A message that mentions spending is treated as a budget
    question: the keyword "spending" of the expenses topic contains the
    keyword "spend" of the budget topic, which is tested first. *)
Theorem X18_spending_is_a_budget_question (user_message : string)
        (Hspending : occurs "spending" (lower user_message)) :
  chat_topic user_message = "budget".
Proof.
  unfold chat_topic, _identify_topic.
  assert (Hany : any_keyword ["budget"; "budgeting"; "allocate"; "spend"]
                             (lower user_message) = true).
  { apply any_keyword_In. exists "spend". split; [simpl; tauto|].
    apply (str_in_longer "spend" "spending").
    - exists "", "ing". reflexivity.
    - now apply str_in_true_iff. }
  now rewrite Hany.
Qed.

Lemma X18_spending_is_a_budget_question_witness :
  occurs "spending" (lower "How can I reduce my Spending?")
  /\ chat_topic "How can I reduce my Spending?" = "budget".
Proof.
  assert (H : occurs "spending" (lower "How can I reduce my Spending?"))
    by (exists "how can i reduce my ", "?"; reflexivity).
  split; [exact H|].
  exact (X18_spending_is_a_budget_question
           "How can I reduce my Spending?" H).
Defined.

Lemma distinct_strings_NoDup (l : list string) :
  distinct_strings l = true -> NoDup l.
Proof.
  induction l as [|x l IH]; simpl; intros H; constructor.
  - apply andb_prop in H as [Hx _]. intros Hin.
    assert (Hex : existsb (String.eqb x) l = true).
    { apply existsb_exists. exists x. split; [exact Hin|].
      apply String.eqb_refl. }
    rewrite Hex in Hx. discriminate.
  - apply IH. now apply andb_prop in H as [_ H].
Qed.

(** X19.  [get_suggested_questions] returns between three and five
    questions, none of them twice, whatever the profile and the analysis.
    Asked back, each of them is given a topic of its own by [chat], except
    "How can I improve my financial health?", which no keyword matches. *)
Theorem X19_suggested_questions
        (user_profile : option Profile)
        (transaction_analysis : option AnalysisDict) :
  let questions :=
    get_suggested_questions user_profile transaction_analysis in
  (3 <= List.length questions <= 5)%nat
  /\ NoDup questions
  /\ forall question,
      In question questions ->
      chat_topic question = "general" ->
      question = "How can I improve my financial health?".
Proof.
  intros questions.
  assert (Hcheck :
            ((3 <=? List.length questions)%nat
             && (List.length questions <=? 5)%nat
             && distinct_strings questions
             && forallb (fun q =>
                           negb (String.eqb (chat_topic q) "general")
                           || String.eqb
                                q "How can I improve my financial health?")
                        questions) = true).
  { subst questions. unfold get_suggested_questions.
    destruct user_profile as [up|], transaction_analysis as [ta|];
      try reflexivity.
    destruct (negb (profile_bool up) || negb (analysis_bool ta));
      [reflexivity|].
    cbv zeta.
    destruct (get (financial_health_score ta) 50 <? 40)%Z;
      [|destruct (get (financial_health_score ta) 50 >? 70)%Z];
      destruct (Py.gt (get (monthly_expenses_avg ta) 0)
                      (get (monthly_income_avg ta) 0));
      destruct (dict_has (get (top_spending_categories ta) [])
                         "Food & Dining");
      destruct (dict_has (get (top_spending_categories ta) [])
                         "Transportation");
      destruct (dict_has (get (top_spending_categories ta) [])
                         "Shopping");
      destruct (Py.gt (get (monthly_savings_target
                              (get (financial_goals up) no_goals)) 0) 0);
      try destruct (Py.lt (get (monthly_income_avg ta) 0
                           - get (monthly_expenses_avg ta) 0)
                          (get (monthly_savings_target
                                  (get (financial_goals up) no_goals)) 0));
      vm_compute; reflexivity. }
  apply andb_prop in Hcheck as [Hcheck Htopics].
  apply andb_prop in Hcheck as [Hcheck Hdistinct].
  apply andb_prop in Hcheck as [Hlow Hhigh].
  apply Nat.leb_le in Hlow, Hhigh.
  split; [lia|]. split; [now apply distinct_strings_NoDup|].
  intros q Hq Hgeneral.
  pose proof (In_forallb _ _ q Htopics Hq) as Hone. cbv beta in Hone.
  rewrite Hgeneral in Hone. simpl in Hone.
  now apply String.eqb_eq.
Qed.

(** ** Column detection *)

Lemma dict_set_keys (d : list (string * string)) (key value : string) :
  forall k, In k (map fst (dict_set d key value)) ->
            k = key \/ In k (map fst d).
Proof.
  induction d as [|[k0 v0] d IH]; simpl; intros k Hk.
  - destruct Hk as [<-|[]]. now left.
  - destruct (String.eqb_spec k0 key) as [->|Hne]; simpl in Hk.
    + destruct Hk as [<-|Hk]; [now left|right; now right].
    + destruct Hk as [<-|Hk]; [right; now left|].
      destruct (IH k Hk) as [->|Hin]; [now left|right; now right].
Qed.

Lemma dict_set_NoDup (d : list (string * string)) (key value : string) :
  NoDup (map fst d) -> NoDup (map fst (dict_set d key value)).
Proof.
  induction d as [|[k0 v0] d IH]; simpl; intros Hd.
  - constructor; [intros []|constructor].
  - inversion Hd as [|? ? Hnotin Hrest]; subst.
    destruct (String.eqb_spec k0 key) as [->|Hne]; simpl.
    + now constructor.
    + constructor; [|now apply IH].
      intros Hin. destruct (dict_set_keys d key value k0 Hin) as [->|H];
        [now apply Hne|now apply Hnotin].
Qed.

Lemma dict_set_In (d : list (string * string)) (key value : string) :
  forall k v, In (k, v) (dict_set d key value) ->
              (k = key /\ v = value) \/ In (k, v) d.
Proof.
  induction d as [|[k0 v0] d IH]; simpl; intros k v Hin.
  - destruct Hin as [Heq|[]]. injection Heq as <- <-. now left.
  - destruct (String.eqb_spec k0 key) as [->|Hne]; simpl in Hin.
    + destruct Hin as [Heq|Hin].
      * injection Heq as <- <-. now left.
      * right. now right.
    + destruct Hin as [Heq|Hin]; [right; now left|].
      destruct (IH k v Hin) as [H|H]; [now left|right; now right].
Qed.

Lemma columns_with_cons (role : string) (k v : string)
      (d : list (string * string)) :
  columns_with role ((k, v) :: d)
  = if String.eqb v role then k :: columns_with role d
    else columns_with role d.
Proof.
  unfold columns_with. simpl. now destruct (String.eqb v role).
Qed.

Lemma dict_set_other_roles (d : list (string * string))
      (key value role : string) :
  role <> value ->
  (List.length (columns_with role (dict_set d key value))
   <= List.length (columns_with role d))%nat.
Proof.
  intros Hne. induction d as [|[k0 v0] d IH]; simpl.
  - rewrite columns_with_cons.
    destruct (String.eqb_spec value role) as [->|_]; [now elim Hne|].
    simpl. lia.
  - destruct (String.eqb k0 key); rewrite !columns_with_cons.
    + destruct (String.eqb_spec value role) as [->|_]; [now elim Hne|].
      destruct (String.eqb v0 role); simpl; lia.
    + destruct (String.eqb v0 role); simpl; lia.
Qed.

Lemma dict_set_same_role (d : list (string * string)) (key value : string) :
  (List.length (columns_with value (dict_set d key value))
   <= S (List.length (columns_with value d)))%nat.
Proof.
  induction d as [|[k0 v0] d IH]; simpl.
  - rewrite columns_with_cons, String.eqb_refl. simpl. lia.
  - destruct (String.eqb k0 key); rewrite !columns_with_cons.
    + rewrite String.eqb_refl. destruct (String.eqb v0 value); simpl; lia.
    + destruct (String.eqb v0 value); simpl; lia.
Qed.

Lemma in_values_columns_with (d : list (string * string)) (role : string) :
  in_values d role = negb (List.length (columns_with role d) =? 0)%nat.
Proof.
  induction d as [|[k0 v0] d IH]; [reflexivity|].
  rewrite columns_with_cons. unfold in_values in *. simpl.
  destruct (String.eqb v0 role); [reflexivity|exact IH].
Qed.

(** The inner loop assigns the role to the first column, in the order of
    the frame, whose normalised name contains the keyword. *)
Lemma map_first_match_from (keyword role : string) (done rest : list string)
      (column_mapping : list (string * string)) :
  map_first_match keyword role (done ++ rest)%list (List.length done)
                  (map normalised rest) column_mapping
  = match find (fun col => str_in keyword (normalised col)) rest with
    | Some col => dict_set column_mapping col role
    | None => column_mapping
    end.
Proof.
  revert done. induction rest as [|col rest IH]; intros done;
    [reflexivity|].
  cbn [map map_first_match find].
  destruct (str_in keyword (normalised col)).
  - now rewrite nth_middle.
  - specialize (IH (done ++ [col])%list).
    rewrite <- app_assoc, length_app, Nat.add_1_r in IH. exact IH.
Qed.

Lemma map_first_match_find (keyword role : string) (columns : list string)
      (column_mapping : list (string * string)) :
  map_first_match keyword role columns 0
                  (map (fun col => strip (lower col)) columns)
                  column_mapping
  = match find (fun col => str_in keyword (normalised col)) columns with
    | Some col => dict_set column_mapping col role
    | None => column_mapping
    end.
Proof. exact (map_first_match_from keyword role [] columns column_mapping).
Qed.

Section DetectInvariant.

Variable P : list (string * string) -> Prop.
Variables (role : string) (columns : list string).

Lemma map_first_match_preserves (keyword : string)
      (column_mapping : list (string * string)) :
  (forall col m, In col columns ->
                 str_in keyword (normalised col) = true ->
                 P m -> P (dict_set m col role)) ->
  P column_mapping ->
  P (map_first_match keyword role columns 0
                     (map (fun col => strip (lower col)) columns)
                     column_mapping).
Proof.
  intros Hstep Hm. rewrite map_first_match_find.
  destruct (find (fun col => str_in keyword (normalised col)) columns)
    as [col|] eqn:Hfind; [|exact Hm].
  apply find_some in Hfind as [Hin Hkw]. now apply Hstep.
Qed.

Lemma detect_preserves (keywords : list string) :
  (forall keyword col m,
      In keyword keywords -> In col columns ->
      str_in keyword (normalised col) = true ->
      P m -> P (dict_set m col role)) ->
  forall column_mapping,
    P column_mapping ->
    P (detect role keywords columns
              (map (fun col => strip (lower col)) columns) column_mapping).
Proof.
  induction keywords as [|keyword rest IH]; intros Hstep m Hm; [exact Hm|].
  cbn [detect].
  assert (Hm' : P (map_first_match keyword role columns 0
                     (map (fun col => strip (lower col)) columns) m)).
  { apply map_first_match_preserves; [|exact Hm].
    intros col m0. apply Hstep. now left. }
  destruct (in_values _ role); [exact Hm'|].
  apply IH; [|exact Hm'].
  intros kw col m0 Hkw. apply Hstep. now right.
Qed.

Lemma detect_every_preserves (keywords : list string) :
  (forall keyword col m,
      In keyword keywords -> In col columns ->
      str_in keyword (normalised col) = true ->
      P m -> P (dict_set m col role)) ->
  forall column_mapping,
    P column_mapping ->
    P (detect_every role keywords columns
                    (map (fun col => strip (lower col)) columns)
                    column_mapping).
Proof.
  induction keywords as [|keyword rest IH]; intros Hstep m Hm; [exact Hm|].
  cbn [detect_every]. apply IH.
  - intros kw col m0 Hkw. apply Hstep. now right.
  - apply map_first_match_preserves; [|exact Hm].
    intros col m0. apply Hstep. now left.
Qed.

End DetectInvariant.

(** A required role is given to at most one column by its loop, which
    stops after the first assignment. *)
Lemma detect_at_most_one (role : string) (keywords columns : list string) :
  forall column_mapping,
    in_values column_mapping role = false ->
    (List.length
       (columns_with role
          (detect role keywords columns
                  (map (fun col => strip (lower col)) columns)
                  column_mapping)) <= 1)%nat.
Proof.
  induction keywords as [|keyword rest IH]; intros m Hm; cbn [detect].
  - rewrite in_values_columns_with in Hm.
    destruct (List.length (columns_with role m)); [lia|discriminate].
  - destruct (in_values (map_first_match keyword role columns 0
                           (map (fun col => strip (lower col)) columns) m)
                        role) eqn:Hafter.
    + rewrite map_first_match_find.
      rewrite in_values_columns_with in Hm.
      destruct (find (fun col => str_in keyword (normalised col)) columns).
      * pose proof (dict_set_same_role m s role).
        destruct (List.length (columns_with role m)); [lia|discriminate].
      * destruct (List.length (columns_with role m)); [lia|discriminate].
    + now apply IH.
Qed.

(** Every date keyword contains "date", so the date loop settles on the
    first column whose name contains "date", or on none. *)
Lemma detect_date (columns : list string) :
  detect "date" date_keywords columns
         (map (fun col => strip (lower col)) columns) []
  = match find (fun col => str_in "date" (normalised col)) columns with
    | Some col => [(col, "date")]
    | None => []
    end.
Proof.
  destruct (find (fun col => str_in "date" (normalised col)) columns)
    as [col|] eqn:Hfind.
  - unfold date_keywords. cbn [detect]. rewrite map_first_match_find, Hfind.
    reflexivity.
  - assert (Hnone : forall keyword,
               In keyword date_keywords ->
               find (fun col => str_in keyword (normalised col)) columns
               = None).
    { intros keyword Hk. apply find_none_iff. intros col Hcol.
      destruct (str_in keyword (normalised col)) eqn:Hkw; [|reflexivity].
      rewrite find_none_iff in Hfind. rewrite <- (Hfind col Hcol).
      symmetry. apply (str_in_longer "date" keyword); [|exact Hkw].
      simpl in Hk.
      destruct Hk as [<-|[<-|[<-|[<-|[<-|[<-|[]]]]]]].
      - exists "", "". reflexivity.
      - exists "transaction_", "". reflexivity.
      - exists "posted_", "". reflexivity.
      - exists "value_", "". reflexivity.
      - exists "tran_", "". reflexivity.
      - exists "trans_", "". reflexivity. }
    unfold date_keywords in *. cbn [detect].
    repeat (rewrite map_first_match_find, Hnone by (simpl; tauto);
            cbn [in_values existsb]).
    reflexivity.
Qed.

Lemma names_role_keyword (role keyword col : string) :
  In keyword (role_keywords role) ->
  str_in keyword (normalised col) = true ->
  names_role col role = true.
Proof.
  intros Hk Hkw. unfold names_role. apply any_keyword_In. now exists keyword.
Qed.

(** X20.  A mapping [auto_detect_columns] returns gives each of the roles
    date, description and amount to exactly one column, and no column two
    roles; every mapped column is a column of the frame whose name
    contains a keyword of its role; and the date column is the first
    column of the frame whose name contains "date". *)
Theorem X20_detected_columns
        (columns : list string) (column_mapping : list (string * string))
        (Hfound : auto_detect_columns columns = Some column_mapping) :
  NoDup (map fst column_mapping)
  /\ (forall col role,
         In (col, role) column_mapping ->
         In col columns /\ names_role col role = true)
  /\ (forall role,
         In role ["date"; "description"; "amount"] ->
         exists col, columns_with role column_mapping = [col])
  /\ (forall col,
         In (col, "date") column_mapping ->
         find (fun c => str_in "date" (normalised c)) columns = Some col).
Proof.
  unfold auto_detect_columns in Hfound. cbv zeta in Hfound.
  set (lowered := map (fun col => strip (lower col)) columns) in *.
  set (m1 := detect "date" date_keywords columns lowered []) in *.
  set (m2 := detect "description" desc_keywords columns lowered m1) in *.
  set (m3 := detect "amount" amount_keywords columns lowered m2) in *.
  set (m4 := detect_every "type" type_keywords columns lowered m3) in *.
  destruct (forallb (in_values m4) ["date"; "description"; "amount"])
    eqn:Hall; [|discriminate Hfound].
  injection Hfound as <-.
  (* the keys stay distinct *)
  assert (Hkeys : NoDup (map fst m4)).
  { apply detect_every_preserves;
      [intros; now apply dict_set_NoDup|].
    apply detect_preserves; [intros; now apply dict_set_NoDup|].
    apply detect_preserves; [intros; now apply dict_set_NoDup|].
    apply detect_preserves; [intros; now apply dict_set_NoDup|].
    constructor. }
  (* every entry comes from a column naming its role *)
  assert (Hstep : forall role keywords,
             role_keywords role = keywords ->
             forall keyword col m,
               In keyword keywords -> In col columns ->
               str_in keyword (normalised col) = true ->
               (forall c r, In (c, r) m ->
                            In c columns /\ names_role c r = true) ->
               forall c r, In (c, r) (dict_set m col role) ->
                           In c columns /\ names_role c r = true).
  { intros role keywords <- keyword col m Hk Hcol Hkw Hm c r Hin.
    apply dict_set_In in Hin as [[-> ->]|Hin]; [|now apply Hm].
    split; [exact Hcol|]. now apply (names_role_keyword role keyword). }
  assert (Horigin : forall c r, In (c, r) m4 ->
                                In c columns /\ names_role c r = true).
  { apply (detect_every_preserves _ _ _ _ (Hstep "type" _ eq_refl)).
    apply (detect_preserves _ _ _ _ (Hstep "amount" _ eq_refl)).
    apply (detect_preserves _ _ _ _ (Hstep "description" _ eq_refl)).
    apply (detect_preserves _ _ _ _ (Hstep "date" _ eq_refl)).
    intros c r []. }
  (* a later loop never adds a column to an earlier role *)
  assert (Hother : forall role role' n,
             role' <> role ->
             forall (keyword col : string) (m : list (string * string)),
               (List.length (columns_with role' m) <= n)%nat ->
               (List.length (columns_with role' (dict_set m col role))
                <= n)%nat).
  { intros role role' n Hne keyword col m Hm.
    pose proof (dict_set_other_roles m col role role' Hne). lia. }
  assert (Hdate : (List.length (columns_with "date" m4) <= 1)%nat).
  { apply detect_every_preserves;
      [intros kw col m _ _ _; now apply (Hother "type" "date" 1%nat)|].
    apply detect_preserves;
      [intros kw col m _ _ _; now apply (Hother "amount" "date" 1%nat)|].
    apply detect_preserves;
      [intros kw col m _ _ _;
       now apply (Hother "description" "date" 1%nat)|].
    now apply detect_at_most_one. }
  assert (Hdesc0 : in_values m1 "description" = false).
  { rewrite in_values_columns_with.
    assert (H : (List.length (columns_with "description" m1) <= 0)%nat).
    { apply detect_preserves;
        [intros kw col m _ _ _;
         now apply (Hother "date" "description" 0%nat)|].
      simpl. lia. }
    destruct (List.length (columns_with "description" m1));
      [reflexivity|lia]. }
  assert (Hdesc : (List.length (columns_with "description" m4) <= 1)%nat).
  { apply detect_every_preserves;
      [intros kw col m _ _ _;
       now apply (Hother "type" "description" 1%nat)|].
    apply detect_preserves;
      [intros kw col m _ _ _;
       now apply (Hother "amount" "description" 1%nat)|].
    now apply detect_at_most_one. }
  assert (Hamount0 : in_values m2 "amount" = false).
  { rewrite in_values_columns_with.
    assert (H : (List.length (columns_with "amount" m2) <= 0)%nat).
    { apply detect_preserves;
        [intros kw col m _ _ _;
         now apply (Hother "description" "amount" 0%nat)|].
      apply detect_preserves;
        [intros kw col m _ _ _;
         now apply (Hother "date" "amount" 0%nat)|].
      simpl. lia. }
    destruct (List.length (columns_with "amount" m2));
      [reflexivity|lia]. }
  assert (Hamount : (List.length (columns_with "amount" m4) <= 1)%nat).
  { apply detect_every_preserves;
      [intros kw col m _ _ _; now apply (Hother "type" "amount" 1%nat)|].
    now apply detect_at_most_one. }
  (* the date entry is the one the date loop made *)
  assert (Hfirst : forall col,
             In (col, "date") m4 ->
             find (fun c => str_in "date" (normalised c)) columns
             = Some col).
  { assert (Hkeep : forall role, role <> "date" ->
               forall (keyword col : string) (m : list (string * string)),
                 (forall c, In (c, "date") m ->
                            find (fun c => str_in "date" (normalised c))
                                 columns = Some c) ->
                 forall c, In (c, "date") (dict_set m col role) ->
                           find (fun c => str_in "date" (normalised c))
                                columns = Some c).
    { intros role Hne keyword col m Hm c Hin.
      apply dict_set_In in Hin as [[_ Heq]|Hin]; [|now apply Hm].
      now elim Hne. }
    apply detect_every_preserves;
      [intros kw col m _ _ _; now apply (Hkeep "type")|].
    apply detect_preserves;
      [intros kw col m _ _ _; now apply (Hkeep "amount")|].
    apply detect_preserves;
      [intros kw col m _ _ _; now apply (Hkeep "description")|].
    subst m1 lowered. rewrite detect_date.
    destruct (find (fun c => str_in "date" (normalised c)) columns)
      as [c0|]; intros c Hin; [|destruct Hin].
    destruct Hin as [Heq|[]]. now injection Heq as <-. }
  split; [exact Hkeys|]. split; [exact Horigin|]. split; [|exact Hfirst].
  intros role Hrole.
  assert (Hone : in_values m4 role = true
                 /\ (List.length (columns_with role m4) <= 1)%nat).
  { split; [exact (In_forallb _ _ role Hall Hrole)|].
    simpl in Hrole. destruct Hrole as [<-|[<-|[<-|[]]]]; assumption. }
  destruct Hone as [Hin Hle]. rewrite in_values_columns_with in Hin.
  destruct (columns_with role m4) as [|col [|col' l]] eqn:Hcols;
    simpl in *; [discriminate|now exists col|lia].
Qed.

Lemma X20_detected_columns_witness :
  auto_detect_columns ["Txn Date"; " Narration "; "Amount (INR)"; "Dr_Cr"]
  = Some [("Txn Date", "date"); (" Narration ", "description");
          ("Amount (INR)", "amount"); ("Dr_Cr", "type")]
  /\ exists col,
      columns_with "date"
        [("Txn Date", "date"); (" Narration ", "description");
         ("Amount (INR)", "amount"); ("Dr_Cr", "type")]
      = [col].
Proof.
  assert (H : auto_detect_columns
                ["Txn Date"; " Narration "; "Amount (INR)"; "Dr_Cr"]
              = Some [("Txn Date", "date"); (" Narration ", "description");
                      ("Amount (INR)", "amount"); ("Dr_Cr", "type")])
    by reflexivity.
  split; [exact H|].
  apply (proj1 (proj2 (proj2 (X20_detected_columns _ _ H)))).
  simpl. tauto.
Defined.

Lemma dict_set_has (d : list (string * string)) (key value : string) :
  In (key, value) (dict_set d key value).
Proof.
  induction d as [|[k0 v0] d IH]; simpl; [now left|].
  destruct (String.eqb_spec k0 key) as [->|_]; [now left|now right].
Qed.

Lemma in_values_In (d : list (string * string)) (role : string) :
  in_values d role = true <-> exists col, In (col, role) d.
Proof.
  unfold in_values. rewrite existsb_exists. split.
  - intros [[c r] [Hin Heq]]. apply String.eqb_eq in Heq. simpl in Heq.
    subst r. now exists c.
  - intros [c Hin]. exists (c, role). split; [exact Hin|].
    apply String.eqb_refl.
Qed.

Lemma NoDup_keys_functional (d : list (string * string))
      (k v v' : string) :
  NoDup (map fst d) -> In (k, v) d -> In (k, v') d -> v = v'.
Proof.
  induction d as [|[k0 v0] d IH]; simpl; intros Hd H1 H2; [destruct H1|].
  inversion Hd as [|? ? Hnotin Hrest]; subst.
  destruct H1 as [H1|H1], H2 as [H2|H2].
  - congruence.
  - injection H1 as -> ->. elim Hnotin.
    change k with (fst (k, v')). now apply in_map.
  - injection H2 as -> ->. elim Hnotin.
    change k with (fst (k, v)). now apply in_map.
  - now apply IH.
Qed.

Lemma dict_set_absent (d : list (string * string))
      (key value role : string) :
  role <> value ->
  in_values d role = false ->
  in_values (dict_set d key value) role = false.
Proof.
  intros Hne. rewrite !in_values_columns_with.
  pose proof (dict_set_other_roles d key value role Hne).
  destruct (List.length (columns_with role d)); [|discriminate].
  destruct (List.length (columns_with role (dict_set d key value)));
    [reflexivity|lia].
Qed.

(** X21.  Detection fails on a frame whose date column is also the first
    match of the amount loop: when no column name contains "amount" and
    the first column whose name contains "value" is the date column, that
    column is given the role amount in place of date, and
    [auto_detect_columns] returns [None], whatever the other columns
    are. *)
Theorem X21_date_column_taken_for_the_amount
        (columns : list string) (col : string)
        (Hdate : find (fun c => str_in "date" (normalised c)) columns
                 = Some col)
        (Hamount : find (fun c => str_in "amount" (normalised c)) columns
                   = None)
        (Hvalue : find (fun c => str_in "value" (normalised c)) columns
                  = Some col) :
  auto_detect_columns columns = None.
Proof.
  unfold auto_detect_columns. cbv zeta.
  set (lowered := map (fun c => strip (lower c)) columns).
  set (m1 := detect "date" date_keywords columns lowered []).
  set (m2 := detect "description" desc_keywords columns lowered m1).
  set (m3 := detect "amount" amount_keywords columns lowered m2).
  set (m4 := detect_every "type" type_keywords columns lowered m3).
  assert (H1 : m1 = [(col, "date")])
    by (subst m1 lowered; now rewrite detect_date, Hdate).
  assert (H2 : NoDup (map fst m2)
               /\ in_values m2 "amount" = false).
  { apply detect_preserves.
    - intros kw c m _ _ _ [Hk Ha]. split; [now apply dict_set_NoDup|].
      now apply dict_set_absent.
    - rewrite H1. split; [|reflexivity].
      constructor; [intros []|constructor]. }
  destruct H2 as [Hkeys Hnone].
  assert (H3 : m3 = dict_set m2 col "amount").
  { subst m3 lowered. unfold amount_keywords. cbn [detect].
    rewrite map_first_match_find, Hamount, Hnone.
    rewrite map_first_match_find, Hvalue.
    assert (Hnow : in_values (dict_set m2 col "amount") "amount" = true)
      by (apply in_values_In; exists col; apply dict_set_has).
    now rewrite Hnow. }
  assert (Hlost : forall c, ~ In (c, "date") m3).
  { intros c Hin. rewrite H3 in Hin.
    assert (Hc : c = col).
    { apply dict_set_In in Hin as [[-> _]|Hin]; [reflexivity|].
      revert c Hin. apply detect_preserves.
      - intros kw c' m _ _ _ Hm c Hin.
        apply dict_set_In in Hin as [[_ Heq]|Hin];
          [discriminate Heq|now apply Hm].
      - rewrite H1. intros c [Heq|[]]. now injection Heq as <-. }
    subst c.
    assert (Heq : "date" = "amount").
    { apply (NoDup_keys_functional (dict_set m2 col "amount") col).
      - now apply dict_set_NoDup.
      - exact Hin.
      - apply dict_set_has. }
    discriminate Heq. }
  assert (Hlost4 : forall c, ~ In (c, "date") m4).
  { apply detect_every_preserves; [|exact Hlost].
    intros kw c' m _ _ _ Hm c Hin.
    apply dict_set_In in Hin as [[_ Heq]|Hin];
      [discriminate Heq|now apply (Hm c)]. }
  assert (Hno : in_values m4 "date" = false).
  { destruct (in_values m4 "date") eqn:Hhas; [|reflexivity].
    apply in_values_In in Hhas as [c Hc]. now elim (Hlost4 c). }
  cbn [forallb]. now rewrite Hno.
Qed.

Lemma X21_date_column_taken_for_the_amount_witness :
  find (fun c => str_in "date" (normalised c))
       ["Value Date"; "Narration"; "Debit"; "Credit"] = Some "Value Date"
  /\ auto_detect_columns ["Value Date"; "Narration"; "Debit"; "Credit"]
     = None.
Proof.
  split; [reflexivity|].
  apply (X21_date_column_taken_for_the_amount
           ["Value Date"; "Narration"; "Debit"; "Credit"] "Value Date");
    reflexivity.
Defined.

(** ** The two categorisers *)

Lemma scan_table_not_Other (description_lower category : string) :
  scan_table Config.CATEGORY_KEYWORDS description_lower = Some category ->
  String.eqb category "Other" = false.
Proof.
  unfold Config.CATEGORY_KEYWORDS. cbn [scan_table].
  repeat match goal with
         | |- context [if ?b then _ else _] => destruct b
         end;
    intros H; try discriminate H; injection H as <-; reflexivity.
Qed.

(** X22.  The categoriser of [ai_categorizer.py] gives the category of
    [transaction_categorizer.py] whenever a keyword of the table occurs in
    the description, or the similarity step gives "Other"; whatever the
    similarity step is, it decides only descriptions free of keywords. *)
Theorem X22_categorisers_agree
        (similarity : string -> string)
        (description : string) (amount : Q) (transaction_type : string)
        (Hdecided :
           existsb (matches (lower description)) table_pairs = true
           \/ similarity description = "Other") :
  AiCategorizer.categorize_transaction similarity description amount
                                       transaction_type
  = categorize_transaction description amount transaction_type.
Proof.
  unfold AiCategorizer.categorize_transaction,
    AiCategorizer._rule_based_categorization,
    AiCategorizer._amount_based_categorization, categorize_transaction.
  cbv zeta.
  destruct (scan_table Config.CATEGORY_KEYWORDS (lower description))
    as [category|] eqn:Hscan.
  - now rewrite (scan_table_not_Other _ _ Hscan).
  - cbn [String.eqb Ascii.eqb Bool.eqb negb].
    destruct Hdecided as [Hkeyword| ->]; [|reflexivity].
    exfalso. rewrite scan_table_find in Hscan.
    apply existsb_exists in Hkeyword as [p [Hin Hp]].
    destruct (find (matches (lower description))
                   (pairs Config.CATEGORY_KEYWORDS)) eqn:Hfind;
      [discriminate Hscan|].
    rewrite find_none_iff in Hfind.
    rewrite (Hfind p Hin) in Hp. discriminate Hp.
Qed.

Lemma X22_categorisers_agree_witness :
  existsb (matches (lower "UBER RIDE")) table_pairs = true
  /\ AiCategorizer.categorize_transaction (fun _ => "Travel") "UBER RIDE"
                                          250 "Debit"
     = categorize_transaction "UBER RIDE" 250 "Debit".
Proof.
  split; [reflexivity|].
  apply (X22_categorisers_agree (fun _ => "Travel") "UBER RIDE" 250 "Debit").
  left. reflexivity.
Defined.
